(** * SwiftStock: nearest-facility matching, item-name resolution and the
      synthetic inventory generator

    A shallow embedding of the three source files of the repository

      - [src/streamlit_app.py]                  (module [streamlit_app])
      - [src/streamlit_mvp/streamlit_app.py]    (module [streamlit_mvp])
      - [src/data_ingestion/inventory_data_generator.py]
                                                (module [inventory_data_generator])

    The hosted warehouse is an external collaborator: its tables, its
    geodesic function [ST_DISTANCE], the order in which it lists rows of
    equal sort key, whether it answers a call or raises, and what it makes of
    a query text that interpolation has turned into another statement are
    inputs, gathered in the record [Session].  The SQL text of the two
    [find_nearest_neighbors] is embedded clause by clause (FROM/JOIN, WHERE,
    SELECT, HAVING, ORDER BY, LIMIT).  Python exceptions are the [Raised]
    constructor of [outcome]; Streamlit calls are events appended to a log.
    The generator's [random] module is a tape of raw draws threaded through a
    state monad.

    Conventions of the model:
      - text is ASCII ([string]); [str.lower] is ASCII lower-casing;
      - warehouse columns are NOT NULL; integers are [Z];
      - floating-point distances are rationals ([Q]); [ROUND(x, 1)] rounds
        half away from zero to one decimal;
      - [src/streamlit_app.py] builds its query text by interpolation: the
        text denotes the query of the source only when the interpolated id
        and name hold no quote and no backslash ([sql_plain]); otherwise it
        is another text, which the engine either cannot compile (the call
        raises, [failure]) or runs as the statement it has become (the
        rows are the engine's, [injected]);
      - ORDER BY sorts on DISTANCE_KM alone; rows of equal DISTANCE_KM come
        in the order the engine picks ([tie_rank]);
      - the generator reads a well-formed facility file: every row has an
        id (a number or a text, as pandas types the column) and
        coordinates that the geodesic accepts. *)

From Stdlib Require Import List String Ascii Bool ZArith NArith QArith Qabs.
From Stdlib Require Import Lia Lqa.
From Stdlib Require Import Sorting.Sorted Sorting.Permutation.
From Stdlib Require Import DecimalString.
Import ListNotations.

Local Open Scope string_scope.
Local Open Scope Z_scope.

(* ===================================================================== *)
(** * Part I.  Definitions                                                *)
(* ===================================================================== *)

(** ** Python exceptions *)

(** An exception is identified with its message, [str(e)]. *)
Definition exn := string.

Inductive outcome (A : Type) : Type :=
| Returned (a : A)
| Raised (e : exn).
Arguments Returned {A} a.
Arguments Raised {A} e.

(** ** Rational helpers for SQL numerics *)

Definition Qlt_bool (x y : Q) : bool := negb (Qle_bool y x).

Fixpoint pow10 (d : nat) : positive :=
  match d with
  | O => 1%positive
  | S k => (10 * pow10 k)%positive
  end.

(** Nearest integer, halves away from zero (the warehouse's rounding mode). *)
Definition round_half_away (x : Q) : Z :=
  Z.sgn (Qnum x) * ((2 * Z.abs (Qnum x) + Z.pos (Qden x)) / (2 * Z.pos (Qden x))).

(** [ROUND(x, d)] *)
Definition ROUND (x : Q) (d : nat) : Q :=
  Qmake (round_half_away (x * (Z.pos (pow10 d) # 1))) (pow10 d).

(** ** The warehouse *)

Definition GeoPoint := (Q * Q)%type.

Definition ST_MAKEPOINT (lon lat : Q) : GeoPoint := (lon, lat).

(** Table FACILITIES. *)
Module Fac.
Record t := mk {
  FACILITY_ID : string;
  FACILITY_NAME : string;
  LATITUDE : Q;
  LONGITUDE : Q;
  GEO_POINT : GeoPoint
}.
End Fac.

(** Tables INVENTORY_DAILY and INVENTORY_DAILY_PREDICTED, restricted to the
    columns the neighbor queries read. *)
Module Inv.
Record t := mk {
  FACILITY_ID : string;
  ITEM_NAME : string;
  CLOSING_STOCK : Z
}.
End Inv.

Record Database := {
  FACILITIES : list Fac.t;
  INVENTORY_DAILY : list Inv.t;
  INVENTORY_DAILY_PREDICTED : list Inv.t
}.

(** One row of the frame returned by the neighbor query (a NeighborMatch). *)
Record NeighborMatch := {
  SAVIOR_NAME : string;
  SAVIOR_LAT : Q;
  SAVIOR_LON : Q;
  AVAILABLE_STOCK : Z;
  DISTANCE_KM : Q
}.

Definition DataFrame := list NeighborMatch.

(** The two files that send a neighbor query. *)
Inductive dashboard : Type := main_app | mvp_app.

(** The connection object [session]:
    - the data;
    - the engine's geodesic distance in metres;
    - whether the call to the warehouse raises: the warehouse cannot be
      reached, times out, or cannot compile the text it is sent;
    - the engine's order among rows of equal sort key, as a rank: ORDER BY
      leaves that order to the engine, which may pick another one for
      another statement or other values (the rank is by sending file,
      victim id and item name);
    - the rows the engine returns for the text that [src/streamlit_app.py]
      builds by interpolation when a value with a quote or a backslash has
      made it another statement than the query of the source, by the
      interpolated victim id and item name. *)
Record Session := {
  tables : Database;
  ST_DISTANCE : GeoPoint -> GeoPoint -> Q;
  failure : option exn;
  tie_rank : dashboard -> string -> string -> NeighborMatch -> N;
  injected : string -> string -> DataFrame
}.

(** [pd.DataFrame()] and [df.empty] *)
Definition empty_DataFrame : DataFrame := [].

Definition empty (df : DataFrame) : bool :=
  match df with [] => true | _ :: _ => false end.

(** [session.sql(query).to_pandas()]: the engine evaluates the query on its
    tables or raises. *)
Definition sql_to_pandas (session : Session) (query : Session -> DataFrame)
  : outcome DataFrame :=
  match failure session with
  | Some e => Raised e
  | None => Returned (query session)
  end.

(** The two characters that end or escape inside an SQL string constant. *)
Definition apostrophe : ascii := ascii_of_nat 39.
Definition backslash : ascii := ascii_of_nat 92.

(** A text that an f-string can put between the quotes of an SQL string
    constant without changing the statement around it: it holds no quote
    and no backslash. *)
Fixpoint sql_plain (s : string) : bool :=
  match s with
  | EmptyString => true
  | String c s' =>
      (negb (Ascii.eqb c apostrophe) && negb (Ascii.eqb c backslash)
       && sql_plain s')%bool
  end.

(** [session.sql(text).to_pandas()] where [text] is the f-string of
    [src/streamlit_app.py] with [victim_id] and [item_name] put between
    quotes, and [query] is the statement that f-string spells with plain
    values.  With a value that holds a quote or a backslash the text is
    another one: the engine either cannot compile it -- the call raises, a
    [failure] of the session -- or runs the statement the text has become,
    whose rows are [injected]. *)
Definition sql_interpolated_to_pandas (session : Session)
  (victim_id item_name : string) (query : Session -> DataFrame)
  : outcome DataFrame :=
  match failure session with
  | Some e => Raised e
  | None =>
      if (sql_plain victim_id && sql_plain item_name)%bool
      then Returned (query session)
      else Returned (injected session victim_id item_name)
  end.

(** *** Clauses shared by the two neighbor queries *)

Definition JoinedRow := (Fac.t * Fac.t * Inv.t)%type.

(** FROM FACILITIES source
    JOIN FACILITIES neighbor ON source.FACILITY_ID != neighbor.FACILITY_ID
    JOIN <inventory> inv ON neighbor.FACILITY_ID = inv.FACILITY_ID *)
Definition from_join (facilities : list Fac.t) (inventory : list Inv.t)
  : list JoinedRow :=
  flat_map (fun source =>
    flat_map (fun neighbor =>
      if negb (Fac.FACILITY_ID source =? Fac.FACILITY_ID neighbor)%string
      then flat_map (fun inv =>
             if (Fac.FACILITY_ID neighbor =? Inv.FACILITY_ID inv)%string
             then [(source, neighbor, inv)] else [])
           inventory
      else [])
    facilities)
  facilities.

(** WHERE source.FACILITY_ID = victim_id AND inv.ITEM_NAME = item_name
      AND inv.CLOSING_STOCK > 100 *)
Definition where_clause (victim_id item_name : string) (j : JoinedRow) : bool :=
  let '(source, _, inv) := j in
  (Fac.FACILITY_ID source =? victim_id)%string
  && (Inv.ITEM_NAME inv =? item_name)%string
  && (100 <? Inv.CLOSING_STOCK inv).

(** The SELECT list; [point_of] is the expression that yields a facility's
    point ([GEO_POINT] in one file, [ST_MAKEPOINT(LONGITUDE, LATITUDE)] in
    the other). *)
Definition select_clause (session : Session) (point_of : Fac.t -> GeoPoint)
  (j : JoinedRow) : NeighborMatch :=
  let '(source, neighbor, inv) := j in
  {| SAVIOR_NAME := Fac.FACILITY_NAME neighbor;
     SAVIOR_LAT := Fac.LATITUDE neighbor;
     SAVIOR_LON := Fac.LONGITUDE neighbor;
     AVAILABLE_STOCK := Inv.CLOSING_STOCK inv;
     DISTANCE_KM :=
       ROUND (ST_DISTANCE session (point_of source) (point_of neighbor)
              / (1000 # 1)) 1 |}.

(** HAVING DISTANCE_KM < 10 *)
Definition having_distance_lt_10 (rows : DataFrame) : DataFrame :=
  filter (fun r => Qlt_bool (DISTANCE_KM r) (10 # 1)) rows.

(** ORDER BY DISTANCE_KM ASC.  [comes_first rank a b]: row [a] may stand in
    front of row [b] -- it is displayed closer, or as close and the engine
    ranks it no later. *)
Definition comes_first (rank : NeighborMatch -> N) (a b : NeighborMatch) : bool :=
  (Qlt_bool (DISTANCE_KM a) (DISTANCE_KM b)
   || (Qle_bool (DISTANCE_KM a) (DISTANCE_KM b) && (rank a <=? rank b)%N))%bool.

Fixpoint insert_by_distance (rank : NeighborMatch -> N) (r : NeighborMatch)
  (rows : DataFrame) : DataFrame :=
  match rows with
  | [] => [r]
  | h :: t =>
      if comes_first rank r h
      then r :: h :: t
      else h :: insert_by_distance rank r t
  end.

Definition order_by_distance (rank : NeighborMatch -> N) (rows : DataFrame)
  : DataFrame :=
  fold_right (insert_by_distance rank) [] rows.

(** LIMIT n *)
Definition limit (n : nat) (rows : DataFrame) : DataFrame := firstn n rows.

(** The rows that survive the join and the WHERE clause, projected. *)
Definition candidates (session : Session) (point_of : Fac.t -> GeoPoint)
  (inventory : list Inv.t) (victim_id item_name : string) : DataFrame :=
  map (select_clause session point_of)
      (filter (where_clause victim_id item_name)
              (from_join (FACILITIES (tables session)) inventory)).

(** The distance between two facilities in kilometres, as the engine
    measures it and as the frame displays it (rounded to 0.1 km). *)
Definition true_km (session : Session) (point_of : Fac.t -> GeoPoint)
  (source neighbor : Fac.t) : Q :=
  ST_DISTANCE session (point_of source) (point_of neighbor) / (1000 # 1).

Definition displayed_km (session : Session) (point_of : Fac.t -> GeoPoint)
  (source neighbor : Fac.t) : Q :=
  ROUND (true_km session point_of source neighbor) 1.

(** Row [r] shows facility [neighbor] and its inventory row [inv] as seen
    from [source]: the five columns, spelled out. *)
Definition shows (session : Session) (point_of : Fac.t -> GeoPoint)
  (source neighbor : Fac.t) (inv : Inv.t) (r : NeighborMatch) : Prop :=
  SAVIOR_NAME r = Fac.FACILITY_NAME neighbor
  /\ SAVIOR_LAT r = Fac.LATITUDE neighbor
  /\ SAVIOR_LON r = Fac.LONGITUDE neighbor
  /\ AVAILABLE_STOCK r = Inv.CLOSING_STOCK inv
  /\ DISTANCE_KM r = displayed_km session point_of source neighbor.

(** The three-way join from which a returned row was projected: the
    source is the victim, the neighbor is another facility, and the inventory
    row is the neighbor's. *)
Definition projected_from (session : Session) (point_of : Fac.t -> GeoPoint)
  (inventory : list Inv.t) (victim_id : string) (r : NeighborMatch) : Prop :=
  exists source neighbor inv,
    In source (FACILITIES (tables session))
    /\ In neighbor (FACILITIES (tables session))
    /\ In inv inventory
    /\ Fac.FACILITY_ID source = victim_id
    /\ Fac.FACILITY_ID neighbor <> Fac.FACILITY_ID source
    /\ Inv.FACILITY_ID inv = Fac.FACILITY_ID neighbor
    /\ shows session point_of source neighbor inv r.

(** Facility [neighbor] with its inventory row [inv] is a candidate for
    the victim [source] and the item: another facility than the victim,
    holding more than 100 units of the item. *)
Definition eligible (session : Session) (inventory : list Inv.t)
  (victim_id item_name : string) (source neighbor : Fac.t) (inv : Inv.t)
  : Prop :=
  In source (FACILITIES (tables session))
  /\ In neighbor (FACILITIES (tables session))
  /\ In inv inventory
  /\ Fac.FACILITY_ID source = victim_id
  /\ Fac.FACILITY_ID neighbor <> Fac.FACILITY_ID source
  /\ Inv.FACILITY_ID inv = Fac.FACILITY_ID neighbor
  /\ Inv.ITEM_NAME inv = item_name
  /\ 100 < Inv.CLOSING_STOCK inv.

(** No two rows of the list are displayed at the same distance. *)
Definition no_ties (rows : DataFrame) : Prop :=
  ForallOrdPairs (fun a b => ~ (DISTANCE_KM a == DISTANCE_KM b)%Q) rows.

Definition ascending (distances : list Q) : Prop := StronglySorted Qle distances.

Definition closer_eq (a b : NeighborMatch) : Prop :=
  (DISTANCE_KM a <= DISTANCE_KM b)%Q.

(** [rows] are the nearest of [pool], closest first: they are sorted, they
    are rows of [pool], and no row of [pool] left out is closer than one of
    them. *)
Definition nearest_of (pool rows : DataFrame) : Prop :=
  StronglySorted closer_eq rows
  /\ exists rest, Permutation pool (rows ++ rest)
                  /\ forall r c, In r rows -> In c rest -> closer_eq r c.

(** [rows] are candidates picked by displayed distance: the column ascends;
    every row shows a candidate; a candidate whose row was left out is
    displayed no closer than any row of the frame, hence lies at most
    0.1 km closer, the two roundings apart. *)
Definition picked_by_displayed_distance (session : Session)
  (point_of : Fac.t -> GeoPoint) (inventory : list Inv.t)
  (victim_id item_name : string) (rows : DataFrame) : Prop :=
  ascending (map DISTANCE_KM rows)
  /\ (forall r, In r rows ->
        exists source neighbor inv,
          eligible session inventory victim_id item_name source neighbor inv
          /\ shows session point_of source neighbor inv r)
  /\ (forall source neighbor inv r,
        eligible session inventory victim_id item_name source neighbor inv ->
        shows session point_of source neighbor inv r ->
        In r rows
        \/ forall r', In r' rows -> (DISTANCE_KM r' <= DISTANCE_KM r)%Q)
  /\ (forall source neighbor inv r source' neighbor' inv' r',
        eligible session inventory victim_id item_name source neighbor inv ->
        shows session point_of source neighbor inv r ->
        ~ In r rows ->
        In r' rows ->
        shows session point_of source' neighbor' inv' r' ->
        (true_km session point_of source' neighbor' - (1 # 10)
         <= true_km session point_of source neighbor)%Q).

(** Every two facilities lie strictly within 10 km (10000 m) of each other,
    whichever way their points are obtained. *)
Definition all_within_10km (session : Session) : bool :=
  forallb (fun f =>
    forallb (fun g =>
      Qlt_bool (ST_DISTANCE session (Fac.GEO_POINT f) (Fac.GEO_POINT g))
               (10000 # 1)
      && Qlt_bool (ST_DISTANCE session
                     (ST_MAKEPOINT (Fac.LONGITUDE f) (Fac.LATITUDE f))
                     (ST_MAKEPOINT (Fac.LONGITUDE g) (Fac.LATITUDE g)))
                  (10000 # 1))
      (FACILITIES (tables session)))
    (FACILITIES (tables session)).

(** ** Python string operations *)

(** [str.lower] on ASCII text *)
Definition lower_ascii (c : ascii) : ascii :=
  let n := nat_of_ascii c in
  if (Nat.leb 65 n && Nat.leb n 90)%bool then ascii_of_nat (n + 32) else c.

Fixpoint lower (s : string) : string :=
  match s with
  | EmptyString => EmptyString
  | String c s' => String (lower_ascii c) (lower s')
  end.

(** [sub in s] *)
Fixpoint contains (sub s : string) : bool :=
  (String.prefix sub s
   || match s with
      | EmptyString => false
      | String _ s' => contains sub s'
      end)%bool.

(** [s.split(" ")[0]]: the text before the first space *)
Fixpoint first_word (s : string) : string :=
  match s with
  | EmptyString => EmptyString
  | String c s' =>
      if Ascii.eqb c " "%char then EmptyString else String c (first_word s')
  end.

(** [sorted(l, key=len, reverse=True)]: stable, longest first *)
Fixpoint insert_by_len (x : string) (l : list string) : list string :=
  match l with
  | [] => [x]
  | h :: t =>
      if Nat.leb (String.length h) (String.length x)
      then x :: h :: t
      else h :: insert_by_len x t
  end.

Definition sorted_by_len_reverse (l : list string) : list string :=
  fold_right insert_by_len [] l.

(** [a] is at least as long as [b]. *)
Definition not_longer (a b : string) : Prop :=
  (String.length b <= String.length a)%nat.

(** [x in l] for a list of strings *)
Definition str_in (x : string) (l : list string) : bool :=
  existsb (String.eqb x) l.

(** ** Streamlit effects *)

(** What a script run puts on the page, in order. *)
Inductive ui_event : Type :=
| st_error (text : string)
| st_success_options (n : nat)  (* the success banner with [len(df)] *)
| st_dataframe (rows : DataFrame)
| arc_layer (rows : DataFrame).

(** A piece of dashboard script: the events it rendered and how it ended. *)
Definition App (A : Type) : Type := (list ui_event * outcome A)%type.

Definition ret {A} (a : A) : App A := ([], Returned a).

Definition bind {A B} (m : App A) (k : A -> App B) : App B :=
  match m with
  | (log, Returned a) => let '(log', r) := k a in ((log ++ log')%list, r)
  | (log, Raised e) => (log, Raised e)
  end.

Definition emit (ev : ui_event) : App unit := ([ev], Returned tt).

Definition lift {A} (o : outcome A) : App A := ([], o).

(** [try: body  except Exception as e: handler(e)] *)
Definition try_except {A} (body : App A) (handler : exn -> App A) : App A :=
  match body with
  | (log, Returned a) => (log, Returned a)
  | (log, Raised e) => let '(log', r) := handler e in ((log ++ log')%list, r)
  end.

Declare Scope app_scope.
Delimit Scope app_scope with app.
Notation "x <- m ;; k" := (bind m (fun x => k))
  (at level 61, m at next level, right associativity) : app_scope.
Notation "m ;;; k" := (bind m (fun _ => k))
  (at level 61, right associativity) : app_scope.

(** The rows of the frame a call handed back (none if it raised). *)
Definition returned_rows (m : App DataFrame) : DataFrame :=
  match snd m with
  | Returned df => df
  | Raised _ => []
  end.

(** What the chat assistant answers after the neighbor search. *)
Inductive chat_reply : Type :=
| reply_found (item : string) (top : NeighborMatch)
| reply_no_surplus (item : string).

(** ** [src/streamlit_app.py] *)

Module streamlit_app.

(** The rows that qualify: through the join on INVENTORY_DAILY, the WHERE
    clause and HAVING DISTANCE_KM < 10, with points read from GEO_POINT. *)
Definition qualifying (session : Session) (victim_id item_name : string)
  : DataFrame :=
  having_distance_lt_10
    (candidates session Fac.GEO_POINT
       (INVENTORY_DAILY (tables session)) victim_id item_name).

(** The statement that the f-string of [find_nearest_neighbors] spells
    when its two values are plain. *)
Definition query (victim_id item_name : string) (session : Session)
  : DataFrame :=
  limit 3 (order_by_distance (tie_rank session main_app victim_id item_name)
             (qualifying session victim_id item_name)).

Definition find_nearest_neighbors (session : Session)
  (victim_id item_name : string) : App DataFrame :=
  lift (sql_interpolated_to_pandas session victim_id item_name
          (query victim_id item_name)).

(** The emergency console once a hospital is selected. *)
Definition emergency_console (session : Session)
  (victim_id actual_item_name : string) : App unit :=
  (neighbors_df <- find_nearest_neighbors session victim_id actual_item_name ;;
   if negb (empty neighbors_df) then
     emit (st_success_options (List.length neighbors_df)) ;;;
     emit (st_dataframe neighbors_df) ;;;
     emit (arc_layer neighbors_df)
   else
     emit (st_error "No neighbors found within range."))%app.

(** The chat assistant once an item has been extracted. *)
Definition chat_lateral_transfer (session : Session)
  (victim_id extracted_item : string) : App chat_reply :=
  (matches <- find_nearest_neighbors session victim_id extracted_item ;;
   match matches with
   | top_match :: _ => ret (reply_found extracted_item top_match)
   | [] => ret (reply_no_surplus extracted_item)
   end)%app.

End streamlit_app.

(** ** [src/streamlit_mvp/streamlit_app.py] *)

Module streamlit_mvp.

(** The rows that qualify: through the join on INVENTORY_DAILY_PREDICTED
    and the WHERE clause, with points made from LONGITUDE and LATITUDE;
    this query has no HAVING clause. *)
Definition qualifying (session : Session) (victim_id item_name : string)
  : DataFrame :=
  candidates session
    (fun f => ST_MAKEPOINT (Fac.LONGITUDE f) (Fac.LATITUDE f))
    (INVENTORY_DAILY_PREDICTED (tables session)) victim_id item_name.

(** The statement of [find_nearest_neighbors]; the two values are bound
    parameters ([?]), so they are compared as they are. *)
Definition query (victim_id item_name : string) (session : Session)
  : DataFrame :=
  limit 3 (order_by_distance (tie_rank session mvp_app victim_id item_name)
             (qualifying session victim_id item_name)).

Definition find_nearest_neighbors (session : Session)
  (victim_id item_name : string) : App DataFrame :=
  try_except
    (lift (sql_to_pandas session (query victim_id item_name)))
    (fun e => (emit (st_error ("SQL Error: " ++ e)) ;;;
               ret empty_DataFrame)%app).

Definition emergency_console (session : Session)
  (victim_id actual_item : string) : App unit :=
  (neighbors <- find_nearest_neighbors session victim_id actual_item ;;
   if negb (empty neighbors) then
     emit (st_success_options (List.length neighbors)) ;;;
     emit (st_dataframe neighbors) ;;;
     emit (arc_layer neighbors)
   else
     emit (st_error "No nearby stock found."))%app.

Definition chat_lateral_transfer (session : Session)
  (target_id extracted_item : string) : App chat_reply :=
  (matches <- find_nearest_neighbors session target_id extracted_item ;;
   match matches with
   | top :: _ => ret (reply_found extracted_item top)
   | [] => ret (reply_no_surplus extracted_item)
   end)%app.

(** The test of the loop body of [run_chat_action]; [user_query] is
    already lower-cased. *)
Definition item_matches (user_query item : string) : bool :=
  let simple_name := lower (first_word item) in
  (contains (lower item) user_query || contains simple_name user_query)%bool.

Definition run_chat_action (user_query : string) (valid_items : list string)
  : option string :=
  let user_query := lower user_query in
  let valid_items := sorted_by_len_reverse valid_items in
  find (item_matches user_query) valid_items.

End streamlit_mvp.

(** ** [src/data_ingestion/inventory_data_generator.py] *)

Module inventory_data_generator.

Inductive criticality : Type := Low | Medium | High.

(** An entry of [MASTER_ITEMS] (a dict with keys name, cat, crit). *)
Record item := mk_item { name : string; cat : string; crit : criticality }.

Definition MASTER_ITEMS : list item := [
  mk_item "Oxytocin Injection" "Maternal" High;
  mk_item "Magnesium Sulfate" "Maternal" High;
  mk_item "Amoxicillin 500mg" "Antibiotic" Medium;
  mk_item "Azithromycin" "Antibiotic" Medium;
  mk_item "Insulin Glargine" "Chronic" High;
  mk_item "Metformin 500mg" "Chronic" Medium;
  mk_item "Amlodipine 5mg" "Chronic" Medium;
  mk_item "Ringer Lactate" "Fluids" High;
  mk_item "Normal Saline 0.9%" "Fluids" Medium;
  mk_item "Epinephrine" "Emergency" High;
  mk_item "BCG Vaccine" "Vaccine" High;
  mk_item "Polio Vaccine" "Vaccine" High;
  mk_item "Surgical Masks" "Consumable" Low;
  mk_item "Sterile Gloves" "Consumable" Low;
  mk_item "Disposable Syringes 3ml" "Consumable" Low;
  mk_item "IV Cannula" "Consumable" Medium;
  mk_item "HIV Rapid Test Kit" "Diagnostic" High;
  mk_item "Malaria RDT" "Diagnostic" High;
  mk_item "Blood Glucose Strips" "Diagnostic" Medium;
  mk_item "Paracetamol 500mg" "General" Low;
  mk_item "Ibuprofen 400mg" "General" Low;
  mk_item "Oral Rehydration Salts" "General" Medium;
  mk_item "TB-Kit Adult" "Infectious" High;
  mk_item "Artemether (Malaria)" "Infectious" High;
  mk_item "Folic Acid" "Maternal" Low
].

(** A cell of the FACILITY_ID column as [pd.read_csv] types it: a number
    when every cell of the column is a whole number, a text when some cell
    is not a number.  (Ids written as decimal fractions are left out.) *)
Inductive facility_id : Type :=
| id_int (n : Z)
| id_str (s : string).

(** [a == b]; a number never equals a text. *)
Definition id_eqb (a b : facility_id) : bool :=
  match a, b with
  | id_int m, id_int n => m =? n
  | id_str s, id_str t => (s =? t)%string
  | _, _ => false
  end.

(** [bool(x)]: the number 0 and the empty text are falsy. *)
Definition id_truthy (x : facility_id) : bool :=
  match x with
  | id_int n => negb (n =? 0)
  | id_str s => negb (s =? "")%string
  end.

(** [x in l] *)
Definition id_in (x : facility_id) (l : list facility_id) : bool :=
  existsb (id_eqb x) l.

(** A row of the input file hospitals.csv.  The file is taken well formed:
    every row has an id and coordinates that [geodesic] accepts (on a file
    with an empty id cell among the first three rows, or a latitude outside
    -90..90, the script ends in an exception and writes nothing).  With the
    text column FACILITY_NAME in the frame, [iterrows] hands the ids on as
    they were read. *)
Module Hosp.
Record t := mk {
  FACILITY_ID : facility_id;
  FACILITY_NAME : string;
  LATITUDE : Q;
  LONGITUDE : Q
}.
End Hosp.

(** A row of the generated file inventory_data.csv. *)
Module Out.
Record t := mk {
  RECORD_ID : N;
  DATE : string;
  FACILITY_ID : facility_id;
  ITEM_NAME : string;
  CATEGORY : string;
  OPENING_STOCK : Z;
  RECEIVED_QTY : Z;
  ISSUED_QTY : Z;
  CLOSING_STOCK : Z;
  LEAD_TIME_DAYS : Z;
  CRITICALITY_LEVEL : criticality
}.
End Out.

(** *** The [random] module: a tape of raw draws *)

Definition tape := list N.

Definition Rand (A : Type) : Type := tape -> A * tape.

Definition rret {A} (a : A) : Rand A := fun t => (a, t).

Definition rbind {A B} (m : Rand A) (k : A -> Rand B) : Rand B :=
  fun t => let '(a, t') := m t in k a t'.

Declare Scope rand_scope.
Delimit Scope rand_scope with rand.
Notation "x <- m ;; k" := (rbind m (fun x => k))
  (at level 61, m at next level, right associativity) : rand_scope.

(** The next raw draw; an exhausted tape yields zeros. *)
Definition draw : Rand N :=
  fun t => match t with
           | [] => (0%N, [])
           | n :: t' => (n, t')
           end.

(** [random.randint(a, b)]: an integer of [a..b], both ends included. *)
Definition randint (a b : Z) : Rand Z :=
  (n <- draw ;; rret (a + Z.of_N n mod (b - a + 1)))%rand.

Fixpoint remove_at {A} (i : nat) (l : list A) : list A :=
  match l, i with
  | [], _ => []
  | _ :: t, O => t
  | h :: t, S j => h :: remove_at j t
  end.

(** [random.sample(population, k)]: [k] picks without replacement.  (The
    call site has [k <= 25 = len(MASTER_ITEMS)], so the population never
    runs out.) *)
Fixpoint sample {A} (population : list A) (k : nat) : Rand (list A) :=
  match k with
  | O => rret []
  | S k' =>
      match population with
      | [] => rret []
      | _ :: _ =>
          (n <- draw ;;
           let i := N.to_nat (n mod N.of_nat (List.length population)) in
           match nth_error population i with
           | None => rret []
           | Some x =>
               rest <- sample (remove_at i population) k' ;;
               rret (x :: rest)
           end)%rand
      end
  end.

Fixpoint mapM {A B} (f : A -> Rand B) (l : list A) : Rand (list B) :=
  match l with
  | [] => rret []
  | x :: l' => (y <- f x ;; ys <- mapM f l' ;; rret (y :: ys))%rand
  end.

Section Generator.

(** [geodesic(p, q).km] of geopy, on (latitude, longitude) pairs. *)
Variable geodesic_km : Q * Q -> Q * Q -> Q.

(** The inner loop of the savior search: the state is
    [(min_dist, nearest)]. *)
Definition nearest_step (vid : facility_id) (v_loc : Q * Q)
  (st : Q * option facility_id) (row : Hosp.t) : Q * option facility_id :=
  let '(min_dist, nearest) := st in
  if id_eqb (Hosp.FACILITY_ID row) vid then (min_dist, nearest)
  else
    let dist := geodesic_km v_loc (Hosp.LATITUDE row, Hosp.LONGITUDE row) in
    if Qlt_bool dist min_dist then (dist, Some (Hosp.FACILITY_ID row))
    else (min_dist, nearest).

Definition nearest_other (df_facilities : list Hosp.t) (vid : facility_id)
  (v_loc : Q * Q) : option facility_id :=
  snd (fold_left (nearest_step vid v_loc) df_facilities (9999 # 1, None)).

(** [if nearest: savior_ids.append(nearest)] -- [None], the number 0 and
    the empty text are falsy.  The list is built front to back, so the new
    id goes in front of the ids found for the later victims. *)
Definition append_if_truthy (nearest : option facility_id)
  (later_savior_ids : list facility_id) : list facility_id :=
  match nearest with
  | None => later_savior_ids
  | Some n => if id_truthy n then n :: later_savior_ids
              else later_savior_ids
  end.

(** The loop [for vid in victim_ids] that fills [savior_ids]. *)
Fixpoint find_saviors (df_facilities : list Hosp.t) (victim_ids : list facility_id)
  : outcome (list facility_id) :=
  match victim_ids with
  | [] => Returned []
  | vid :: rest =>
      match find (fun r => id_eqb (Hosp.FACILITY_ID r) vid) df_facilities with
      | None => Raised "IndexError: single positional indexer is out-of-bounds"
      | Some victim_row =>
          let v_loc := (Hosp.LATITUDE victim_row, Hosp.LONGITUDE victim_row) in
          let nearest := nearest_other df_facilities vid v_loc in
          match find_saviors df_facilities rest with
          | Raised e => Raised e
          | Returned savior_ids =>
              Returned (append_if_truthy nearest savior_ids)
          end
      end
  end.

Definition victims_of (df_facilities : list Hosp.t) : list facility_id :=
  firstn 3 (map Hosp.FACILITY_ID df_facilities).

(** The body of [for item in selected_items]. *)
Definition make_record (current_date : string)
  (victim_ids savior_ids : list facility_id) (fid : facility_id) (it : item)
  : Rand Out.t :=
  (opening <- randint 100 400 ;;
   received <- randint 0 30 ;;
   issued <- randint 5 25 ;;
   lead_time <- randint 2 6 ;;
   let '(opening, received, issued) :=
     if (name it =? "Oxytocin Injection")%string then
       if id_in fid victim_ids then (10, 0, 10)
       else if id_in fid savior_ids then (600, 0, 5)
       else (opening, received, issued)
     else (opening, received, issued) in
   let closing := Z.max 0 (opening + received - issued) in
   record_id <- draw ;;
   rret {| Out.RECORD_ID := record_id;
           Out.DATE := current_date;
           Out.FACILITY_ID := fid;
           Out.ITEM_NAME := name it;
           Out.CATEGORY := cat it;
           Out.OPENING_STOCK := opening;
           Out.RECEIVED_QTY := received;
           Out.ISSUED_QTY := issued;
           Out.CLOSING_STOCK := closing;
           Out.LEAD_TIME_DAYS := lead_time;
           Out.CRITICALITY_LEVEL := crit it |})%rand.

(** The items a facility gets: the sample, plus Oxytocin when the
    facility is a victim or a savior and the sample missed it. *)
Definition ensure_oxytocin (victim_ids savior_ids : list facility_id)
  (fid : facility_id) (selected_items : list item) : list item :=
  let selected_names := map name selected_items in
  if ((id_in fid victim_ids || id_in fid savior_ids)
      && negb (str_in "Oxytocin Injection" selected_names))%bool
  then selected_items ++ firstn 1 MASTER_ITEMS
  else selected_items.

(** The body of [for _, fac in df_facilities.iterrows()]. *)
Definition facility_records (current_date : string)
  (victim_ids savior_ids : list facility_id) (fac : Hosp.t) : Rand (list Out.t) :=
  let fid := Hosp.FACILITY_ID fac in
  (num_items <- randint 20 25 ;;
   selected_items <- sample MASTER_ITEMS (Z.to_nat num_items) ;;
   mapM (make_record current_date victim_ids savior_ids fid)
        (ensure_oxytocin victim_ids savior_ids fid selected_items))%rand.

Fixpoint inventory_rows (current_date : string)
  (victim_ids savior_ids : list facility_id) (df_facilities : list Hosp.t)
  : Rand (list Out.t) :=
  match df_facilities with
  | [] => rret []
  | fac :: rest =>
      (rows <- facility_records current_date victim_ids savior_ids fac ;;
       more <- inventory_rows current_date victim_ids savior_ids rest ;;
       rret (rows ++ more)%list)%rand
  end.

(** [generate_inventory]: [read_csv] is what [pd.read_csv(INPUT_FILE)]
    yields ([None] when the file is missing); the result is the content
    written to OUTPUT_FILE, [None] when nothing is written. *)
Definition generate_inventory (read_csv : option (list Hosp.t))
  (current_date : string) (rng : tape) : outcome (option (list Out.t)) :=
  match read_csv with
  | None => Returned None
  | Some df_facilities =>
      let victim_ids := victims_of df_facilities in
      match find_saviors df_facilities victim_ids with
      | Raised e => Raised e
      | Returned savior_ids =>
          Returned (Some (fst (inventory_rows current_date victim_ids
                                 savior_ids df_facilities rng)))
      end
  end.

End Generator.

End inventory_data_generator.

(** ** Vocabulary for the generator's properties *)

Section GeneratorVocabulary.

Import inventory_data_generator.

Variable geodesic_km : Q * Q -> Q * Q -> Q.

(** What [make_record] writes for facility [fid] and catalogue entry [it],
    whatever the draws. *)
Definition record_of (victim_ids savior_ids : list facility_id) (fid : facility_id)
  (it : item) (r : Out.t) : Prop :=
  Out.FACILITY_ID r = fid
  /\ Out.ITEM_NAME r = name it
  /\ Out.CLOSING_STOCK r
     = Z.max 0 (Out.OPENING_STOCK r + Out.RECEIVED_QTY r - Out.ISSUED_QTY r)
  /\ if ((name it =? "Oxytocin Injection")%string && id_in fid victim_ids)%bool
     then Out.OPENING_STOCK r = 10 /\ Out.RECEIVED_QTY r = 0
          /\ Out.ISSUED_QTY r = 10
     else if ((name it =? "Oxytocin Injection")%string
              && id_in fid savior_ids)%bool
     then Out.OPENING_STOCK r = 600 /\ Out.RECEIVED_QTY r = 0
          /\ Out.ISSUED_QTY r = 5
     else 100 <= Out.OPENING_STOCK r <= 400
          /\ 0 <= Out.RECEIVED_QTY r <= 30
          /\ 5 <= Out.ISSUED_QTY r <= 25.


(** The distance the savior search compares. *)
Definition km_to (v_loc : Q * Q) (row : Hosp.t) : Q :=
  geodesic_km v_loc (Hosp.LATITUDE row, Hosp.LONGITUDE row).

(** [n] is the id of a facility other than [vid], less than 9999 km from
    [v_loc], and no facility other than [vid] is closer. *)
Definition is_nearest_other (df : list Hosp.t) (vid : facility_id) (v_loc : Q * Q)
  (n : facility_id) : Prop :=
  exists row,
    In row df /\ Hosp.FACILITY_ID row = n /\ n <> vid
    /\ (km_to v_loc row < 9999 # 1)%Q
    /\ forall row', In row' df -> Hosp.FACILITY_ID row' <> vid ->
                    (km_to v_loc row <= km_to v_loc row')%Q.

(** The loop invariant of the savior search over the rows seen so far. *)
Definition nearest_inv (vid : facility_id) (v_loc : Q * Q) (seen : list Hosp.t)
  (st : Q * option facility_id) : Prop :=
  (fst st <= 9999 # 1)%Q
  /\ (forall row, In row seen -> Hosp.FACILITY_ID row <> vid ->
                  (fst st <= km_to v_loc row)%Q)
  /\ match snd st with
     | None => True
     | Some n => exists row, In row seen /\ Hosp.FACILITY_ID row = n
                             /\ n <> vid /\ km_to v_loc row = fst st
                             /\ (fst st < 9999 # 1)%Q
     end.

(** [s] was appended to [savior_ids] for some victim. *)
Definition savior_of_some_victim (df : list Hosp.t) (victim_ids : list facility_id)
  (s : facility_id) : Prop :=
  exists vid victim_row,
    In vid victim_ids
    /\ find (fun r => id_eqb (Hosp.FACILITY_ID r) vid) df = Some victim_row
    /\ nearest_other geodesic_km df vid
         (Hosp.LATITUDE victim_row, Hosp.LONGITUDE victim_row) = Some s
    /\ id_truthy s = true.

End GeneratorVocabulary.

(** ** Sample data used to exercise the definitions *)

Module Samples.

(** A stand-in for the engine's geodesic: taxicab, 100 km per degree. *)
Definition taxicab_m (p q : GeoPoint) : Q :=
  (100000 # 1) * (Qabs (fst p - fst q) + Qabs (snd p - snd q)).

Definition fac (id nm : string) (lat lon : Q) : Fac.t :=
  Fac.mk id nm lat lon (ST_MAKEPOINT lon lat).

Definition facilities : list Fac.t := [
  fac "F001" "RS Victim" 0 0;
  fac "F002" "RS A" 0 (1 # 100);
  fac "F003" "RS B" 0 (1 # 10);
  fac "F004" "RS C" 0 (3 # 100);
  fac "F005" "RS D" (2 # 100) (2 # 100);
  fac "F006" "RS E" 0 (5 # 100)
].

Definition inventory : list Inv.t := [
  Inv.mk "F001" "Oxytocin Injection" 0;
  Inv.mk "F002" "Oxytocin Injection" 150;
  Inv.mk "F003" "Oxytocin Injection" 50;
  Inv.mk "F004" "Oxytocin Injection" 300;
  Inv.mk "F005" "Oxytocin Injection" 120;
  Inv.mk "F006" "Oxytocin Injection" 500;
  Inv.mk "F002" "Epinephrine" 20
].

Definition db : Database :=
  {| FACILITIES := facilities;
     INVENTORY_DAILY := inventory;
     INVENTORY_DAILY_PREDICTED := inventory |}.

(** An engine that lists rows of equal sort key in the order in which it
    met them.  The sessions made with [warehouse] are run with plain values
    only; their last field is never read. *)
Definition scan_order : dashboard -> string -> string -> NeighborMatch -> N :=
  fun _ _ _ _ => 0%N.

Definition no_other_text : string -> string -> DataFrame := fun _ _ => [].

Definition warehouse (db : Database) (failure : option exn) : Session :=
  {| tables := db; ST_DISTANCE := taxicab_m; failure := failure;
     tie_rank := scan_order; injected := no_other_text |}.

Definition healthy : Session := warehouse db None.

Definition broken : Session :=
  warehouse db (Some "000630: statement timed out").

(** The scenario of the spec: victim at (0,0) with no stock, A at (0,0.01)
    with 150 units, B at (0,0.1) with 50 units. *)
Definition scenario : Session :=
  warehouse
    {| FACILITIES := [fac "V" "Victim" 0 0; fac "A" "A" 0 (1 # 100);
                      fac "B" "B" 0 (1 # 10)];
       INVENTORY_DAILY := [Inv.mk "V" "Oxytocin Injection" 0;
                           Inv.mk "A" "Oxytocin Injection" 150;
                           Inv.mk "B" "Oxytocin Injection" 50];
       INVENTORY_DAILY_PREDICTED := [Inv.mk "V" "Oxytocin Injection" 0;
                                     Inv.mk "A" "Oxytocin Injection" 150;
                                     Inv.mk "B" "Oxytocin Injection" 50] |}
    None.

(** Sessions in which every facility is within 10 km of every other. *)
Definition near_facilities : list Fac.t :=
  [fac "V" "Victim" 0 0; fac "A" "A" 0 (1 # 100); fac "C" "C" 0 (3 # 100)].

Definition near_inventory : list Inv.t :=
  [Inv.mk "A" "Oxytocin Injection" 150; Inv.mk "C" "Oxytocin Injection" 300].

Definition near_db : Database :=
  {| FACILITIES := near_facilities;
     INVENTORY_DAILY := near_inventory;
     INVENTORY_DAILY_PREDICTED := near_inventory |}.

(** The warehouse does not answer. *)
Definition outage : Session :=
  warehouse near_db (Some "000630: statement timed out").

(** The two inventory tables hold different snapshots. *)
Definition diverged_tables : Session :=
  warehouse
    {| FACILITIES := near_facilities;
       INVENTORY_DAILY := near_inventory;
       INVENTORY_DAILY_PREDICTED :=
         [Inv.mk "A" "Oxytocin Injection" 150;
          Inv.mk "C" "Oxytocin Injection" 90] |}
    None.

(** The stored GEO_POINT of A is not the point of its coordinates. *)
Definition stale_geo_point : Session :=
  warehouse
    {| FACILITIES :=
         [fac "V" "Victim" 0 0;
          Fac.mk "A" "A" 0 (1 # 100) (ST_MAKEPOINT (5 # 100) 0)];
       INVENTORY_DAILY := [Inv.mk "A" "Oxytocin Injection" 150];
       INVENTORY_DAILY_PREDICTED := [Inv.mk "A" "Oxytocin Injection" 150] |}
    None.

(** A is 9960 m away: strictly within 10 km, displayed as 10.0 km. *)
Definition just_under_10km : Session :=
  warehouse
    {| FACILITIES := [fac "V" "Victim" 0 0; fac "A" "A" 0 (996 # 10000)];
       INVENTORY_DAILY := [Inv.mk "A" "Oxytocin Injection" 150];
       INVENTORY_DAILY_PREDICTED := [Inv.mk "A" "Oxytocin Injection" 150] |}
    None.

(** Four stocked facilities between 1010 m and 1040 m from the victim, the
    farthest listed first: all four are displayed at 1.0 km. *)
Definition crowded_db : Database :=
  {| FACILITIES := [fac "V" "Victim" 0 0;
                    fac "A" "A" 0 (104 # 10000); fac "B" "B" 0 (103 # 10000);
                    fac "C" "C" 0 (102 # 10000); fac "D" "D" 0 (101 # 10000)];
     INVENTORY_DAILY := [Inv.mk "A" "Oxytocin Injection" 150;
                         Inv.mk "B" "Oxytocin Injection" 200;
                         Inv.mk "C" "Oxytocin Injection" 250;
                         Inv.mk "D" "Oxytocin Injection" 300];
     INVENTORY_DAILY_PREDICTED := [Inv.mk "A" "Oxytocin Injection" 150;
                                   Inv.mk "B" "Oxytocin Injection" 200;
                                   Inv.mk "C" "Oxytocin Injection" 250;
                                   Inv.mk "D" "Oxytocin Injection" 300] |}.

Definition crowded : Session := warehouse crowded_db None.

(** The same data on an engine that, among rows of equal distance, lists
    the smaller stock first for one statement and the larger stock first
    for the other. *)
Definition crowded_two_plans : Session :=
  {| tables := crowded_db; ST_DISTANCE := taxicab_m; failure := None;
     tie_rank := fun d _ _ r =>
       match d with
       | main_app => Z.to_N (AVAILABLE_STOCK r)
       | mvp_app => Z.to_N (1000 - AVAILABLE_STOCK r)
       end;
     injected := no_other_text |}.

(** Item names that change the text built by interpolation. *)
Definition always_true_name : string := "x' OR 'a'='a".

Definition stock_test_off_name : string := "Oxytocin Injection' OR 'a'='b".

(** Victim V is out of Oxytocin and out of an item with a quote in its
    name; it holds Paracetamol. *)
Definition ward_inventory : list Inv.t :=
  [Inv.mk "V" "Oxytocin Injection" 0;
   Inv.mk "V" always_true_name 0;
   Inv.mk "V" "Paracetamol 500mg" 400;
   Inv.mk "A" "Oxytocin Injection" 150;
   Inv.mk "B" "Oxytocin Injection" 50].

Definition ward_db : Database :=
  {| FACILITIES := [fac "V" "Victim" 0 0; fac "A" "A" 0 (1 # 100);
                    fac "B" "B" 0 (3 # 100)];
     INVENTORY_DAILY := ward_inventory;
     INVENTORY_DAILY_PREDICTED := ward_inventory |}.

(** What the text of [src/streamlit_app.py] has become once [item_name] is
    [x' OR 'a'='a]:
      WHERE source.FACILITY_ID = '<victim_id>'
        AND inv.ITEM_NAME = 'x' OR 'a'='a'
        AND inv.CLOSING_STOCK > 100
    AND binds tighter than OR. *)
Definition where_always_true (victim_id : string) (j : JoinedRow) : bool :=
  let '(source, _, inv) := j in
  ((Fac.FACILITY_ID source =? victim_id)%string
   && (Inv.ITEM_NAME inv =? "x")%string
   || ("a" =? "a")%string && (100 <? Inv.CLOSING_STOCK inv))%bool.

(** ... and once [item_name] is [Oxytocin Injection' OR 'a'='b]:
      WHERE source.FACILITY_ID = '<victim_id>'
        AND inv.ITEM_NAME = 'Oxytocin Injection' OR 'a'='b'
        AND inv.CLOSING_STOCK > 100 *)
Definition where_stock_test_off (victim_id : string) (j : JoinedRow) : bool :=
  let '(source, _, inv) := j in
  ((Fac.FACILITY_ID source =? victim_id)%string
   && (Inv.ITEM_NAME inv =? "Oxytocin Injection")%string
   || ("a" =? "b")%string && (100 <? Inv.CLOSING_STOCK inv))%bool.

(** The rest of the text is as written: the join on INVENTORY_DAILY, the
    SELECT list, HAVING, ORDER BY and LIMIT 3. *)
Definition with_where (where_ : JoinedRow -> bool) (db : Database)
  : DataFrame :=
  limit 3
    (order_by_distance (fun _ => 0%N)
       (having_distance_lt_10
          (map (select_clause (warehouse db None) Fac.GEO_POINT)
               (filter where_ (from_join (FACILITIES db) (INVENTORY_DAILY db)))))).

(** The engine on those two texts. *)
Definition runs_other_text (db : Database) (victim_id item_name : string)
  : DataFrame :=
  if (item_name =? always_true_name)%string
  then with_where (where_always_true victim_id) db
  else if (item_name =? stock_test_off_name)%string
  then with_where (where_stock_test_off victim_id) db
  else [].

Definition ward : Session :=
  {| tables := ward_db; ST_DISTANCE := taxicab_m; failure := None;
     tie_rank := scan_order; injected := runs_other_text ward_db |}.

(** The item names of the generator's catalogue, as the dashboard would
    read them from the warehouse, and the same list with a shorter name
    that clashes with "Amoxicillin 500mg". *)
Definition known_items : list string :=
  map inventory_data_generator.name inventory_data_generator.MASTER_ITEMS.

Definition clashing_items : list string := "Amoxicillin" :: known_items.

(** A stand-in for geopy's geodesic on (latitude, longitude) pairs:
    taxicab, 100 km per degree. *)
Definition taxicab_km (p q : Q * Q) : Q :=
  (100 # 1) * (Qabs (fst p - fst q) + Qabs (snd p - snd q)).


(** Three victims far apart, each with a non-victim facility next door. *)
Definition hospitals_spread : list inventory_data_generator.Hosp.t := [
  inventory_data_generator.Hosp.mk (inventory_data_generator.id_str "H1") "RS Satu" 0 0;
  inventory_data_generator.Hosp.mk (inventory_data_generator.id_str "H2") "RS Dua" 0 1;
  inventory_data_generator.Hosp.mk (inventory_data_generator.id_str "H3") "RS Tiga" 0 2;
  inventory_data_generator.Hosp.mk (inventory_data_generator.id_str "H4") "RS Empat" 0 (1 # 100);
  inventory_data_generator.Hosp.mk (inventory_data_generator.id_str "H5") "RS Lima" 0 (101 # 100);
  inventory_data_generator.Hosp.mk (inventory_data_generator.id_str "H6") "RS Enam" 0 (201 # 100)
].


(** A tape of raw draws from a linear congruential sequence. *)
Fixpoint lcg (n : nat) (x : N) : inventory_data_generator.tape :=
  match n with
  | O => []
  | S k => x :: lcg k ((x * 1103515245 + 12345) mod 2147483648)%N
  end.

Definition rng : inventory_data_generator.tape := lcg 1500 42%N.


(** The rows written to OUTPUT_FILE (none when the run raised or wrote
    nothing). *)
Definition written (o : outcome (option (list inventory_data_generator.Out.t)))
  : list inventory_data_generator.Out.t :=
  match o with
  | Returned (Some rows) => rows
  | _ => []
  end.

End Samples.


(** ** Further vocabulary for the generator *)

Section SaviorVocabulary.

Import inventory_data_generator.

Variable geodesic_km : Q * Q -> Q * Q -> Q.

(** [n] is the id of the first row, in file order, among the rows nearest to
    [v_loc] that do not carry the id [vid]: the rows before it are strictly
    farther, the rows after it are not closer. *)
Definition first_nearest_other (df : list Hosp.t) (vid : facility_id) (v_loc : Q * Q)
  (n : facility_id) : Prop :=
  exists before row after,
    df = (before ++ row :: after)%list
    /\ Hosp.FACILITY_ID row = n /\ n <> vid
    /\ (km_to geodesic_km v_loc row < 9999 # 1)%Q
    /\ (forall r, In r before -> Hosp.FACILITY_ID r <> vid ->
                  (km_to geodesic_km v_loc row < km_to geodesic_km v_loc r)%Q)
    /\ (forall r, In r after -> Hosp.FACILITY_ID r <> vid ->
                  (km_to geodesic_km v_loc row <= km_to geodesic_km v_loc r)%Q).

(** The loop invariant of the savior search that records where the current
    nearest row sits among the rows seen so far. *)
Definition nearest_inv_first (vid : facility_id) (v_loc : Q * Q) (seen : list Hosp.t)
  (st : Q * option facility_id) : Prop :=
  match snd st with
  | None =>
      fst st = 9999 # 1
      /\ forall r, In r seen -> Hosp.FACILITY_ID r <> vid ->
                   (9999 # 1 <= km_to geodesic_km v_loc r)%Q
  | Some n =>
      exists before row after,
        seen = (before ++ row :: after)%list
        /\ Hosp.FACILITY_ID row = n /\ n <> vid
        /\ km_to geodesic_km v_loc row = fst st
        /\ (fst st < 9999 # 1)%Q
        /\ (forall r, In r before -> Hosp.FACILITY_ID r <> vid ->
                      (fst st < km_to geodesic_km v_loc r)%Q)
        /\ (forall r, In r after -> Hosp.FACILITY_ID r <> vid ->
                      (fst st <= km_to geodesic_km v_loc r)%Q)
  end.

End SaviorVocabulary.

(** The key of a generated row: facility and item. *)
Definition row_key (r : inventory_data_generator.Out.t)
  : inventory_data_generator.facility_id * string :=
  (inventory_data_generator.Out.FACILITY_ID r,
   inventory_data_generator.Out.ITEM_NAME r).

(** [r] is what [make_record] writes for facility [fid] and catalogue entry
    [it] on some draws. *)
Definition made_by (current_date : string)
  (victim_ids savior_ids : list inventory_data_generator.facility_id)
  (fid : inventory_data_generator.facility_id) (it : inventory_data_generator.item)
  (r : inventory_data_generator.Out.t) : Prop :=
  exists t, r = fst (inventory_data_generator.make_record current_date
                       victim_ids savior_ids fid it t).

(** ** More Python string operations *)

(** [str(n)] for a non-negative integer *)
Definition str_of_nat (n : nat) : string :=
  NilEmpty.string_of_uint (Nat.to_uint n).

(** [s.split(sep)[0]] for a non-empty separator: the text before the first
    occurrence of [sep], all of [s] when there is none. *)
Fixpoint split_head (sep s : string) : string :=
  if String.prefix sep s then EmptyString
  else match s with
       | EmptyString => EmptyString
       | String c s' => String c (split_head sep s')
       end.

(** [s[n:]] *)
Fixpoint string_drop (n : nat) (s : string) : string :=
  match n, s with
  | O, _ => s
  | S _, EmptyString => EmptyString
  | S k, String _ s' => string_drop k s'
  end.

(** [pd.Series.unique()]: the distinct values in order of first appearance *)
Fixpoint unique_from (seen l : list string) : list string :=
  match l with
  | [] => []
  | x :: t => if str_in x seen then unique_from seen t
              else x :: unique_from (x :: seen) t
  end.

Definition unique (l : list string) : list string := unique_from [] l.

(** ** The criticality filter (the same expression in both dashboards) *)

(** The sort key [0 if x=='High' else 1 if x=='Medium' else 2] *)
Definition level_rank (x : string) : nat :=
  if (x =? "High")%string then 0%nat
  else if (x =? "Medium")%string then 1%nat else 2%nat.

Fixpoint insert_by_rank (x : string) (l : list string) : list string :=
  match l with
  | [] => [x]
  | h :: t => if Nat.leb (level_rank x) (level_rank h) then x :: h :: t
              else h :: insert_by_rank x t
  end.

(** [sorted(df['CRITICALITY_LEVEL'].unique(), key=...)]; the argument is the
    column. *)
Definition crit_levels (CRITICALITY_LEVEL : list string) : list string :=
  fold_right insert_by_rank [] (unique CRITICALITY_LEVEL).

(** ** The smart item selector (both dashboards) *)

Section DisplayNames.

(** The two emoji of the display names, one code point each. *)
Variables red_circle check_mark : ascii.

(** [make_display_name] of [src/streamlit_app.py] *)
Definition make_display_name (ITEM_NAME : string) (CRITICAL_COUNT : nat)
  : string :=
  if Nat.ltb 0 CRITICAL_COUNT
  then String red_circle
         (" " ++ ITEM_NAME ++ " (" ++ str_of_nat CRITICAL_COUNT ++ " Critical)")
  else String check_mark (" " ++ ITEM_NAME ++ " (Healthy)").

(** [make_name] of [src/streamlit_mvp/streamlit_app.py] *)
Definition make_name (ITEM_NAME : string) (CRITICAL_COUNT : nat) : string :=
  if Nat.ltb 0 CRITICAL_COUNT
  then String red_circle
         (" " ++ ITEM_NAME ++ " (" ++ str_of_nat CRITICAL_COUNT ++ " Sites)")
  else String check_mark (" " ++ ITEM_NAME ++ " (Healthy)").

End DisplayNames.

(** [selected_display.split(" (")[0][2:]], in both files *)
Definition actual_item_name (selected_display : string) : string :=
  string_drop 2 (split_head " (" selected_display).

(** ** The rest of [src/streamlit_app.py]: network status, console, chat *)

(** The values of the STATUS column. *)
Inductive status : Type := CRITICAL | LOW | WARNING | HEALTHY.

Definition status_eqb (a b : status) : bool :=
  match a, b with
  | CRITICAL, CRITICAL | LOW, LOW | WARNING, WARNING | HEALTHY, HEALTHY => true
  | _, _ => false
  end.

(** What a dashboard page shows around the neighbor search: the banners of
    the console, and the events of the search itself. *)
Inductive page_event : Type :=
| st_warning_action_required (n : nat) (item : string)
| st_info_all_healthy
| shown (e : ui_event).

Definition Page (A : Type) : Type := (list page_event * outcome A)%type.

Definition pret {A} (a : A) : Page A := ([], Returned a).

Definition pbind {A B} (m : Page A) (k : A -> Page B) : Page B :=
  match m with
  | (log, Returned a) => let '(log', r) := k a in ((log ++ log')%list, r)
  | (log, Raised e) => (log, Raised e)
  end.

Definition pemit (ev : page_event) : Page unit := ([ev], Returned tt).

(** A piece of script of the neighbor search, run inside the page. *)
Definition on_page {A} (m : App A) : Page A := (map shown (fst m), snd m).

(** One entry of [st.session_state.messages]. *)
Inductive assistant_text (A : Type) : Type :=
| answered (a : A)
| could_not_identify.
Arguments answered {A} a.
Arguments could_not_identify {A}.

Inductive chat_message (A : Type) : Type :=
| greeting
| from_user (content : string)
| from_assistant (reply : assistant_text A).
Arguments greeting {A}.
Arguments from_user {A} content.
Arguments from_assistant {A} reply.

(** [if s:] for a value that is a string or None *)
Definition truthy (s : option string) : option string :=
  match s with
  | Some EmptyString => None
  | other => other
  end.

Module command_center.

(** Table INVENTORY_DAILY with the columns [load_network_status] reads; the
    neighbor query reads the projection [to_inv]. *)
Module Daily.
Record t := mk {
  FACILITY_ID : string;
  ITEM_NAME : string;
  CLOSING_STOCK : Z;
  CRITICALITY_LEVEL : string;
  DATE : Z
}.
Definition to_inv (d : t) : Inv.t :=
  Inv.mk (FACILITY_ID d) (ITEM_NAME d) (CLOSING_STOCK d).
End Daily.

(** A row of the frame [df]. *)
Module Net.
Record t := mk {
  FACILITY_ID : string;
  FACILITY_NAME : string;
  LATITUDE : Q;
  LONGITUDE : Q;
  ITEM_NAME : string;
  CLOSING_STOCK : Z;
  CRITICALITY_LEVEL : string;
  STATUS : status
}.
End Net.

(** CASE WHEN i.CLOSING_STOCK = 0 THEN 'CRITICAL'
         WHEN i.CLOSING_STOCK < 50 THEN 'LOW' ELSE 'HEALTHY' END *)
Definition STATUS_CASE (CLOSING_STOCK : Z) : status :=
  if CLOSING_STOCK =? 0 then CRITICAL
  else if CLOSING_STOCK <? 50 then LOW
  else HEALTHY.

(** (SELECT MAX(DATE) FROM INVENTORY_DAILY): NULL on an empty table *)
Definition MAX_DATE (daily : list Daily.t) : option Z :=
  match daily with
  | [] => None
  | d :: rest => Some (fold_left Z.max (map Daily.DATE rest) (Daily.DATE d))
  end.

(** The query of [load_network_status]. *)
Definition load_network_status_query (CURRENT_DATE : Z)
  (facilities : list Fac.t) (daily : list Daily.t) : list Net.t :=
  flat_map (fun f =>
    flat_map (fun i =>
      if ((Fac.FACILITY_ID f =? Daily.FACILITY_ID i)%string
          && ((Daily.DATE i =? CURRENT_DATE)
              || match MAX_DATE daily with
                 | Some m => Daily.DATE i =? m
                 | None => false
                 end))%bool
      then [ {| Net.FACILITY_ID := Fac.FACILITY_ID f;
                Net.FACILITY_NAME := Fac.FACILITY_NAME f;
                Net.LATITUDE := Fac.LATITUDE f;
                Net.LONGITUDE := Fac.LONGITUDE f;
                Net.ITEM_NAME := Daily.ITEM_NAME i;
                Net.CLOSING_STOCK := Daily.CLOSING_STOCK i;
                Net.CRITICALITY_LEVEL := Daily.CRITICALITY_LEVEL i;
                Net.STATUS := STATUS_CASE (Daily.CLOSING_STOCK i) |} ]
      else [])
    daily)
  facilities.

(** [df[df['ITEM_NAME'] == actual_item_name]] *)
Definition df_filtered (df : list Net.t) (actual_item_name : string)
  : list Net.t :=
  filter (fun r => (Net.ITEM_NAME r =? actual_item_name)%string) df.

(** [df_filtered[df_filtered['STATUS'] == 'CRITICAL']] *)
Definition critical_hospitals (df_filtered : list Net.t) : list Net.t :=
  filter (fun r => status_eqb (Net.STATUS r) CRITICAL) df_filtered.

(** The two metrics of the control panel. *)
Definition critical_stock_outs (df_filtered : list Net.t) : nat :=
  List.length (critical_hospitals df_filtered).

Definition healthy_surplus (df_filtered : list Net.t) : nat :=
  List.length (filter (fun r => status_eqb (Net.STATUS r) HEALTHY) df_filtered).

(** The options of the hospital selector. *)
Definition victim_options (critical_hospitals : list Net.t) : list string :=
  unique (map Net.FACILITY_NAME critical_hospitals).

(** [critical_hospitals[... == selected_victim_name].iloc[0]] *)
Definition victim_record (critical_hospitals : list Net.t)
  (selected_victim_name : string) : outcome Net.t :=
  match filter (fun r => (Net.FACILITY_NAME r =? selected_victim_name)%string)
               critical_hospitals with
  | [] => Raised "IndexError: single positional indexer is out-of-bounds"
  | r :: _ => Returned r
  end.

(** The emergency response console; the result is the binding of the global
    [victim_id] the run leaves behind, if any. *)
Definition emergency_response_console (session : Session)
  (df_filtered : list Net.t) (actual_item_name : string)
  (selected_victim_name : option string) : Page (option string) :=
  let critical_hospitals := critical_hospitals df_filtered in
  if Nat.ltb 0 (List.length critical_hospitals) then
    pbind (pemit (st_warning_action_required (List.length critical_hospitals)
                    actual_item_name))
      (fun _ =>
         match truthy selected_victim_name with
         | Some name =>
             pbind (on_page (lift (victim_record critical_hospitals name)))
               (fun victim =>
                  let victim_id := Net.FACILITY_ID victim in
                  pbind (on_page (streamlit_app.emergency_console session
                                    victim_id actual_item_name))
                    (fun _ => pret (Some victim_id)))
         | None => pret None
         end)
  else pbind (pemit st_info_all_healthy) (fun _ => pret None).

(** The chat assistant of the sidebar.  [cortex] is what [run_chat_action]
    hands back for a prompt (the item named by the language model, None when
    it names none or the call fails); [victim_id] is the binding left by the
    console, None when the name is unbound.  The result is the transcript
    left in the session, the events of the neighbor search (what
    [run_chat_action] itself writes to the page is not tracked) and how the
    run ended. *)
Definition sidebar_chat (session : Session) (victim_id : option string)
  (cortex : string -> option string)
  (messages : option (list (chat_message chat_reply)))
  (prompt : option string)
  : list (chat_message chat_reply) * App unit :=
  let messages :=
    match messages with
    | None => [greeting]
    | Some m => m
    end in
  match truthy prompt with
  | None => (messages, ret tt)
  | Some prompt =>
      let messages := (messages ++ [from_user prompt])%list in
      match truthy (cortex prompt) with
      | Some extracted_item =>
          match victim_id with
          | None =>
              (messages,
               lift (Raised "NameError: name 'victim_id' is not defined"))
          | Some victim_id =>
              match streamlit_app.chat_lateral_transfer session victim_id
                      extracted_item with
              | (log, Returned reply) =>
                  ((messages ++ [from_assistant (answered reply)])%list,
                   (log, Returned tt))
              | (log, Raised e) => (messages, (log, Raised e))
              end
          end
      | None =>
          ((messages ++ [from_assistant could_not_identify])%list, ret tt)
      end
  end.

End command_center.

(** ** The rest of [src/streamlit_mvp/streamlit_app.py]: data, metrics, chat *)

Module ops_platform.

(** Table INVENTORY_DAILY_PREDICTED with the columns [load_data] reads; the
    two prediction columns may be NULL.  The neighbor query reads the
    projection [to_inv]. *)
Module Pred.
Record t := mk {
  FACILITY_ID : string;
  ITEM_NAME : string;
  CLOSING_STOCK : Z;
  PREDICTED_STOCKOUT_DAYS : option Q;
  AVG_DAILY_USAGE : option Q;
  CRITICALITY_LEVEL : string
}.
Definition to_inv (d : t) : Inv.t :=
  Inv.mk (FACILITY_ID d) (ITEM_NAME d) (CLOSING_STOCK d).
End Pred.

(** A row of the frame [df] (NULL becomes NaN, here still [None]). *)
Module Stock.
Record t := mk {
  FACILITY_ID : string;
  FACILITY_NAME : string;
  LATITUDE : Q;
  LONGITUDE : Q;
  ITEM_NAME : string;
  CLOSING_STOCK : Z;
  PREDICTED_STOCKOUT_DAYS : option Q;
  AVG_DAILY_USAGE : option Q;
  CRITICALITY_LEVEL : string;
  STATUS : status
}.
End Stock.

(** A row of the frame [df_reorder], with the columns the assistant reads. *)
Module Reorder.
Record t := mk {
  ITEM_NAME : string;
  PREDICTED_STOCKOUT_DAYS : option Q;
  SUGGESTED_REORDER_QTY : option Q
}.
End Reorder.

(** [x < n] where [x] may be NULL (in SQL) or NaN (in pandas): not true
    then. *)
Definition lt_days (x : option Q) (n : Q) : bool :=
  match x with
  | Some d => Qlt_bool d n
  | None => false
  end.

(** CASE WHEN i.CLOSING_STOCK = 0 THEN 'CRITICAL'
         WHEN i.PREDICTED_STOCKOUT_DAYS < 7 THEN 'WARNING'
         ELSE 'HEALTHY' END *)
Definition STATUS_CASE (CLOSING_STOCK : Z) (PREDICTED_STOCKOUT_DAYS : option Q)
  : status :=
  if CLOSING_STOCK =? 0 then CRITICAL
  else if lt_days PREDICTED_STOCKOUT_DAYS (7 # 1) then WARNING
  else HEALTHY.

(** [query_inv] of [load_data]. *)
Definition query_inv (facilities : list Fac.t) (predicted : list Pred.t)
  : list Stock.t :=
  flat_map (fun f =>
    flat_map (fun i =>
      if (Fac.FACILITY_ID f =? Pred.FACILITY_ID i)%string
      then [ {| Stock.FACILITY_ID := Fac.FACILITY_ID f;
                Stock.FACILITY_NAME := Fac.FACILITY_NAME f;
                Stock.LATITUDE := Fac.LATITUDE f;
                Stock.LONGITUDE := Fac.LONGITUDE f;
                Stock.ITEM_NAME := Pred.ITEM_NAME i;
                Stock.CLOSING_STOCK := Pred.CLOSING_STOCK i;
                Stock.PREDICTED_STOCKOUT_DAYS := Pred.PREDICTED_STOCKOUT_DAYS i;
                Stock.AVG_DAILY_USAGE := Pred.AVG_DAILY_USAGE i;
                Stock.CRITICALITY_LEVEL := Pred.CRITICALITY_LEVEL i;
                Stock.STATUS := STATUS_CASE (Pred.CLOSING_STOCK i)
                                  (Pred.PREDICTED_STOCKOUT_DAYS i) |} ]
      else [])
    predicted)
  facilities.

(** The network metrics of the procurement tab. *)
Definition total_stockouts (df : list Stock.t) : nat :=
  List.length (filter (fun r => Stock.CLOSING_STOCK r =? 0) df).

Definition predicted_risk (df : list Stock.t) : nat :=
  List.length
    (filter (fun r => (lt_days (Stock.PREDICTED_STOCKOUT_DAYS r) (7 # 1)
                       && (0 <? Stock.CLOSING_STOCK r))%bool) df).

Definition total_network_inventory (df : list Stock.t) : Z :=
  fold_right Z.add 0 (map Stock.CLOSING_STOCK df).

(** The number of rows of [df] with a given status. *)
Definition count_status (s : status) (df : list Stock.t) : nat :=
  List.length (filter (fun r => status_eqb (Stock.STATUS r) s) df).

(** The parts of the assistant's report. *)
Inductive headline : Type :=
| head_critical (n : nat)
| head_warning
| head_healthy.

Inductive procurement : Type :=
| proc_healthy
| proc_alert (days_left : Q) (qty : option Q)
| proc_watchlist (days_left : option Q).

Record analysis := {
  about : string;
  status_text : headline;
  procurement_msg : procurement;
  tactical_msg : chat_reply
}.

(** [crit_sites] *)
Definition crit_sites (df : list Stock.t) (extracted_item : string)
  : list Stock.t :=
  filter (fun r => ((Stock.ITEM_NAME r =? extracted_item)%string
                    && status_eqb (Stock.STATUS r) CRITICAL)%bool) df.

(** [reorder_info], [is_urgent] and [procurement_msg] *)
Definition procurement_status (df_reorder : list Reorder.t)
  (extracted_item : string) : bool * procurement :=
  match filter (fun r => (Reorder.ITEM_NAME r =? extracted_item)%string)
               df_reorder with
  | [] => (false, proc_healthy)
  | rec :: _ =>
      match Reorder.PREDICTED_STOCKOUT_DAYS rec with
      | Some days_left =>
          if Qlt_bool days_left (7 # 1)
          then (true, proc_alert days_left (Reorder.SUGGESTED_REORDER_QTY rec))
          else (false, proc_watchlist (Some days_left))
      | None => (false, proc_watchlist None)
      end
  end.

(** [crit_sites.iloc[0]['FACILITY_ID'] if not crit_sites.empty
     else df['FACILITY_ID'].iloc[0]] *)
Definition target_id (df crit_sites : list Stock.t) : outcome string :=
  match crit_sites with
  | site :: _ => Returned (Stock.FACILITY_ID site)
  | [] =>
      match df with
      | first :: _ => Returned (Stock.FACILITY_ID first)
      | [] => Raised "IndexError: single positional indexer is out-of-bounds"
      end
  end.

(** The report for an identified item. *)
Definition analyse (session : Session) (df : list Stock.t)
  (df_reorder : list Reorder.t) (extracted_item : string) : App analysis :=
  let crit_sites := crit_sites df extracted_item in
  let '(is_urgent, procurement_msg) :=
    procurement_status df_reorder extracted_item in
  (target <- lift (target_id df crit_sites) ;;
   matches <- streamlit_mvp.find_nearest_neighbors session target extracted_item ;;
   let tactical_msg :=
     match matches with
     | top :: _ => reply_found extracted_item top
     | [] => reply_no_surplus extracted_item
     end in
   let status_text :=
     if negb (Nat.eqb (List.length crit_sites) 0)
     then head_critical (List.length crit_sites)
     else if is_urgent then head_warning else head_healthy in
   ret {| about := extracted_item;
          status_text := status_text;
          procurement_msg := procurement_msg;
          tactical_msg := tactical_msg |})%app.

(** The assistant tab.  [messages] is [st.session_state.messages], None
    while the key is missing; the result is the state the run leaves behind,
    the events of the neighbor search and how the run ended. *)
Definition assistant_tab (session : Session) (df : list Stock.t)
  (df_reorder : list Reorder.t)
  (messages : option (list (chat_message analysis))) (prompt : option string)
  : option (list (chat_message analysis)) * App unit :=
  let finish (messages : option (list (chat_message analysis))) :=
    match messages with
    | None => Some [greeting]
    | Some m => Some m
    end in
  match truthy prompt with
  | None => (finish messages, ret tt)
  | Some prompt =>
      match messages with
      | None =>
          (None,
           lift (Raised
             "AttributeError: st.session_state has no attribute 'messages'"))
      | Some m =>
          let m := (m ++ [from_user prompt])%list in
          let valid_items_list := unique (map Stock.ITEM_NAME df) in
          match truthy (streamlit_mvp.run_chat_action prompt valid_items_list) with
          | Some extracted_item =>
              match analyse session df df_reorder extracted_item with
              | (log, Returned resp) =>
                  (finish (Some (m ++ [from_assistant (answered resp)])%list),
                   (log, Returned tt))
              | (log, Raised e) => (Some m, (log, Raised e))
              end
          | None =>
              (finish (Some (m ++ [from_assistant could_not_identify])%list),
               ret tt)
          end
      end
  end.

End ops_platform.

(** ** Sample data for the dashboards *)

Module Samples2.

(** INVENTORY_DAILY of [Samples.db] with its other columns: one row per
    inventory row, all of day 20. *)
Definition daily : list command_center.Daily.t :=
  map (fun i => command_center.Daily.mk (Inv.FACILITY_ID i) (Inv.ITEM_NAME i)
                  (Inv.CLOSING_STOCK i) "High" 20)
      Samples.inventory.

Definition df : list command_center.Net.t :=
  command_center.load_network_status_query 20 Samples.facilities daily.

(** INVENTORY_DAILY_PREDICTED of [Samples.db] with its other columns. *)
Definition predicted : list ops_platform.Pred.t :=
  map (fun i => ops_platform.Pred.mk (Inv.FACILITY_ID i) (Inv.ITEM_NAME i)
                  (Inv.CLOSING_STOCK i)
                  (if Inv.CLOSING_STOCK i <? 100 then Some (3 # 1)
                   else Some (30 # 1))
                  (Some (5 # 1)) "High")
      Samples.inventory.

Definition stock_df : list ops_platform.Stock.t :=
  ops_platform.query_inv Samples.facilities predicted.

Definition reorder_df : list ops_platform.Reorder.t :=
  [ops_platform.Reorder.mk "Oxytocin Injection" (Some (3 # 1)) (Some (400 # 1))].

(** A language model that knows one item. *)
Definition cortex (prompt : string) : option string :=
  if contains "oxytocin" (lower prompt) then Some "Oxytocin Injection" else None.

End Samples2.

(* ===================================================================== *)
(** * Part II.  Properties                                                *)
(* ===================================================================== *)

Example scenario_main :
  streamlit_app.find_nearest_neighbors Samples.scenario "V" "Oxytocin Injection"
  = ([], Returned [ {| SAVIOR_NAME := "A"; SAVIOR_LAT := 0; SAVIOR_LON := 1 # 100;
                       AVAILABLE_STOCK := 150; DISTANCE_KM := 10 # 10 |} ]).
Proof. vm_compute. reflexivity. Qed.

(** ** Rational comparisons and rounding *)

Lemma Qlt_bool_iff (x y : Q) : Qlt_bool x y = true <-> (x < y)%Q.
Proof.
  unfold Qlt_bool. rewrite negb_true_iff. split; intro H.
  - apply Qnot_le_lt. intro Hle. apply Qle_bool_iff in Hle. congruence.
  - destruct (Qle_bool y x) eqn:E; [|reflexivity].
    apply Qle_bool_iff in E. exfalso. exact (Qle_not_lt _ _ E H).
Qed.

Lemma Qle_bool_false (x y : Q) : Qle_bool x y = false -> (y <= x)%Q.
Proof.
  intro H. apply Qlt_le_weak, Qnot_le_lt. intro Hle.
  apply Qle_bool_iff in Hle. congruence.
Qed.

Lemma round_half_away_nonneg (x : Q) : (0 <= x)%Q -> 0 <= round_half_away x.
Proof.
  destruct x as [n d]. unfold Qle, round_half_away. cbn [Qnum Qden].
  intro H. assert (Hn : 0 <= n) by lia.
  apply Z.mul_nonneg_nonneg.
  - apply Z.sgn_nonneg. exact Hn.
  - apply Z.div_pos; lia.
Qed.

Lemma ROUND_nonneg (x : Q) (d : nat) : (0 <= x)%Q -> (0 <= ROUND x d)%Q.
Proof.
  intro H. unfold ROUND.
  assert (Hr : 0 <= round_half_away (x * (Z.pos (pow10 d) # 1))).
  { apply round_half_away_nonneg. apply Qmult_le_0_compat; [exact H|].
    unfold Qle. simpl. lia. }
  unfold Qle. simpl. lia.
Qed.

(** Rounding to the nearest integer moves a number by at most one half. *)
Lemma round_half_away_close (n : Z) (d : positive) :
  - Z.pos d <= 2 * Z.pos d * round_half_away (n # d) - 2 * n <= Z.pos d.
Proof.
  unfold round_half_away. cbn [Qnum Qden].
  pose proof (Z.div_mod (2 * Z.abs n + Z.pos d) (2 * Z.pos d) ltac:(lia)) as Hdm.
  pose proof (Z.mod_pos_bound (2 * Z.abs n + Z.pos d) (2 * Z.pos d) ltac:(lia))
    as Hb.
  set (q := (2 * Z.abs n + Z.pos d) / (2 * Z.pos d)) in *.
  set (m := (2 * Z.abs n + Z.pos d) mod (2 * Z.pos d)) in *.
  destruct (Z.sgn_spec n) as [[Hn Hs]|[[Hn Hs]|[Hn Hs]]]; rewrite Hs.
  - rewrite Z.abs_eq in Hdm by lia. nia.
  - lia.
  - rewrite Z.abs_neq in Hdm by lia. nia.
Qed.

(** [ROUND(x, 1)] is within 0.05 of [x]. *)
Lemma ROUND_1_close (x : Q) :
  (x - (1 # 20) <= ROUND x 1 /\ ROUND x 1 <= x + (1 # 20))%Q.
Proof.
  destruct x as [n d]. unfold ROUND.
  change ((n # d) * (Z.pos (pow10 1) # 1))%Q with ((n * 10) # (d * 1))%Q.
  pose proof (round_half_away_close (n * 10) (d * 1)) as H.
  set (r := round_half_away (n * 10 # d * 1)) in *.
  rewrite Pos.mul_1_r in H.
  unfold Qle, Qminus, Qplus, Qopp. cbn [Qnum Qden pow10].
  split; nia.
Qed.

(** ** ORDER BY: a sorted permutation *)

Lemma comes_first_closer (rank : NeighborMatch -> N) (a b : NeighborMatch) :
  comes_first rank a b = true -> closer_eq a b.
Proof.
  unfold comes_first, closer_eq. intro H. apply orb_true_iff in H.
  destruct H as [H|H].
  - apply Qlt_bool_iff in H. apply Qlt_le_weak. exact H.
  - apply andb_true_iff in H. destruct H as [H _]. apply Qle_bool_iff. exact H.
Qed.

Lemma comes_first_false (rank : NeighborMatch -> N) (a b : NeighborMatch) :
  comes_first rank a b = false -> closer_eq b a.
Proof.
  unfold comes_first, closer_eq, Qlt_bool. intro H. apply orb_false_iff in H.
  destruct H as [H _]. apply negb_false_iff in H. apply Qle_bool_iff. exact H.
Qed.

Lemma insert_by_distance_perm (rank : NeighborMatch -> N) (r : NeighborMatch)
  (rows : DataFrame) :
  Permutation (r :: rows) (insert_by_distance rank r rows).
Proof.
  induction rows as [|h t IH]; simpl.
  - apply Permutation_refl.
  - destruct (comes_first rank r h).
    + apply Permutation_refl.
    + eapply perm_trans; [apply perm_swap|]. apply perm_skip. exact IH.
Qed.

Lemma order_by_distance_perm (rank : NeighborMatch -> N) (rows : DataFrame) :
  Permutation rows (order_by_distance rank rows).
Proof.
  induction rows as [|r rows IH]; simpl.
  - apply perm_nil.
  - eapply perm_trans; [apply perm_skip, IH|]. apply insert_by_distance_perm.
Qed.

Lemma insert_by_distance_sorted (rank : NeighborMatch -> N) (r : NeighborMatch)
  (rows : DataFrame) :
  StronglySorted closer_eq rows ->
  StronglySorted closer_eq (insert_by_distance rank r rows).
Proof.
  induction 1 as [|h t Hs IH Hall]; simpl.
  - constructor; constructor.
  - destruct (comes_first rank r h) eqn:E.
    + apply comes_first_closer in E. constructor.
      * constructor; assumption.
      * constructor; [exact E|].
        eapply Forall_impl; [|exact Hall].
        intros a Ha. unfold closer_eq in *. eapply Qle_trans; eassumption.
    + apply comes_first_false in E. constructor; [exact IH|].
      eapply Permutation_Forall; [apply insert_by_distance_perm|].
      constructor; assumption.
Qed.

Lemma order_by_distance_sorted (rank : NeighborMatch -> N) (rows : DataFrame) :
  StronglySorted closer_eq (order_by_distance rank rows).
Proof.
  induction rows as [|r rows IH]; simpl.
  - constructor.
  - apply insert_by_distance_sorted, IH.
Qed.

(** Without ties the engine has no choice. *)
Lemma comes_first_no_tie (rank : NeighborMatch -> N) (a b : NeighborMatch) :
  ~ (DISTANCE_KM a == DISTANCE_KM b)%Q ->
  comes_first rank a b = Qlt_bool (DISTANCE_KM a) (DISTANCE_KM b).
Proof.
  intro Hne. unfold comes_first.
  destruct (Qlt_bool (DISTANCE_KM a) (DISTANCE_KM b)) eqn:Elt; [reflexivity|].
  destruct (Qle_bool (DISTANCE_KM a) (DISTANCE_KM b)) eqn:Ele; [|reflexivity].
  exfalso. apply Hne. apply Qle_antisym.
  - apply Qle_bool_iff. exact Ele.
  - unfold Qlt_bool in Elt. apply negb_false_iff in Elt.
    apply Qle_bool_iff. exact Elt.
Qed.

Lemma insert_by_distance_no_tie (rank1 rank2 : NeighborMatch -> N)
  (r : NeighborMatch) (rows : DataFrame) :
  Forall (fun b => ~ (DISTANCE_KM r == DISTANCE_KM b)%Q) rows ->
  insert_by_distance rank1 r rows = insert_by_distance rank2 r rows.
Proof.
  induction 1 as [|h t Hh Ht IH]; simpl.
  - reflexivity.
  - rewrite (comes_first_no_tie rank1 _ _ Hh), (comes_first_no_tie rank2 _ _ Hh).
    rewrite IH. reflexivity.
Qed.

Lemma order_by_distance_no_ties (rank1 rank2 : NeighborMatch -> N)
  (rows : DataFrame) :
  no_ties rows ->
  order_by_distance rank1 rows = order_by_distance rank2 rows.
Proof.
  unfold no_ties. induction 1 as [|r rows Hr Hrows IH]; simpl.
  - reflexivity.
  - rewrite IH. apply insert_by_distance_no_tie.
    eapply Permutation_Forall; [apply order_by_distance_perm|]. exact Hr.
Qed.

Lemma sorted_map_distance (rows : DataFrame) :
  StronglySorted closer_eq rows -> ascending (map DISTANCE_KM rows).
Proof.
  unfold ascending. induction 1 as [|h t Hs IH Hall]; simpl; constructor.
  - exact IH.
  - rewrite Forall_map. exact Hall.
Qed.

Lemma firstn_In {A} (n : nat) (l : list A) (x : A) :
  In x (firstn n l) -> In x l.
Proof.
  intro H. rewrite <- (firstn_skipn n l). apply in_or_app. left. exact H.
Qed.

Lemma sorted_firstn {A} (R : A -> A -> Prop) (n : nat) (l : list A) :
  StronglySorted R l -> StronglySorted R (firstn n l).
Proof.
  intro H. revert n. induction H as [|h t Hs IH Hall]; intros [|n]; simpl;
    try constructor.
  - apply IH.
  - rewrite Forall_forall in *. intros x Hx. apply Hall.
    eapply firstn_In. exact Hx.
Qed.

(** ** The join, WHERE and SELECT *)

Lemma in_from_join (facilities : list Fac.t) (inventory : list Inv.t)
  (source neighbor : Fac.t) (inv : Inv.t) :
  In (source, neighbor, inv) (from_join facilities inventory) <->
  In source facilities /\ In neighbor facilities /\ In inv inventory
  /\ Fac.FACILITY_ID neighbor <> Fac.FACILITY_ID source
  /\ Inv.FACILITY_ID inv = Fac.FACILITY_ID neighbor.
Proof.
  unfold from_join. rewrite in_flat_map. split.
  - intros [s [Hs H]]. apply in_flat_map in H. destruct H as [n [Hn H]].
    destruct (Fac.FACILITY_ID s =? Fac.FACILITY_ID n)%string eqn:Esn;
      simpl in H; [contradiction|].
    apply in_flat_map in H. destruct H as [i [Hi H]].
    destruct (Fac.FACILITY_ID n =? Inv.FACILITY_ID i)%string eqn:Eni;
      simpl in H; [|contradiction].
    destruct H as [H|[]]. inversion H; subst.
    apply String.eqb_neq in Esn. apply String.eqb_eq in Eni.
    repeat split; auto.
  - intros (Hs & Hn & Hi & Hne & He).
    exists source. split; [exact Hs|].
    apply in_flat_map. exists neighbor. split; [exact Hn|].
    assert (Esn : (Fac.FACILITY_ID source =? Fac.FACILITY_ID neighbor)%string = false)
      by (apply String.eqb_neq; auto).
    rewrite Esn. simpl. apply in_flat_map. exists inv. split; [exact Hi|].
    assert (Eni : (Fac.FACILITY_ID neighbor =? Inv.FACILITY_ID inv)%string = true)
      by (apply String.eqb_eq; auto).
    rewrite Eni. left. reflexivity.
Qed.

Lemma select_clause_shows (session : Session) (point_of : Fac.t -> GeoPoint)
  (source neighbor : Fac.t) (inv : Inv.t) :
  shows session point_of source neighbor inv
    (select_clause session point_of (source, neighbor, inv)).
Proof. unfold shows. simpl. repeat split; reflexivity. Qed.

Lemma shows_select_clause (session : Session) (point_of : Fac.t -> GeoPoint)
  (source neighbor : Fac.t) (inv : Inv.t) (r : NeighborMatch) :
  shows session point_of source neighbor inv r ->
  r = select_clause session point_of (source, neighbor, inv).
Proof.
  destruct r as [nm lat lon stock km]. unfold shows. simpl.
  intros (-> & -> & -> & -> & ->). reflexivity.
Qed.

(** The rows that pass the join and the WHERE clause, spelled out. *)
Lemma candidates_iff (session : Session) (point_of : Fac.t -> GeoPoint)
  (inventory : list Inv.t) (victim_id item_name : string) (r : NeighborMatch) :
  In r (candidates session point_of inventory victim_id item_name) <->
  exists source neighbor inv,
    eligible session inventory victim_id item_name source neighbor inv
    /\ shows session point_of source neighbor inv r.
Proof.
  unfold candidates, eligible. rewrite in_map_iff. split.
  - intros [[[s n] i] [Hr Hj]]. apply filter_In in Hj. destruct Hj as [Hj Hw].
    apply in_from_join in Hj. destruct Hj as (Hs & Hn & Hi & Hne & He).
    unfold where_clause in Hw. apply andb_true_iff in Hw. destruct Hw as [Hw Hst].
    apply andb_true_iff in Hw. destruct Hw as [Hvid Hitem].
    apply String.eqb_eq in Hvid, Hitem. apply Z.ltb_lt in Hst.
    exists s, n, i. subst r. split; [|apply select_clause_shows].
    repeat split; auto.
  - intros (s & n & i & (Hs & Hn & Hi & Hvid & Hne & He & Hitem & Hst) & Hr).
    exists (s, n, i). split; [symmetry; apply shows_select_clause; exact Hr|].
    apply filter_In. split.
    + apply in_from_join. repeat split; auto.
    + unfold where_clause. apply andb_true_iff. split.
      * apply andb_true_iff. split; apply String.eqb_eq; assumption.
      * apply Z.ltb_lt. exact Hst.
Qed.

Lemma in_candidates (session : Session) (point_of : Fac.t -> GeoPoint)
  (inventory : list Inv.t) (victim_id item_name : string) (r : NeighborMatch) :
  In r (candidates session point_of inventory victim_id item_name) ->
  projected_from session point_of inventory victim_id r
  /\ 100 < AVAILABLE_STOCK r.
Proof.
  intro H. apply candidates_iff in H.
  destruct H as (s & n & i & (Hs & Hn & Hi & Hvid & Hne & He & _ & Hst) & Hr).
  split.
  - exists s, n, i. repeat split; auto; apply Hr.
  - destruct Hr as (_ & _ & _ & Hstock & _). rewrite Hstock. exact Hst.
Qed.

Lemma candidates_distance_nonneg (session : Session)
  (point_of : Fac.t -> GeoPoint) (inventory : list Inv.t)
  (victim_id item_name : string) (r : NeighborMatch) :
  (forall p q, (0 <= ST_DISTANCE session p q)%Q) ->
  In r (candidates session point_of inventory victim_id item_name) ->
  (0 <= DISTANCE_KM r)%Q.
Proof.
  intros Hd H. unfold candidates in H. apply in_map_iff in H.
  destruct H as [[[s n] i] [Hr _]]. subst r. simpl.
  apply ROUND_nonneg. unfold Qdiv. apply Qmult_le_0_compat; [apply Hd|].
  unfold Qle. simpl. lia.
Qed.

Lemma in_query_main (session : Session) (victim_id item_name : string)
  (r : NeighborMatch) :
  In r (streamlit_app.query victim_id item_name session) ->
  In r (candidates session Fac.GEO_POINT (INVENTORY_DAILY (tables session))
          victim_id item_name)
  /\ (DISTANCE_KM r < 10 # 1)%Q.
Proof.
  unfold streamlit_app.query, streamlit_app.qualifying, limit.
  intro H. apply firstn_In in H.
  apply (Permutation_in _ (Permutation_sym (order_by_distance_perm _ _))) in H.
  unfold having_distance_lt_10 in H. apply filter_In in H.
  destruct H as [H Hlt]. apply Qlt_bool_iff in Hlt. auto.
Qed.

Lemma in_query_mvp (session : Session) (victim_id item_name : string)
  (r : NeighborMatch) :
  In r (streamlit_mvp.query victim_id item_name session) ->
  In r (candidates session
          (fun f => ST_MAKEPOINT (Fac.LONGITUDE f) (Fac.LATITUDE f))
          (INVENTORY_DAILY_PREDICTED (tables session)) victim_id item_name).
Proof.
  unfold streamlit_mvp.query, streamlit_mvp.qualifying, limit.
  intro H. apply firstn_In in H.
  apply (Permutation_in _ (Permutation_sym (order_by_distance_perm _ _))) in H.
  exact H.
Qed.

Lemma query_main_sorted (session : Session) (victim_id item_name : string) :
  StronglySorted closer_eq (streamlit_app.query victim_id item_name session).
Proof.
  unfold streamlit_app.query, limit. apply sorted_firstn, order_by_distance_sorted.
Qed.

Lemma query_mvp_sorted (session : Session) (victim_id item_name : string) :
  StronglySorted closer_eq (streamlit_mvp.query victim_id item_name session).
Proof.
  unfold streamlit_mvp.query, limit. apply sorted_firstn, order_by_distance_sorted.
Qed.

(** What the two Python wrappers hand back. *)

Lemma main_answers (session : Session) (victim_id item_name : string) :
  failure session = None ->
  sql_plain victim_id = true -> sql_plain item_name = true ->
  streamlit_app.find_nearest_neighbors session victim_id item_name
  = ([], Returned (streamlit_app.query victim_id item_name session)).
Proof.
  intros Hok Hv Hi.
  unfold streamlit_app.find_nearest_neighbors, lift, sql_interpolated_to_pandas.
  rewrite Hok, Hv, Hi. reflexivity.
Qed.

Lemma main_fails (session : Session) (victim_id item_name : string) (e : exn) :
  failure session = Some e ->
  streamlit_app.find_nearest_neighbors session victim_id item_name
  = ([], Raised e).
Proof.
  intro Hfail.
  unfold streamlit_app.find_nearest_neighbors, lift, sql_interpolated_to_pandas.
  rewrite Hfail. reflexivity.
Qed.

Lemma mvp_answers (session : Session) (victim_id item_name : string) :
  failure session = None ->
  streamlit_mvp.find_nearest_neighbors session victim_id item_name
  = ([], Returned (streamlit_mvp.query victim_id item_name session)).
Proof.
  intro Hok.
  unfold streamlit_mvp.find_nearest_neighbors, try_except, lift, sql_to_pandas.
  rewrite Hok. reflexivity.
Qed.

Lemma returned_rows_main (session : Session) (victim_id item_name : string) :
  sql_plain victim_id = true -> sql_plain item_name = true ->
  returned_rows (streamlit_app.find_nearest_neighbors session victim_id item_name)
  = match failure session with
    | None => streamlit_app.query victim_id item_name session
    | Some _ => []
    end.
Proof.
  intros Hv Hi.
  unfold returned_rows, streamlit_app.find_nearest_neighbors, lift,
    sql_interpolated_to_pandas.
  rewrite Hv, Hi. destruct (failure session); reflexivity.
Qed.

Lemma returned_rows_mvp (session : Session) (victim_id item_name : string) :
  returned_rows (streamlit_mvp.find_nearest_neighbors session victim_id item_name)
  = match failure session with
    | None => streamlit_mvp.query victim_id item_name session
    | Some _ => []
    end.
Proof.
  unfold returned_rows, streamlit_mvp.find_nearest_neighbors, try_except, lift,
    sql_to_pandas.
  destruct (failure session); reflexivity.
Qed.

(** ** The generator's savior search *)

Lemma id_eqb_eq (a b : inventory_data_generator.facility_id) :
  inventory_data_generator.id_eqb a b = true <-> a = b.
Proof.
  destruct a as [m|s], b as [n|t]; simpl.
  - rewrite Z.eqb_eq. split; congruence.
  - split; discriminate.
  - split; discriminate.
  - rewrite String.eqb_eq. split; congruence.
Qed.

Lemma id_eqb_neq (a b : inventory_data_generator.facility_id) :
  inventory_data_generator.id_eqb a b = false <-> a <> b.
Proof.
  rewrite <- id_eqb_eq. destruct (inventory_data_generator.id_eqb a b).
  - split; [discriminate | intro H; exfalso; apply H; reflexivity].
  - split; [discriminate | reflexivity].
Qed.

Lemma id_in_iff (x : inventory_data_generator.facility_id)
  (l : list inventory_data_generator.facility_id) :
  inventory_data_generator.id_in x l = true <-> In x l.
Proof.
  unfold inventory_data_generator.id_in. rewrite existsb_exists. split.
  - intros [y [Hy E]]. apply id_eqb_eq in E. subst y. exact Hy.
  - intro H. exists x. split; [exact H | apply id_eqb_eq; reflexivity].
Qed.

Section SaviorSearch.

Import inventory_data_generator.

Variable geodesic_km : Q * Q -> Q * Q -> Q.

Lemma nearest_fold_not_victim (df : list Hosp.t) (vid : facility_id)
  (v_loc : Q * Q) (st : Q * option facility_id) :
  snd st <> Some vid ->
  snd (fold_left (nearest_step geodesic_km vid v_loc) df st) <> Some vid.
Proof.
  revert st. induction df as [|row df IH]; intros st Hst; simpl.
  - exact Hst.
  - apply IH. unfold nearest_step. destruct st as [min_dist nearest].
    destruct (id_eqb (Hosp.FACILITY_ID row) vid) eqn:E; [exact Hst|].
    destruct (Qlt_bool _ min_dist); [|exact Hst].
    simpl. apply id_eqb_neq in E. congruence.
Qed.

Lemma nearest_other_not_victim (df : list Hosp.t) (vid : facility_id)
  (v_loc : Q * Q) :
  nearest_other geodesic_km df vid v_loc <> Some vid.
Proof.
  unfold nearest_other. apply nearest_fold_not_victim. simpl. discriminate.
Qed.

End SaviorSearch.

Lemma projected_from_other_facility (session : Session)
  (point_of : Fac.t -> GeoPoint) (inventory : list Inv.t) (victim_id : string)
  (r : NeighborMatch) :
  projected_from session point_of inventory victim_id r ->
  exists neighbor,
    In neighbor (FACILITIES (tables session))
    /\ Fac.FACILITY_ID neighbor <> victim_id
    /\ SAVIOR_NAME r = Fac.FACILITY_NAME neighbor.
Proof.
  intros (s & n & i & _ & Hn & _ & Hvid & Hne & _ & Hname & _).
  exists n. rewrite <- Hvid. auto.
Qed.

(** C1.  The MVP file's [find_nearest_neighbors] never returns a row
    projected from the source facility, whatever the victim id and item
    name: every returned row comes from a join row whose neighbor has
    another FACILITY_ID than the victim, and the DISTANCE_KM column of the
    frame is non-decreasing.  The other file's [find_nearest_neighbors] does
    so when the victim id and the item name hold no quote and no backslash.
    The generator's savior search never yields the victim's own id. *)
Theorem C1_neighbors_exclude_source_and_ascend
  (geodesic_km : Q * Q -> Q * Q -> Q) (session : Session)
  (victim_id item_name : string) :
  (sql_plain victim_id = true -> sql_plain item_name = true ->
   Forall (projected_from session Fac.GEO_POINT
             (INVENTORY_DAILY (tables session)) victim_id)
          (returned_rows (streamlit_app.find_nearest_neighbors
                            session victim_id item_name))
   /\ ascending (map DISTANCE_KM
                   (returned_rows (streamlit_app.find_nearest_neighbors
                                     session victim_id item_name))))
  /\ (Forall (projected_from session
                (fun f => ST_MAKEPOINT (Fac.LONGITUDE f) (Fac.LATITUDE f))
                (INVENTORY_DAILY_PREDICTED (tables session)) victim_id)
             (returned_rows (streamlit_mvp.find_nearest_neighbors
                               session victim_id item_name))
      /\ ascending (map DISTANCE_KM
                      (returned_rows (streamlit_mvp.find_nearest_neighbors
                                        session victim_id item_name))))
  /\ (forall df_facilities vid v_loc,
        inventory_data_generator.nearest_other geodesic_km df_facilities vid v_loc
        <> Some vid).
Proof.
  split; [|split].
  - intros Hv Hi. rewrite (returned_rows_main _ _ _ Hv Hi).
    destruct (failure session).
    + split; constructor.
    + split.
      * apply Forall_forall. intros r Hr. apply in_query_main in Hr.
        destruct Hr as [Hr _]. apply in_candidates in Hr. apply Hr.
      * apply sorted_map_distance, query_main_sorted.
  - rewrite returned_rows_mvp. destruct (failure session).
    + split; constructor.
    + split.
      * apply Forall_forall. intros r Hr. apply in_query_mvp in Hr.
        apply in_candidates in Hr. apply Hr.
      * apply sorted_map_distance, query_mvp_sorted.
  - intros. apply nearest_other_not_victim.
Qed.

Lemma C1_witness :
  Forall (projected_from Samples.healthy Fac.GEO_POINT
            (INVENTORY_DAILY (tables Samples.healthy)) "F001")
         (returned_rows (streamlit_app.find_nearest_neighbors
                           Samples.healthy "F001" "Oxytocin Injection"))
  /\ ascending (map DISTANCE_KM
                  (returned_rows (streamlit_app.find_nearest_neighbors
                                    Samples.healthy "F001" "Oxytocin Injection"))).
Proof.
  destruct (C1_neighbors_exclude_source_and_ascend Samples.taxicab_km
              Samples.healthy "F001" "Oxytocin Injection") as [Hmain _].
  apply Hmain; reflexivity.
Defined.

(** C1 fails in [src/streamlit_app.py]: with the item name [x' OR 'a'='a]
    the text sent to the engine selects every stocked row of every
    facility, seen from every other one; asked for victim V, the frame
    names V itself as a savior (with its 400 units of Paracetamol), which
    no join row with another neighbor than V yields.  The MVP file, which
    binds the name as a parameter, returns no row. *)
Lemma C1_counterexample :
  sql_plain Samples.always_true_name = false
  /\ map (fun r => (SAVIOR_NAME r, AVAILABLE_STOCK r))
         (returned_rows (streamlit_app.find_nearest_neighbors
                           Samples.ward "V" Samples.always_true_name))
     = [("A", 150); ("Victim", 400); ("A", 150)]
  /\ ~ Forall (projected_from Samples.ward Fac.GEO_POINT
                 (INVENTORY_DAILY (tables Samples.ward)) "V")
              (returned_rows (streamlit_app.find_nearest_neighbors
                                Samples.ward "V" Samples.always_true_name))
  /\ returned_rows (streamlit_mvp.find_nearest_neighbors
                      Samples.ward "V" Samples.always_true_name) = [].
Proof.
  assert (Hnames :
    map SAVIOR_NAME
      (returned_rows (streamlit_app.find_nearest_neighbors
                        Samples.ward "V" Samples.always_true_name))
    = ["A"; "Victim"; "A"]) by (vm_compute; reflexivity).
  split; [vm_compute; reflexivity|].
  split; [vm_compute; reflexivity|].
  split; [|vm_compute; reflexivity].
  intro Hall.
  assert (Hother : Forall (fun nm =>
            exists neighbor,
              In neighbor (FACILITIES (tables Samples.ward))
              /\ Fac.FACILITY_ID neighbor <> "V"
              /\ nm = Fac.FACILITY_NAME neighbor)
            ["A"; "Victim"; "A"]).
  { rewrite <- Hnames. rewrite Forall_map.
    eapply Forall_impl; [|exact Hall].
    intros r Hr. apply projected_from_other_facility in Hr. exact Hr. }
  inversion Hother as [|? ? _ Hrest]; subst.
  inversion Hrest as [|? ? Hvictim _]; subst.
  destruct Hvictim as (neighbor & Hin & Hid & Hname).
  simpl in Hin.
  destruct Hin as [<-|[<-|[<-|[]]]]; simpl in Hid, Hname;
    congruence.
Qed.

(** C2.  Provided the engine's geodesic distance is never negative, every row
    returned by the MVP file's [find_nearest_neighbors] has AVAILABLE_STOCK
    strictly above 100 and DISTANCE_KM at least 0; so has every row returned
    by the other file's when the victim id and the item name hold no quote
    and no backslash. *)
Theorem C2_stock_above_threshold_distance_nonneg
  (session : Session) (victim_id item_name : string) :
  (forall p q, (0 <= ST_DISTANCE session p q)%Q) ->
  (sql_plain victim_id = true -> sql_plain item_name = true ->
   Forall (fun r => 100 < AVAILABLE_STOCK r /\ (0 <= DISTANCE_KM r)%Q)
          (returned_rows (streamlit_app.find_nearest_neighbors
                            session victim_id item_name)))
  /\ Forall (fun r => 100 < AVAILABLE_STOCK r /\ (0 <= DISTANCE_KM r)%Q)
            (returned_rows (streamlit_mvp.find_nearest_neighbors
                              session victim_id item_name)).
Proof.
  intro Hd. split.
  - intros Hv Hi. rewrite (returned_rows_main _ _ _ Hv Hi).
    destruct (failure session); [constructor|].
    apply Forall_forall; intros r Hr.
    apply in_query_main in Hr. destruct Hr as [Hr _]. split.
    + apply in_candidates in Hr. apply Hr.
    + eapply candidates_distance_nonneg; eassumption.
  - rewrite returned_rows_mvp.
    destruct (failure session); [constructor|].
    apply Forall_forall; intros r Hr.
    apply in_query_mvp in Hr. split.
    + apply in_candidates in Hr. apply Hr.
    + eapply candidates_distance_nonneg; eassumption.
Qed.

Lemma taxicab_m_nonneg (p q : GeoPoint) : (0 <= Samples.taxicab_m p q)%Q.
Proof.
  unfold Samples.taxicab_m. apply Qmult_le_0_compat.
  - unfold Qle. simpl. lia.
  - replace 0%Q with (0 + 0)%Q by reflexivity.
    apply Qplus_le_compat; apply Qabs_nonneg.
Qed.

Lemma C2_witness :
  (forall p q, (0 <= ST_DISTANCE Samples.healthy p q)%Q)
  /\ Forall (fun r => 100 < AVAILABLE_STOCK r /\ (0 <= DISTANCE_KM r)%Q)
            (returned_rows (streamlit_app.find_nearest_neighbors
                              Samples.healthy "F001" "Oxytocin Injection"))
  /\ Forall (fun r => 100 < AVAILABLE_STOCK r /\ (0 <= DISTANCE_KM r)%Q)
            (returned_rows (streamlit_mvp.find_nearest_neighbors
                              Samples.healthy "F001" "Oxytocin Injection")).
Proof.
  split; [exact taxicab_m_nonneg|].
  destruct (C2_stock_above_threshold_distance_nonneg Samples.healthy
              "F001" "Oxytocin Injection" taxicab_m_nonneg) as [Hmain Hmvp].
  split; [apply Hmain; reflexivity | exact Hmvp].
Defined.

(** C2 fails in [src/streamlit_app.py]: with the item name
    [Oxytocin Injection' OR 'a'='b] the stock test of the text sent to the
    engine sits in a branch that is never true, and the frame offers
    facility B with its 50 units.  The MVP file returns no row for that
    name. *)
Lemma C2_counterexample :
  sql_plain Samples.stock_test_off_name = false
  /\ map (fun r => (SAVIOR_NAME r, AVAILABLE_STOCK r))
         (returned_rows (streamlit_app.find_nearest_neighbors
                           Samples.ward "V" Samples.stock_test_off_name))
     = [("A", 150); ("B", 50)]
  /\ returned_rows (streamlit_mvp.find_nearest_neighbors
                      Samples.ward "V" Samples.stock_test_off_name) = [].
Proof. repeat split; vm_compute; reflexivity. Qed.

(** ** LIMIT: the first rows of a sorted permutation *)

Lemma sorted_app_cross {A} (R : A -> A -> Prop) (l1 l2 : list A) :
  StronglySorted R (l1 ++ l2) ->
  forall a b, In a l1 -> In b l2 -> R a b.
Proof.
  induction l1 as [|h t IH]; simpl; intros Hs a b Ha Hb.
  - contradiction.
  - inversion Hs as [|? ? Hs' Hall]; subst. destruct Ha as [Ha|Ha].
    + subst a. rewrite Forall_forall in Hall. apply Hall.
      apply in_or_app. right. exact Hb.
    + eapply IH; eassumption.
Qed.

Lemma limit_order_by_nearest (rank : NeighborMatch -> N) (n : nat)
  (pool : DataFrame) :
  nearest_of pool (limit n (order_by_distance rank pool)).
Proof.
  unfold nearest_of, limit. split.
  - apply sorted_firstn, order_by_distance_sorted.
  - exists (skipn n (order_by_distance rank pool)). split.
    + rewrite firstn_skipn. apply order_by_distance_perm.
    + apply sorted_app_cross. rewrite firstn_skipn.
      apply order_by_distance_sorted.
Qed.

Lemma limit_order_by_length (rank : NeighborMatch -> N) (n : nat)
  (pool : DataFrame) :
  (n <= List.length pool)%nat ->
  List.length (limit n (order_by_distance rank pool)) = n.
Proof.
  intro H. unfold limit. rewrite length_firstn.
  rewrite <- (Permutation_length (order_by_distance_perm rank pool)). lia.
Qed.

(** Two numbers whose roundings to 0.1 are in order are themselves in
    order up to 0.1. *)
Lemma rounding_gap (x y : Q) :
  (ROUND x 1 <= ROUND y 1)%Q -> (x - (1 # 10) <= y)%Q.
Proof.
  intro H. destruct (ROUND_1_close x) as [Hx _].
  destruct (ROUND_1_close y) as [_ Hy]. lra.
Qed.

Lemma limit_order_by_picked (session : Session) (point_of : Fac.t -> GeoPoint)
  (inventory : list Inv.t) (victim_id item_name : string)
  (rank : NeighborMatch -> N) (n : nat) (pool : DataFrame) :
  (forall r, In r pool ->
             In r (candidates session point_of inventory victim_id item_name)) ->
  (forall r, In r (candidates session point_of inventory victim_id item_name) ->
             In r pool
             \/ forall r', In r' pool -> (DISTANCE_KM r' <= DISTANCE_KM r)%Q) ->
  picked_by_displayed_distance session point_of inventory victim_id item_name
    (limit n (order_by_distance rank pool)).
Proof.
  intros Hsound Hcomplete.
  assert (Hin : forall r, In r (limit n (order_by_distance rank pool)) ->
                          In r pool).
  { intros r Hr. unfold limit in Hr. apply firstn_In in Hr.
    exact (Permutation_in _ (Permutation_sym (order_by_distance_perm _ _)) Hr). }
  assert (Hleft : forall source neighbor inv r,
            eligible session inventory victim_id item_name source neighbor inv ->
            shows session point_of source neighbor inv r ->
            In r (limit n (order_by_distance rank pool))
            \/ forall r', In r' (limit n (order_by_distance rank pool)) ->
                          (DISTANCE_KM r' <= DISTANCE_KM r)%Q).
  { intros s nb i r He Hs.
    assert (Hc : In r (candidates session point_of inventory victim_id item_name))
      by (apply candidates_iff; exists s, nb, i; auto).
    destruct (Hcomplete r Hc) as [Hp|Hfar].
    - apply (Permutation_in _ (order_by_distance_perm rank pool)) in Hp.
      rewrite <- (firstn_skipn n (order_by_distance rank pool)) in Hp.
      apply in_app_or in Hp. destruct Hp as [Hp|Hp]; [left; exact Hp|].
      right. intros r' Hr'.
      apply (sorted_app_cross closer_eq
               (firstn n (order_by_distance rank pool))
               (skipn n (order_by_distance rank pool))); auto.
      rewrite firstn_skipn. apply order_by_distance_sorted.
    - right. intros r' Hr'. apply Hfar, Hin, Hr'. }
  split; [|split; [|split]].
  - apply sorted_map_distance. unfold limit.
    apply sorted_firstn, order_by_distance_sorted.
  - intros r Hr. apply candidates_iff, Hsound, Hin, Hr.
  - exact Hleft.
  - intros s nb i r s' nb' i' r' He Hs Hout Hr' Hs'.
    destruct (Hleft s nb i r He Hs) as [Hyes|Hfar]; [contradiction|].
    specialize (Hfar r' Hr').
    destruct Hs as (_ & _ & _ & _ & Hkm). destruct Hs' as (_ & _ & _ & _ & Hkm').
    rewrite Hkm, Hkm' in Hfar. apply rounding_gap. exact Hfar.
Qed.

Lemma qualifying_main_iff (session : Session) (victim_id item_name : string)
  (r : NeighborMatch) :
  In r (streamlit_app.qualifying session victim_id item_name) <->
  (exists source neighbor inv,
     eligible session (INVENTORY_DAILY (tables session)) victim_id item_name
       source neighbor inv
     /\ shows session Fac.GEO_POINT source neighbor inv r)
  /\ (DISTANCE_KM r < 10 # 1)%Q.
Proof.
  unfold streamlit_app.qualifying, having_distance_lt_10.
  rewrite filter_In, candidates_iff, Qlt_bool_iff. tauto.
Qed.

Lemma query_main_picked (session : Session) (victim_id item_name : string) :
  picked_by_displayed_distance session Fac.GEO_POINT
    (INVENTORY_DAILY (tables session)) victim_id item_name
    (streamlit_app.query victim_id item_name session).
Proof.
  unfold streamlit_app.query. apply limit_order_by_picked.
  - intros r Hr. unfold streamlit_app.qualifying, having_distance_lt_10 in Hr.
    apply filter_In in Hr. apply Hr.
  - intros r Hr.
    destruct (Qlt_bool (DISTANCE_KM r) (10 # 1)) eqn:E.
    + left. unfold streamlit_app.qualifying, having_distance_lt_10.
      apply filter_In. auto.
    + right. intros r' Hr'.
      unfold streamlit_app.qualifying, having_distance_lt_10 in Hr'.
      apply filter_In in Hr'. destruct Hr' as [_ Hlt].
      apply Qlt_bool_iff in Hlt.
      unfold Qlt_bool in E. apply negb_false_iff in E.
      apply Qle_bool_iff in E.
      apply Qlt_le_weak. eapply Qlt_le_trans; eassumption.
Qed.

Lemma query_mvp_picked (session : Session) (victim_id item_name : string) :
  picked_by_displayed_distance session
    (fun f => ST_MAKEPOINT (Fac.LONGITUDE f) (Fac.LATITUDE f))
    (INVENTORY_DAILY_PREDICTED (tables session)) victim_id item_name
    (streamlit_mvp.query victim_id item_name session).
Proof.
  unfold streamlit_mvp.query. apply limit_order_by_picked.
  - intros r Hr. exact Hr.
  - intros r Hr. left. exact Hr.
Qed.

(** C4, as amended.  A row qualifies when it shows a facility other than the
    victim that holds more than 100 units of the item (and, in the file
    with the HAVING clause, is displayed below 10 km).  When the warehouse
    answers and at least 3 rows qualify, [find_nearest_neighbors] returns
    exactly 3 rows (in [src/streamlit_app.py]: for a victim id and an item
    name without quote or backslash); they are qualifying rows, in the order
    of their displayed distance -- the distance rounded to 0.1 km -- and
    every candidate left out is displayed no closer than any of them, so
    lies at most 0.1 km closer. *)
Theorem C4_three_closest_first
  (session : Session) (victim_id item_name : string) :
  (forall r,
      (In r (streamlit_app.qualifying session victim_id item_name) <->
       (exists source neighbor inv,
          eligible session (INVENTORY_DAILY (tables session))
            victim_id item_name source neighbor inv
          /\ shows session Fac.GEO_POINT source neighbor inv r)
       /\ (DISTANCE_KM r < 10 # 1)%Q)
      /\ (In r (streamlit_mvp.qualifying session victim_id item_name) <->
          exists source neighbor inv,
            eligible session (INVENTORY_DAILY_PREDICTED (tables session))
              victim_id item_name source neighbor inv
            /\ shows session
                 (fun f => ST_MAKEPOINT (Fac.LONGITUDE f) (Fac.LATITUDE f))
                 source neighbor inv r))
  /\ (failure session = None ->
      (sql_plain victim_id = true -> sql_plain item_name = true ->
       (3 <= List.length (streamlit_app.qualifying session victim_id item_name))%nat ->
       exists rows,
         streamlit_app.find_nearest_neighbors session victim_id item_name
           = ([], Returned rows)
         /\ List.length rows = 3%nat
         /\ nearest_of (streamlit_app.qualifying session victim_id item_name) rows
         /\ picked_by_displayed_distance session Fac.GEO_POINT
              (INVENTORY_DAILY (tables session)) victim_id item_name rows
         /\ Forall (fun r => (DISTANCE_KM r < 10 # 1)%Q) rows)
      /\ ((3 <= List.length (streamlit_mvp.qualifying session victim_id item_name))%nat ->
          exists rows,
            streamlit_mvp.find_nearest_neighbors session victim_id item_name
              = ([], Returned rows)
            /\ List.length rows = 3%nat
            /\ nearest_of (streamlit_mvp.qualifying session victim_id item_name) rows
            /\ picked_by_displayed_distance session
                 (fun f => ST_MAKEPOINT (Fac.LONGITUDE f) (Fac.LATITUDE f))
                 (INVENTORY_DAILY_PREDICTED (tables session))
                 victim_id item_name rows)).
Proof.
  split.
  - intro r. split; [apply qualifying_main_iff|].
    unfold streamlit_mvp.qualifying. apply candidates_iff.
  - intro Hok. split.
    + intros Hv Hi Hlen.
      exists (streamlit_app.query victim_id item_name session).
      split; [apply main_answers; assumption|].
      split; [apply limit_order_by_length; exact Hlen|].
      split; [apply limit_order_by_nearest|].
      split; [apply query_main_picked|].
      apply Forall_forall. intros r Hr. apply in_query_main in Hr. apply Hr.
    + intro Hlen.
      exists (streamlit_mvp.query victim_id item_name session).
      split; [apply mvp_answers; assumption|].
      split; [apply limit_order_by_length; exact Hlen|].
      split; [apply limit_order_by_nearest|].
      apply query_mvp_picked.
Qed.

Lemma C4_witness :
  (exists rows,
     streamlit_app.find_nearest_neighbors Samples.healthy "F001" "Oxytocin Injection"
       = ([], Returned rows)
     /\ List.length rows = 3%nat
     /\ nearest_of (streamlit_app.qualifying Samples.healthy "F001"
                      "Oxytocin Injection") rows
     /\ picked_by_displayed_distance Samples.healthy Fac.GEO_POINT
          (INVENTORY_DAILY (tables Samples.healthy)) "F001" "Oxytocin Injection"
          rows
     /\ Forall (fun r => (DISTANCE_KM r < 10 # 1)%Q) rows)
  /\ (exists rows,
        streamlit_mvp.find_nearest_neighbors Samples.healthy "F001" "Oxytocin Injection"
          = ([], Returned rows)
        /\ List.length rows = 3%nat
        /\ nearest_of (streamlit_mvp.qualifying Samples.healthy "F001"
                         "Oxytocin Injection") rows
        /\ picked_by_displayed_distance Samples.healthy
             (fun f => ST_MAKEPOINT (Fac.LONGITUDE f) (Fac.LATITUDE f))
             (INVENTORY_DAILY_PREDICTED (tables Samples.healthy))
             "F001" "Oxytocin Injection" rows).
Proof.
  destruct (C4_three_closest_first Samples.healthy "F001" "Oxytocin Injection")
    as [_ H].
  destruct (H eq_refl) as [Hmain Hmvp].
  split.
  - apply Hmain; [reflexivity | reflexivity | vm_compute; lia].
  - apply Hmvp. vm_compute. lia.
Defined.

Example healthy_top3_names :
  map SAVIOR_NAME
    (returned_rows (streamlit_mvp.find_nearest_neighbors
                      Samples.healthy "F001" "Oxytocin Injection"))
  = ["RS A"; "RS C"; "RS D"].
Proof. vm_compute. reflexivity. Qed.

(** C4, as stated, fails: facilities A, B, C and D hold the item and lie
    1.04, 1.03, 1.02 and 1.01 km from victim V; all four are displayed at
    1.0 km, and on an engine that lists equal distances in table order both
    files return A, B and C -- the three farthest, farthest first -- and
    leave out D, the nearest. *)
Lemma C4_counterexample :
  map (fun f => (Fac.FACILITY_NAME f,
                 Qred (true_km Samples.crowded Fac.GEO_POINT
                         (Samples.fac "V" "Victim" 0 0) f)))
      (tl (FACILITIES (tables Samples.crowded)))
  = [("A", 26 # 25); ("B", 103 # 100); ("C", 51 # 50); ("D", 101 # 100)]
  /\ map (fun r => (SAVIOR_NAME r, Qred (DISTANCE_KM r)))
         (streamlit_app.qualifying Samples.crowded "V" "Oxytocin Injection")
     = [("A", 1 # 1); ("B", 1 # 1); ("C", 1 # 1); ("D", 1 # 1)]
  /\ map SAVIOR_NAME
         (returned_rows (streamlit_app.find_nearest_neighbors
                           Samples.crowded "V" "Oxytocin Injection"))
     = ["A"; "B"; "C"]
  /\ map SAVIOR_NAME
         (returned_rows (streamlit_mvp.find_nearest_neighbors
                           Samples.crowded "V" "Oxytocin Injection"))
     = ["A"; "B"; "C"].
Proof. repeat split; vm_compute; reflexivity. Qed.

(** ** Empty results and failures *)

(** C8.  When the warehouse answers and no row qualifies, the MVP file's
    [find_nearest_neighbors] returns an empty frame without raising and
    without showing anything; the emergency console then shows its
    no-supply message and the chat assistant answers that no surplus was
    found, both ending normally.  So does the other file when the victim id
    and the item name hold no quote and no backslash. *)
Theorem C8_empty_result_is_not_an_error
  (session : Session) (victim_id item_name : string) :
  failure session = None ->
  (sql_plain victim_id = true -> sql_plain item_name = true ->
   streamlit_app.qualifying session victim_id item_name = [] ->
   streamlit_app.find_nearest_neighbors session victim_id item_name
     = ([], Returned [])
   /\ streamlit_app.emergency_console session victim_id item_name
       = ([st_error "No neighbors found within range."], Returned tt)
   /\ streamlit_app.chat_lateral_transfer session victim_id item_name
       = ([], Returned (reply_no_surplus item_name)))
  /\ (streamlit_mvp.qualifying session victim_id item_name = [] ->
      streamlit_mvp.find_nearest_neighbors session victim_id item_name
        = ([], Returned [])
      /\ streamlit_mvp.emergency_console session victim_id item_name
          = ([st_error "No nearby stock found."], Returned tt)
      /\ streamlit_mvp.chat_lateral_transfer session victim_id item_name
          = ([], Returned (reply_no_surplus item_name))).
Proof.
  intro Hok. split.
  - intros Hv Hi Hnone.
    assert (Hf : streamlit_app.find_nearest_neighbors session victim_id item_name
                 = ([], Returned [])).
    { rewrite (main_answers _ _ _ Hok Hv Hi). unfold streamlit_app.query.
      rewrite Hnone. reflexivity. }
    split; [exact Hf|].
    unfold streamlit_app.emergency_console, streamlit_app.chat_lateral_transfer.
    rewrite Hf. split; reflexivity.
  - intro Hnone.
    assert (Hf : streamlit_mvp.find_nearest_neighbors session victim_id item_name
                 = ([], Returned [])).
    { rewrite (mvp_answers _ _ _ Hok). unfold streamlit_mvp.query.
      rewrite Hnone. reflexivity. }
    split; [exact Hf|].
    unfold streamlit_mvp.emergency_console, streamlit_mvp.chat_lateral_transfer.
    rewrite Hf. split; reflexivity.
Qed.

Lemma C8_witness :
  (streamlit_app.find_nearest_neighbors Samples.healthy "F001" "Epinephrine"
     = ([], Returned [])
   /\ streamlit_app.emergency_console Samples.healthy "F001" "Epinephrine"
       = ([st_error "No neighbors found within range."], Returned tt)
   /\ streamlit_app.chat_lateral_transfer Samples.healthy "F001" "Epinephrine"
       = ([], Returned (reply_no_surplus "Epinephrine")))
  /\ (streamlit_mvp.find_nearest_neighbors Samples.healthy "F001" "Epinephrine"
        = ([], Returned [])
      /\ streamlit_mvp.emergency_console Samples.healthy "F001" "Epinephrine"
          = ([st_error "No nearby stock found."], Returned tt)
      /\ streamlit_mvp.chat_lateral_transfer Samples.healthy "F001" "Epinephrine"
          = ([], Returned (reply_no_surplus "Epinephrine"))).
Proof.
  destruct (C8_empty_result_is_not_an_error Samples.healthy "F001" "Epinephrine"
              eq_refl) as [Hmain Hmvp].
  split.
  - apply Hmain; [reflexivity | reflexivity | vm_compute; reflexivity].
  - apply Hmvp. vm_compute. reflexivity.
Defined.

(** C8 fails in [src/streamlit_app.py]: no facility holds an item named
    [x' OR 'a'='a], so no candidate survives the filters and the MVP file
    shows its no-supply message; the other file sends a text that selects
    other rows, shows the success banner for 3 options and has the chat
    assistant name a facility. *)
Lemma C8_counterexample :
  failure Samples.ward = None
  /\ streamlit_app.qualifying Samples.ward "V" Samples.always_true_name = []
  /\ map (fun r => (SAVIOR_NAME r, AVAILABLE_STOCK r))
         (returned_rows (streamlit_app.find_nearest_neighbors
                           Samples.ward "V" Samples.always_true_name))
     = [("A", 150); ("Victim", 400); ("A", 150)]
  /\ hd_error (fst (streamlit_app.emergency_console
                      Samples.ward "V" Samples.always_true_name))
     = Some (st_success_options 3)
  /\ (exists top,
        streamlit_app.chat_lateral_transfer
          Samples.ward "V" Samples.always_true_name
        = ([], Returned (reply_found Samples.always_true_name top)))
  /\ streamlit_mvp.emergency_console Samples.ward "V" Samples.always_true_name
     = ([st_error "No nearby stock found."], Returned tt).
Proof.
  repeat split; try (vm_compute; reflexivity).
  eexists. vm_compute. reflexivity.
Qed.

(** C9.  When the warehouse raises during the neighbor query, the MVP file
    catches the exception inside [find_nearest_neighbors], shows an error and
    carries on with an empty frame; the other file has no handler: the
    exception leaves [find_nearest_neighbors], the emergency console and the
    chat assistant. *)
Theorem C9_failure_caught_in_mvp_only
  (session : Session) (victim_id item_name : string) (e : exn) :
  failure session = Some e ->
  (streamlit_mvp.find_nearest_neighbors session victim_id item_name
     = ([st_error ("SQL Error: " ++ e)], Returned [])
   /\ streamlit_mvp.emergency_console session victim_id item_name
       = ([st_error ("SQL Error: " ++ e); st_error "No nearby stock found."],
          Returned tt)
   /\ streamlit_mvp.chat_lateral_transfer session victim_id item_name
       = ([st_error ("SQL Error: " ++ e)], Returned (reply_no_surplus item_name)))
  /\ (streamlit_app.find_nearest_neighbors session victim_id item_name
        = ([], Raised e)
      /\ streamlit_app.emergency_console session victim_id item_name
          = ([], Raised e)
      /\ streamlit_app.chat_lateral_transfer session victim_id item_name
          = ([], Raised e)).
Proof.
  intro Hfail. split.
  - assert (Hf : streamlit_mvp.find_nearest_neighbors session victim_id item_name
                 = ([st_error ("SQL Error: " ++ e)], Returned [])).
    { unfold streamlit_mvp.find_nearest_neighbors, try_except, lift, sql_to_pandas.
      rewrite Hfail. reflexivity. }
    split; [exact Hf|].
    unfold streamlit_mvp.emergency_console, streamlit_mvp.chat_lateral_transfer.
    rewrite Hf. split; reflexivity.
  - pose proof (main_fails session victim_id item_name e Hfail) as Hf.
    split; [exact Hf|].
    unfold streamlit_app.emergency_console, streamlit_app.chat_lateral_transfer.
    rewrite Hf. split; reflexivity.
Qed.

Lemma C9_witness :
  streamlit_app.emergency_console Samples.broken "F001" "Oxytocin Injection"
    = ([], Raised "000630: statement timed out")
  /\ streamlit_mvp.emergency_console Samples.broken "F001" "Oxytocin Injection"
      = ([st_error "SQL Error: 000630: statement timed out";
          st_error "No nearby stock found."], Returned tt).
Proof.
  destruct (C9_failure_caught_in_mvp_only Samples.broken "F001"
              "Oxytocin Injection" "000630: statement timed out" eq_refl)
    as [(_ & Hmvp & _) (_ & Hmain & _)].
  split; [exact Hmain | exact Hmvp].
Defined.

(** ** The two files compared *)

Lemma filter_all {A} (p : A -> bool) (l : list A) :
  Forall (fun x => p x = true) l -> filter p l = l.
Proof.
  induction 1 as [|x l Hx Hl IH]; simpl.
  - reflexivity.
  - rewrite Hx, IH. reflexivity.
Qed.

Lemma candidates_same_points (session : Session) (inventory : list Inv.t)
  (victim_id item_name : string) :
  (forall f, In f (FACILITIES (tables session)) ->
             Fac.GEO_POINT f = ST_MAKEPOINT (Fac.LONGITUDE f) (Fac.LATITUDE f)) ->
  candidates session Fac.GEO_POINT inventory victim_id item_name
  = candidates session
      (fun f => ST_MAKEPOINT (Fac.LONGITUDE f) (Fac.LATITUDE f))
      inventory victim_id item_name.
Proof.
  intro Hgeo. unfold candidates. apply map_ext_in.
  intros [[s n] i] Hj. apply filter_In in Hj. destruct Hj as [Hj _].
  apply in_from_join in Hj. destruct Hj as (Hs & Hn & _).
  unfold select_clause. rewrite (Hgeo s Hs), (Hgeo n Hn). reflexivity.
Qed.

(** C5, as amended.  The two files differ in the HAVING cutoff, in the
    inventory table and the point expression they read, in that only the
    MVP file catches a failure of the warehouse, and in which of two rows
    displayed at the same distance the engine lists first.  When the
    warehouse answers, the victim id and the item name hold no quote and no
    backslash, the two inventory tables hold the same rows, every stored
    GEO_POINT is the point of the facility's LONGITUDE and LATITUDE, every
    qualifying row has a DISTANCE_KM (the rounded value) below 10 and no two
    qualifying rows have the same DISTANCE_KM, both [find_nearest_neighbors]
    return the same ranked frame. *)
Theorem C5_variants_agree_within_cutoff
  (session : Session) (victim_id item_name : string) :
  failure session = None ->
  sql_plain victim_id = true -> sql_plain item_name = true ->
  INVENTORY_DAILY (tables session) = INVENTORY_DAILY_PREDICTED (tables session) ->
  (forall f, In f (FACILITIES (tables session)) ->
             Fac.GEO_POINT f = ST_MAKEPOINT (Fac.LONGITUDE f) (Fac.LATITUDE f)) ->
  Forall (fun r => (DISTANCE_KM r < 10 # 1)%Q)
         (streamlit_mvp.qualifying session victim_id item_name) ->
  no_ties (streamlit_mvp.qualifying session victim_id item_name) ->
  streamlit_app.find_nearest_neighbors session victim_id item_name
  = streamlit_mvp.find_nearest_neighbors session victim_id item_name.
Proof.
  intros Hok Hv Hi Htab Hgeo Hnear Hties.
  rewrite (main_answers _ _ _ Hok Hv Hi), (mvp_answers _ _ _ Hok).
  unfold streamlit_app.query, streamlit_mvp.query, streamlit_app.qualifying.
  unfold streamlit_mvp.qualifying in *.
  rewrite Htab, (candidates_same_points _ _ _ _ Hgeo).
  unfold having_distance_lt_10. rewrite filter_all.
  - rewrite (order_by_distance_no_ties
               (tie_rank session main_app victim_id item_name)
               (tie_rank session mvp_app victim_id item_name) _ Hties).
    reflexivity.
  - eapply Forall_impl; [|exact Hnear].
    intros r Hr. apply Qlt_bool_iff. exact Hr.
Qed.

Lemma C5_witness :
  streamlit_app.find_nearest_neighbors Samples.healthy "F001" "Oxytocin Injection"
  = streamlit_mvp.find_nearest_neighbors Samples.healthy "F001" "Oxytocin Injection".
Proof.
  apply (C5_variants_agree_within_cutoff Samples.healthy).
  - reflexivity.
  - reflexivity.
  - reflexivity.
  - reflexivity.
  - intros f Hf. simpl in Hf.
    repeat (destruct Hf as [Hf|Hf]; [subst f; reflexivity|]). contradiction.
  - vm_compute.
    repeat (constructor; [reflexivity|]). constructor.
  - unfold no_ties. vm_compute.
    repeat (constructor; [repeat (constructor; [intro H; discriminate H|]);
                          constructor|]).
    constructor.
Defined.

(** C5, as stated, fails: in each of these sessions every facility is
    strictly within 10 km of every other, yet the two
    [find_nearest_neighbors] differ -- when the warehouse does not answer,
    when the two inventory tables differ, when a stored GEO_POINT is not the
    point of the coordinates, when a candidate 9960 m away is displayed
    as 10.0 km, and when the engine lists four candidates displayed at the
    same distance in one order for one statement and in another for the
    other. *)
Lemma C5_counterexample :
  (all_within_10km Samples.outage = true
   /\ streamlit_app.find_nearest_neighbors Samples.outage "V" "Oxytocin Injection"
      <> streamlit_mvp.find_nearest_neighbors Samples.outage "V" "Oxytocin Injection")
  /\ (all_within_10km Samples.diverged_tables = true
      /\ streamlit_app.find_nearest_neighbors
           Samples.diverged_tables "V" "Oxytocin Injection"
         <> streamlit_mvp.find_nearest_neighbors
              Samples.diverged_tables "V" "Oxytocin Injection")
  /\ (all_within_10km Samples.stale_geo_point = true
      /\ streamlit_app.find_nearest_neighbors
           Samples.stale_geo_point "V" "Oxytocin Injection"
         <> streamlit_mvp.find_nearest_neighbors
              Samples.stale_geo_point "V" "Oxytocin Injection")
  /\ (all_within_10km Samples.just_under_10km = true
      /\ streamlit_app.find_nearest_neighbors
           Samples.just_under_10km "V" "Oxytocin Injection"
         <> streamlit_mvp.find_nearest_neighbors
              Samples.just_under_10km "V" "Oxytocin Injection")
  /\ (all_within_10km Samples.crowded_two_plans = true
      /\ map SAVIOR_NAME
           (returned_rows (streamlit_app.find_nearest_neighbors
                             Samples.crowded_two_plans "V" "Oxytocin Injection"))
         = ["A"; "B"; "C"]
      /\ map SAVIOR_NAME
           (returned_rows (streamlit_mvp.find_nearest_neighbors
                             Samples.crowded_two_plans "V" "Oxytocin Injection"))
         = ["D"; "C"; "B"]).
Proof.
  repeat split; try (vm_compute; reflexivity); vm_compute; discriminate.
Qed.

(** ** Item-name resolution *)

Lemma lower_ascii_space (c : ascii) :
  Ascii.eqb (lower_ascii c) " "%char = Ascii.eqb c " "%char.
Proof.
  destruct c as [[] [] [] [] [] [] [] []]; vm_compute; reflexivity.
Qed.

Lemma lower_first_word (s : string) :
  lower (first_word s) = first_word (lower s).
Proof.
  induction s as [|c s IH]; simpl.
  - reflexivity.
  - rewrite lower_ascii_space. destruct (Ascii.eqb c " "%char); simpl.
    + reflexivity.
    + rewrite IH. reflexivity.
Qed.

Lemma item_matches_case (user_query it it' : string) :
  lower it = lower it' ->
  streamlit_mvp.item_matches user_query it
  = streamlit_mvp.item_matches user_query it'.
Proof.
  intro H. unfold streamlit_mvp.item_matches.
  rewrite !lower_first_word, H. reflexivity.
Qed.

Lemma insert_by_len_perm (x : string) (l : list string) :
  Permutation (x :: l) (insert_by_len x l).
Proof.
  induction l as [|h t IH]; simpl.
  - apply Permutation_refl.
  - destruct (Nat.leb (String.length h) (String.length x)).
    + apply Permutation_refl.
    + eapply perm_trans; [apply perm_swap|]. apply perm_skip. exact IH.
Qed.

Lemma sorted_by_len_reverse_perm (l : list string) :
  Permutation l (sorted_by_len_reverse l).
Proof.
  induction l as [|x l IH]; simpl.
  - apply perm_nil.
  - eapply perm_trans; [apply perm_skip, IH|]. apply insert_by_len_perm.
Qed.

Lemma insert_by_len_sorted (x : string) (l : list string) :
  StronglySorted not_longer l -> StronglySorted not_longer (insert_by_len x l).
Proof.
  induction 1 as [|h t Hs IH Hall]; simpl.
  - constructor; constructor.
  - destruct (Nat.leb (String.length h) (String.length x)) eqn:E.
    + apply Nat.leb_le in E. constructor.
      * constructor; assumption.
      * constructor; [exact E|].
        eapply Forall_impl; [|exact Hall].
        unfold not_longer. intros a Ha. lia.
    + apply Nat.leb_gt in E. constructor; [exact IH|].
      eapply Permutation_Forall; [apply insert_by_len_perm|].
      constructor; [unfold not_longer; lia | exact Hall].
Qed.

Lemma sorted_by_len_reverse_sorted (l : list string) :
  StronglySorted not_longer (sorted_by_len_reverse l).
Proof.
  induction l as [|x l IH]; simpl.
  - constructor.
  - apply insert_by_len_sorted, IH.
Qed.

(** The first hit of a scan over a sorted list is in front of every other
    hit. *)
Lemma find_first_of_sorted {A} (R : A -> A -> Prop) (p : A -> bool)
  (l : list A) (x : A) :
  StronglySorted R l -> find p l = Some x ->
  forall y, In y l -> p y = true -> y = x \/ R x y.
Proof.
  induction 1 as [|h t Hs IH Hall]; simpl; intros Hfind y Hy Hp.
  - contradiction.
  - destruct (p h) eqn:Eh.
    + inversion Hfind; subst. destruct Hy as [Hy|Hy]; [left; auto|].
      right. rewrite Forall_forall in Hall. apply Hall. exact Hy.
    + destruct Hy as [Hy|Hy]; [subst; congruence|].
      apply IH; assumption.
Qed.

Lemma find_none_iff {A} (p : A -> bool) (l : list A) :
  find p l = None <-> forall x, In x l -> p x = false.
Proof.
  split.
  - intros H x Hx. eapply find_none; eassumption.
  - induction l as [|h t IH]; simpl; intro H.
    + reflexivity.
    + rewrite (H h (or_introl eq_refl)). apply IH.
      intros x Hx. apply H. right. exact Hx.
Qed.

Lemma run_chat_action_some (user_query : string) (valid_items : list string)
  (it : string) :
  streamlit_mvp.run_chat_action user_query valid_items = Some it ->
  In it valid_items
  /\ streamlit_mvp.item_matches (lower user_query) it = true
  /\ forall it', In it' valid_items ->
                 streamlit_mvp.item_matches (lower user_query) it' = true ->
                 (String.length it' <= String.length it)%nat.
Proof.
  unfold streamlit_mvp.run_chat_action. intro H.
  pose proof (find_some _ _ H) as [Hin Hm].
  split; [|split].
  - eapply Permutation_in;
      [apply Permutation_sym, sorted_by_len_reverse_perm | exact Hin].
  - exact Hm.
  - intros it' Hin' Hm'.
    destruct (find_first_of_sorted not_longer _ _ _
                (sorted_by_len_reverse_sorted valid_items) H it') as [He|Hr].
    + eapply Permutation_in; [apply sorted_by_len_reverse_perm | exact Hin'].
    + exact Hm'.
    + subst. lia.
    + exact Hr.
Qed.

Lemma run_chat_action_none (user_query : string) (valid_items : list string) :
  streamlit_mvp.run_chat_action user_query valid_items = None <->
  forall it, In it valid_items ->
             streamlit_mvp.item_matches (lower user_query) it = false.
Proof.
  unfold streamlit_mvp.run_chat_action. rewrite find_none_iff. split.
  - intros H it Hin. apply H.
    eapply Permutation_in; [apply sorted_by_len_reverse_perm | exact Hin].
  - intros H it Hin. apply H.
    eapply Permutation_in;
      [apply Permutation_sym, sorted_by_len_reverse_perm | exact Hin].
Qed.

(** A matching name that is strictly longer than every other matching name
    is the one returned. *)
Lemma run_chat_action_longest (user_query : string) (valid_items : list string)
  (it : string) :
  In it valid_items ->
  streamlit_mvp.item_matches (lower user_query) it = true ->
  (forall it', In it' valid_items ->
               streamlit_mvp.item_matches (lower user_query) it' = true ->
               it' <> it -> (String.length it' < String.length it)%nat) ->
  streamlit_mvp.run_chat_action user_query valid_items = Some it.
Proof.
  intros Hin Hm Hshorter.
  destruct (streamlit_mvp.run_chat_action user_query valid_items) as [r|] eqn:E.
  - apply run_chat_action_some in E. destruct E as (Hr & Hmr & Hlong).
    destruct (string_dec r it) as [->|Hne]; [reflexivity|].
    specialize (Hlong it Hin Hm). specialize (Hshorter r Hr Hmr Hne). lia.
  - rewrite run_chat_action_none in E. rewrite (E it Hin) in Hm. discriminate.
Qed.

(** C6.  [run_chat_action] resolves names without regard to letter case --
    queries that agree once lower-cased get the same answer, and whether a
    known name matches depends only on its lower-cased text -- and the name
    it returns is a longest one among the known names that match (by full
    name or by first word).  In particular "need amoxicillin 500mg urgently"
    resolves to "Amoxicillin 500mg" whenever every other known name is
    shorter, as with the catalogue extended by "Amoxicillin". *)
Theorem C6_case_insensitive_longest_match :
  (forall q q' valid_items,
      lower q = lower q' ->
      streamlit_mvp.run_chat_action q valid_items
      = streamlit_mvp.run_chat_action q' valid_items)
  /\ (forall q it it',
         lower it = lower it' ->
         streamlit_mvp.item_matches (lower q) it
         = streamlit_mvp.item_matches (lower q) it')
  /\ (forall q valid_items it,
         streamlit_mvp.run_chat_action q valid_items = Some it ->
         In it valid_items
         /\ streamlit_mvp.item_matches (lower q) it = true
         /\ forall it', In it' valid_items ->
                        streamlit_mvp.item_matches (lower q) it' = true ->
                        (String.length it' <= String.length it)%nat)
  /\ (forall valid_items,
         In "Amoxicillin 500mg" valid_items ->
         (forall it', In it' valid_items -> it' <> "Amoxicillin 500mg" ->
                      (String.length it' < String.length "Amoxicillin 500mg")%nat) ->
         streamlit_mvp.run_chat_action "need amoxicillin 500mg urgently" valid_items
         = Some "Amoxicillin 500mg")
  /\ streamlit_mvp.run_chat_action "need amoxicillin 500mg urgently"
       Samples.clashing_items = Some "Amoxicillin 500mg"
  /\ streamlit_mvp.run_chat_action "Need AMOXICILLIN 500MG urgently"
       ["Amoxicillin"; "Amoxicillin 500mg"] = Some "Amoxicillin 500mg".
Proof.
  split; [|split; [|split; [|split; [|split]]]].
  - intros q q' valid_items H. unfold streamlit_mvp.run_chat_action.
    rewrite H. reflexivity.
  - intros q it it' H. apply item_matches_case. exact H.
  - intros q valid_items it H. apply run_chat_action_some. exact H.
  - intros valid_items Hin Hshorter. apply run_chat_action_longest.
    + exact Hin.
    + vm_compute. reflexivity.
    + intros it' Hin' _ Hne. apply Hshorter; assumption.
  - vm_compute. reflexivity.
  - vm_compute. reflexivity.
Qed.

Lemma C6_witness :
  streamlit_mvp.run_chat_action "WHERE is Epinephrine?" Samples.known_items
  = streamlit_mvp.run_chat_action "where is epinephrine?" Samples.known_items
  /\ streamlit_mvp.item_matches (lower "Find OXYTOCIN") "Oxytocin Injection"
     = streamlit_mvp.item_matches (lower "Find OXYTOCIN") "OXYTOCIN INJECTION"
  /\ (In "Amoxicillin 500mg" Samples.clashing_items
      /\ streamlit_mvp.item_matches (lower "need amoxicillin 500mg urgently")
           "Amoxicillin 500mg" = true
      /\ forall it', In it' Samples.clashing_items ->
                     streamlit_mvp.item_matches
                       (lower "need amoxicillin 500mg urgently") it' = true ->
                     (String.length it' <= String.length "Amoxicillin 500mg")%nat)
  /\ streamlit_mvp.run_chat_action "need amoxicillin 500mg urgently"
       ["Amoxicillin"; "Amoxicillin 500mg"; "Folic Acid"]
     = Some "Amoxicillin 500mg".
Proof.
  destruct C6_case_insensitive_longest_match as (Hq & Hit & Hlong & Hamox & _).
  split; [|split; [|split]].
  - apply Hq. vm_compute. reflexivity.
  - apply Hit. vm_compute. reflexivity.
  - apply (Hlong "need amoxicillin 500mg urgently"). vm_compute. reflexivity.
  - apply Hamox.
    + simpl. auto.
    + intros it' Hin Hne. simpl in Hin.
      destruct Hin as [<-|[<-|[<-|[]]]]; try (vm_compute; lia).
      congruence.
Defined.

(** C10, as amended.  When the lower-cased input contains the first word of
    some known item, [run_chat_action] does not return None: it returns a
    known item that matches by full name or by first word and is at least as
    long as that item -- and it is that item itself whenever every other
    matching item is strictly shorter, as for the bare input "metformin",
    which yields "Metformin 500mg" although the full name does not occur in
    the input.  None is returned exactly when neither a full name nor a
    first word of any known item occurs in the lower-cased input. *)
Theorem C10_first_word_match (q : string) (valid_items : list string) :
  (forall it,
      In it valid_items ->
      contains (lower (first_word it)) (lower q) = true ->
      exists r,
        streamlit_mvp.run_chat_action q valid_items = Some r
        /\ In r valid_items
        /\ streamlit_mvp.item_matches (lower q) r = true
        /\ (String.length it <= String.length r)%nat
        /\ ((forall it', In it' valid_items ->
                         streamlit_mvp.item_matches (lower q) it' = true ->
                         it' <> it ->
                         (String.length it' < String.length it)%nat) ->
            r = it))
  /\ (streamlit_mvp.run_chat_action q valid_items = None <->
      forall it, In it valid_items ->
                 contains (lower it) (lower q) = false
                 /\ contains (lower (first_word it)) (lower q) = false)
  /\ (streamlit_mvp.run_chat_action "metformin" Samples.known_items
        = Some "Metformin 500mg"
      /\ contains (lower "Metformin 500mg") (lower "metformin") = false).
Proof.
  split; [|split].
  - intros it Hin Hfw.
    assert (Hm : streamlit_mvp.item_matches (lower q) it = true).
    { unfold streamlit_mvp.item_matches. rewrite Hfw. apply orb_true_r. }
    destruct (streamlit_mvp.run_chat_action q valid_items) as [r|] eqn:E.
    + exists r. pose proof (run_chat_action_some _ _ _ E) as (Hr & Hmr & Hlong).
      repeat split; auto.
      intro Hshorter.
      pose proof (run_chat_action_longest q valid_items it Hin Hm Hshorter) as E'.
      congruence.
    + rewrite run_chat_action_none in E. rewrite (E it Hin) in Hm. discriminate.
  - rewrite run_chat_action_none. unfold streamlit_mvp.item_matches.
    split; intros H it Hin; specialize (H it Hin).
    + apply orb_false_iff in H. exact H.
    + apply orb_false_iff. exact H.
  - split; vm_compute; reflexivity.
Qed.

Lemma C10_witness :
  exists r,
    streamlit_mvp.run_chat_action "any metformin left?" Samples.known_items = Some r
    /\ In r Samples.known_items
    /\ streamlit_mvp.item_matches (lower "any metformin left?") r = true
    /\ (String.length "Metformin 500mg" <= String.length r)%nat.
Proof.
  destruct (C10_first_word_match "any metformin left?" Samples.known_items)
    as (Hsome & _ & _).
  destruct (Hsome "Metformin 500mg") as (r & Hr & Hin & Hm & Hlen & _).
  - vm_compute. auto 10.
  - vm_compute. reflexivity.
  - exists r. auto.
Defined.

(** C10, as stated, fails: the input contains the first word of "Metformin
    500mg", a known item, yet a longer item whose first word also occurs is
    returned instead. *)
Lemma C10_counterexample :
  In "Metformin 500mg" ["Metformin 500mg"; "Oxytocin Injection"]
  /\ contains (lower (first_word "Metformin 500mg"))
              (lower "metformin or oxytocin") = true
  /\ streamlit_mvp.run_chat_action "metformin or oxytocin"
       ["Metformin 500mg"; "Oxytocin Injection"] = Some "Oxytocin Injection"
  /\ streamlit_mvp.run_chat_action "metformin or oxytocin"
       ["Metformin 500mg"; "Oxytocin Injection"] <> Some "Metformin 500mg".
Proof.
  split; [simpl; auto|]. split; [vm_compute; reflexivity|].
  split; [vm_compute; reflexivity|]. vm_compute. discriminate.
Qed.

(** ** The generator *)

Lemma str_in_iff (x : string) (l : list string) : str_in x l = true <-> In x l.
Proof.
  unfold str_in. rewrite existsb_exists. split.
  - intros [y [Hy He]]. apply String.eqb_eq in He. subst. exact Hy.
  - intro H. exists x. split; [exact H | apply String.eqb_refl].
Qed.

Section GeneratorFacts.

Import inventory_data_generator.

Lemma randint_range (a b : Z) (t : tape) :
  a <= b -> a <= fst (randint a b t) <= b.
Proof.
  intro H. unfold randint, rbind, rret, draw.
  destruct t as [|n t]; simpl fst.
  - rewrite Z.mod_0_l by lia. lia.
  - pose proof (Z.mod_pos_bound (Z.of_N n) (b - a + 1)). lia.
Qed.

Lemma mapM_Forall2 {A B} (f : A -> Rand B) (P : A -> B -> Prop) :
  (forall x t, P x (fst (f x t))) ->
  forall l t, Forall2 P l (fst (mapM f l t)).
Proof.
  intros Hf. induction l as [|x l IH]; intro t; simpl.
  - constructor.
  - unfold rbind. pose proof (Hf x t) as Hx.
    destruct (f x t) as [y t1]. pose proof (IH t1) as Hl.
    destruct (mapM f l t1) as [ys t2]. simpl in *. constructor; assumption.
Qed.

Lemma Forall2_in_right {A B} (P : A -> B -> Prop) (l : list A) (l' : list B) :
  Forall2 P l l' -> forall y, In y l' -> exists x, In x l /\ P x y.
Proof.
  induction 1 as [|x y l l' Hxy Hl IH]; intros z Hz.
  - contradiction.
  - destruct Hz as [<-|Hz].
    + exists x. split; [left; reflexivity | exact Hxy].
    + destruct (IH z Hz) as [x' [Hx' Hp]]. exists x'. split; [right|]; assumption.
Qed.

Lemma Forall2_in_left {A B} (P : A -> B -> Prop) (l : list A) (l' : list B) :
  Forall2 P l l' -> forall x, In x l -> exists y, In y l' /\ P x y.
Proof.
  induction 1 as [|x y l l' Hxy Hl IH]; intros z Hz.
  - contradiction.
  - destruct Hz as [<-|Hz].
    + exists y. split; [left; reflexivity | exact Hxy].
    + destruct (IH z Hz) as [y' [Hy' Hp]]. exists y'. split; [right|]; assumption.
Qed.

Lemma make_record_spec (current_date : string)
  (victim_ids savior_ids : list facility_id) (fid : facility_id) (it : item) (t : tape) :
  record_of victim_ids savior_ids fid it
    (fst (make_record current_date victim_ids savior_ids fid it t)).
Proof.
  unfold make_record, rbind.
  pose proof (randint_range 100 400 t ltac:(lia)) as Ho.
  destruct (randint 100 400 t) as [o t1].
  pose proof (randint_range 0 30 t1 ltac:(lia)) as Hr.
  destruct (randint 0 30 t1) as [r t2].
  pose proof (randint_range 5 25 t2 ltac:(lia)) as Hi.
  destruct (randint 5 25 t2) as [i t3].
  destruct (randint 2 6 t3) as [lead t4].
  simpl fst in *. unfold record_of.
  destruct (name it =? "Oxytocin Injection")%string;
    destruct (id_in fid victim_ids); destruct (id_in fid savior_ids);
    destruct (draw t4) as [rid t5]; simpl; repeat split; lia.
Qed.

Lemma ensure_oxytocin_has_it (victim_ids savior_ids : list facility_id)
  (fid : facility_id) (selected_items : list item) :
  (id_in fid victim_ids || id_in fid savior_ids)%bool = true ->
  exists it, In it (ensure_oxytocin victim_ids savior_ids fid selected_items)
             /\ name it = "Oxytocin Injection".
Proof.
  intro H. unfold ensure_oxytocin. rewrite H. simpl andb.
  destruct (str_in "Oxytocin Injection" (map name selected_items)) eqn:E; simpl.
  - apply str_in_iff in E. apply in_map_iff in E.
    destruct E as [it [Hn Hin]]. exists it. auto.
  - eexists. split; [apply in_or_app; right; left; reflexivity | reflexivity].
Qed.

Lemma facility_records_spec (current_date : string)
  (victim_ids savior_ids : list facility_id) (fac : Hosp.t) (t : tape) :
  let rows := fst (facility_records current_date victim_ids savior_ids fac t) in
  (forall r, In r rows ->
             exists it, record_of victim_ids savior_ids (Hosp.FACILITY_ID fac) it r)
  /\ ((id_in (Hosp.FACILITY_ID fac) victim_ids
       || id_in (Hosp.FACILITY_ID fac) savior_ids)%bool = true ->
      exists r it, In r rows /\ name it = "Oxytocin Injection"
                   /\ record_of victim_ids savior_ids (Hosp.FACILITY_ID fac) it r).
Proof.
  unfold facility_records, rbind.
  destruct (randint 20 25 t) as [num_items t1].
  destruct (sample MASTER_ITEMS (Z.to_nat num_items) t1) as [selected t2].
  pose proof (mapM_Forall2 _ _
                (make_record_spec current_date victim_ids savior_ids
                   (Hosp.FACILITY_ID fac))
                (ensure_oxytocin victim_ids savior_ids (Hosp.FACILITY_ID fac)
                   selected) t2) as H2.
  cbv zeta. split.
  - intros r Hr. destruct (Forall2_in_right _ _ _ H2 r Hr) as [it [_ Hit]].
    exists it. exact Hit.
  - intro Hvs.
    destruct (ensure_oxytocin_has_it _ _ _ selected Hvs) as [it [Hin Hname]].
    destruct (Forall2_in_left _ _ _ H2 it Hin) as [r [Hr Hrec]].
    exists r, it. auto.
Qed.

Lemma inventory_rows_spec (current_date : string)
  (victim_ids savior_ids : list facility_id) (df : list Hosp.t) (t : tape) :
  let rows := fst (inventory_rows current_date victim_ids savior_ids df t) in
  (forall r, In r rows ->
             exists fac it, In fac df
               /\ record_of victim_ids savior_ids (Hosp.FACILITY_ID fac) it r)
  /\ (forall fac, In fac df ->
        (id_in (Hosp.FACILITY_ID fac) victim_ids
         || id_in (Hosp.FACILITY_ID fac) savior_ids)%bool = true ->
        exists r it, In r rows /\ name it = "Oxytocin Injection"
          /\ record_of victim_ids savior_ids (Hosp.FACILITY_ID fac) it r).
Proof.
  revert t. induction df as [|fac df IH]; intro t; simpl.
  - split; [intros r []|intros fac []].
  - unfold rbind.
    pose proof (facility_records_spec current_date victim_ids savior_ids fac t)
      as [Hall Hoxy].
    destruct (facility_records current_date victim_ids savior_ids fac t)
      as [rows t1].
    specialize (IH t1).
    destruct (inventory_rows current_date victim_ids savior_ids df t1)
      as [more t2].
    simpl in *. destruct IH as [IHall IHoxy]. split.
    + intros r Hr. apply in_app_or in Hr. destruct Hr as [Hr|Hr].
      * destruct (Hall r Hr) as [it Hit]. exists fac, it. auto.
      * destruct (IHall r Hr) as (fac' & it & Hf & Hit). exists fac', it. auto.
    + intros fac' [<-|Hf] Hvs.
      * destruct (Hoxy Hvs) as (r & it & Hr & Hn & Hrec).
        exists r, it. split; [apply in_or_app; left; exact Hr | auto].
      * destruct (IHoxy fac' Hf Hvs) as (r & it & Hr & Hn & Hrec).
        exists r, it. split; [apply in_or_app; right; exact Hr | auto].
Qed.

End GeneratorFacts.

Section SaviorFacts.

Import inventory_data_generator.

Variable geodesic_km : Q * Q -> Q * Q -> Q.

Lemma nearest_step_inv (vid : facility_id) (v_loc : Q * Q) (seen : list Hosp.t)
  (st : Q * option facility_id) (row : Hosp.t) :
  nearest_inv geodesic_km vid v_loc seen st ->
  nearest_inv geodesic_km vid v_loc (seen ++ [row])
    (nearest_step geodesic_km vid v_loc st row).
Proof.
  destruct st as [m nr]. intros (Hm & Hmin & Hnr). unfold nearest_step.
  destruct (id_eqb (Hosp.FACILITY_ID row) vid) eqn:E.
  - apply id_eqb_eq in E. split; [exact Hm|]. split.
    + intros row' Hin Hne. apply in_app_or in Hin. destruct Hin as [Hin|[<-|[]]].
      * apply Hmin; assumption.
      * contradiction.
    + simpl in *. destruct nr as [n|]; [|exact I].
      destruct Hnr as (r & Hr & Hrest). exists r.
      split; [apply in_or_app; left; exact Hr | exact Hrest].
  - apply id_eqb_neq in E. fold (km_to geodesic_km v_loc row).
    destruct (Qlt_bool (km_to geodesic_km v_loc row) m) eqn:Elt.
    + apply Qlt_bool_iff in Elt. simpl in *. split; [|split].
      * apply Qlt_le_weak. eapply Qlt_le_trans; eassumption.
      * intros row' Hin Hne. apply in_app_or in Hin. destruct Hin as [Hin|[<-|[]]].
        -- eapply Qle_trans; [apply Qlt_le_weak, Elt | apply Hmin; assumption].
        -- apply Qle_refl.
      * exists row. repeat split; auto.
        -- apply in_or_app. right. left. reflexivity.
        -- eapply Qlt_le_trans; eassumption.
    + assert (Hle : (m <= km_to geodesic_km v_loc row)%Q).
      { apply Qnot_lt_le. intro Hlt. apply Qlt_bool_iff in Hlt. congruence. }
      simpl in *. split; [exact Hm|]. split.
      * intros row' Hin Hne. apply in_app_or in Hin. destruct Hin as [Hin|[<-|[]]].
        -- apply Hmin; assumption.
        -- exact Hle.
      * destruct nr as [n|]; [|exact I].
        destruct Hnr as (r & Hr & Hrest). exists r.
        split; [apply in_or_app; left; exact Hr | exact Hrest].
Qed.

Lemma nearest_fold_inv (vid : facility_id) (v_loc : Q * Q)
  (df seen : list Hosp.t) (st : Q * option facility_id) :
  nearest_inv geodesic_km vid v_loc seen st ->
  nearest_inv geodesic_km vid v_loc (seen ++ df)
    (fold_left (nearest_step geodesic_km vid v_loc) df st).
Proof.
  revert seen st. induction df as [|row df IH]; intros seen st H; simpl.
  - rewrite app_nil_r. exact H.
  - replace (seen ++ row :: df)%list with ((seen ++ [row]) ++ df)%list
      by (rewrite <- app_assoc; reflexivity).
    apply IH, nearest_step_inv, H.
Qed.

Lemma nearest_other_spec (df : list Hosp.t) (vid : facility_id) (v_loc : Q * Q)
  (n : facility_id) :
  nearest_other geodesic_km df vid v_loc = Some n ->
  is_nearest_other geodesic_km df vid v_loc n.
Proof.
  unfold nearest_other. intro H.
  pose proof (nearest_fold_inv vid v_loc df [] (9999 # 1, None)) as Hinv.
  simpl app in Hinv.
  destruct Hinv as (_ & Hmin & Hnr).
  { split; [apply Qle_refl|]. split; [intros row []|exact I]. }
  rewrite H in Hnr. destruct Hnr as (row & Hin & Hid & Hne & Hkm & Hlt).
  exists row. repeat split; auto.
  - rewrite Hkm. exact Hlt.
  - intros row' Hin' Hne'. rewrite Hkm. apply Hmin; assumption.
Qed.

Lemma find_saviors_spec (df : list Hosp.t)
  (victim_ids savior_ids : list facility_id) :
  find_saviors geodesic_km df victim_ids = Returned savior_ids ->
  forall s, In s savior_ids <-> savior_of_some_victim geodesic_km df victim_ids s.
Proof.
  revert savior_ids. induction victim_ids as [|vid rest IH];
    intros savior_ids H s; simpl in H.
  - inversion H; subst. split; [intros []|].
    intros (v & _ & [] & _).
  - destruct (find (fun r => id_eqb (Hosp.FACILITY_ID r) vid) df)
      as [victim_row|] eqn:Efind; [|discriminate].
    destruct (find_saviors geodesic_km df rest) as [later|] eqn:Erest;
      [|discriminate].
    inversion H; subst savior_ids; clear H.
    specialize (IH later eq_refl s). unfold append_if_truthy.
    destruct (nearest_other geodesic_km df vid
                (Hosp.LATITUDE victim_row, Hosp.LONGITUDE victim_row))
      as [n|] eqn:En.
    + destruct (id_truthy n) eqn:Etruthy.
      * split.
        -- intros [<-|Hin].
           ++ exists vid, victim_row. repeat split; auto. left. reflexivity.
           ++ apply IH in Hin. destruct Hin as (v & vr & Hv & Hrest).
              exists v, vr. split; [right; exact Hv | exact Hrest].
        -- intros (v & vr & [<-|Hv] & Hf & Hn & Hne).
           ++ rewrite Efind in Hf. inversion Hf; subst vr.
              rewrite En in Hn. inversion Hn; subst. left. reflexivity.
           ++ right. apply IH. exists v, vr. auto.
      * rewrite IH. split.
        -- intros (v & vr & Hv & Hrest). exists v, vr.
           split; [right; exact Hv | exact Hrest].
        -- intros (v & vr & [<-|Hv] & Hf & Hn & Hne).
           ++ rewrite Efind in Hf. inversion Hf; subst vr.
              rewrite En in Hn. inversion Hn; subst. congruence.
           ++ exists v, vr. auto.
    + rewrite IH. split.
      * intros (v & vr & Hv & Hrest). exists v, vr.
        split; [right; exact Hv | exact Hrest].
      * intros (v & vr & [<-|Hv] & Hf & Hn & Hne).
        -- rewrite Efind in Hf. inversion Hf; subst vr.
           rewrite En in Hn. discriminate.
        -- exists v, vr. auto.
Qed.

Lemma find_saviors_returns (df : list Hosp.t) (victim_ids : list facility_id) :
  (forall vid, In vid victim_ids -> In vid (map Hosp.FACILITY_ID df)) ->
  exists savior_ids, find_saviors geodesic_km df victim_ids = Returned savior_ids.
Proof.
  induction victim_ids as [|vid rest IH]; intro Hids; simpl.
  - eexists. reflexivity.
  - destruct (find (fun r => id_eqb (Hosp.FACILITY_ID r) vid) df)
      as [victim_row|] eqn:Efind.
    + destruct IH as [later ->].
      * intros v Hv. apply Hids. right. exact Hv.
      * eexists. reflexivity.
    + exfalso. specialize (Hids vid (or_introl eq_refl)).
      apply in_map_iff in Hids. destruct Hids as [row [Hid Hin]].
      pose proof (find_none _ _ Efind row Hin) as Hno. simpl in Hno.
      apply id_eqb_neq in Hno. contradiction.
Qed.

Lemma victims_are_facilities (df : list Hosp.t) (vid : facility_id) :
  In vid (victims_of df) -> In vid (map Hosp.FACILITY_ID df).
Proof. unfold victims_of. apply firstn_In. Qed.

Lemma saviors_are_facilities (df : list Hosp.t) (victim_ids : list facility_id)
  (s : facility_id) :
  savior_of_some_victim geodesic_km df victim_ids s -> In s (map Hosp.FACILITY_ID df).
Proof.
  intros (vid & vr & _ & _ & Hn & _). apply nearest_other_spec in Hn.
  destruct Hn as (row & Hin & Hid & _). apply in_map_iff. exists row. auto.
Qed.

End SaviorFacts.

Lemma generate_inventory_returns (geodesic_km : Q * Q -> Q * Q -> Q)
  (df : list inventory_data_generator.Hosp.t) (current_date : string)
  (rng : inventory_data_generator.tape) :
  exists savior_ids,
    inventory_data_generator.find_saviors geodesic_km df
      (inventory_data_generator.victims_of df) = Returned savior_ids
    /\ inventory_data_generator.generate_inventory geodesic_km (Some df)
         current_date rng
       = Returned (Some (fst (inventory_data_generator.inventory_rows current_date
                                (inventory_data_generator.victims_of df)
                                savior_ids df rng))).
Proof.
  destruct (find_saviors_returns geodesic_km df
              (inventory_data_generator.victims_of df)
              (victims_are_facilities df)) as [savior_ids Hs].
  exists savior_ids. split; [exact Hs|].
  unfold inventory_data_generator.generate_inventory. rewrite Hs. reflexivity.
Qed.

(** C3.  The generator always writes its rows, and in every row it writes --
    whatever the opening, received and issued quantities: drawn, crisis or
    surplus -- CLOSING_STOCK is max(0, OPENING_STOCK + RECEIVED_QTY -
    ISSUED_QTY), hence never negative. *)
Theorem C3_closing_stock_arithmetic (geodesic_km : Q * Q -> Q * Q -> Q)
  (df_facilities : list inventory_data_generator.Hosp.t) (current_date : string)
  (rng : inventory_data_generator.tape) :
  exists rows,
    inventory_data_generator.generate_inventory geodesic_km (Some df_facilities)
      current_date rng = Returned (Some rows)
    /\ Forall (fun r =>
         inventory_data_generator.Out.CLOSING_STOCK r
         = Z.max 0 (inventory_data_generator.Out.OPENING_STOCK r
                    + inventory_data_generator.Out.RECEIVED_QTY r
                    - inventory_data_generator.Out.ISSUED_QTY r)
         /\ 0 <= inventory_data_generator.Out.CLOSING_STOCK r) rows.
Proof.
  destruct (generate_inventory_returns geodesic_km df_facilities current_date rng)
    as (savior_ids & _ & Hgen).
  eexists. split; [exact Hgen|].
  apply Forall_forall. intros r Hr.
  destruct (inventory_rows_spec current_date
              (inventory_data_generator.victims_of df_facilities) savior_ids
              df_facilities rng) as [Hall _].
  destruct (Hall r Hr) as (fac & it & _ & _ & _ & Hclosing & _).
  split; [exact Hclosing|]. rewrite Hclosing. apply Z.le_max_l.
Qed.

Example generator_sample_oxytocin_rows :
  map (fun r => (inventory_data_generator.Out.FACILITY_ID r,
                 inventory_data_generator.Out.OPENING_STOCK r,
                 inventory_data_generator.Out.RECEIVED_QTY r,
                 inventory_data_generator.Out.ISSUED_QTY r,
                 inventory_data_generator.Out.CLOSING_STOCK r))
      (filter (fun r => (inventory_data_generator.Out.ITEM_NAME r
                         =? "Oxytocin Injection")%string)
         (Samples.written
            (inventory_data_generator.generate_inventory Samples.taxicab_km
               (Some Samples.hospitals_spread) "2026-01-15" Samples.rng)))
  = map (fun '(fid, opening, received, issued, closing) =>
           (inventory_data_generator.id_str fid,
            opening, received, issued, closing))
        [("H1", 10, 0, 10, 0); ("H2", 10, 0, 10, 0); ("H3", 10, 0, 10, 0);
         ("H4", 600, 0, 5, 595); ("H5", 600, 0, 5, 595);
         ("H6", 600, 0, 5, 595)].
Proof. vm_compute. reflexivity. Qed.




(* ===================================================================== *)
(** * Part III.  Further properties of the code                           *)
(* ===================================================================== *)

(** ** The generator: sampling and row counts *)

Section GeneratorCounts.

Import inventory_data_generator.

Lemma remove_at_perm {A} (l : list A) (i : nat) (x : A) :
  nth_error l i = Some x -> Permutation l (x :: remove_at i l).
Proof.
  revert i. induction l as [|h t IH]; intros [|i] H; simpl in *;
    try discriminate.
  - inversion H; subst. apply Permutation_refl.
  - eapply perm_trans; [apply perm_skip, (IH i H)|]. apply perm_swap.
Qed.

Lemma sample_index_in_range {A} (population : list A) (n : N) :
  population <> [] ->
  (N.to_nat (n mod N.of_nat (List.length population)) < List.length population)%nat.
Proof.
  intro Hne. destruct population as [|h t]; [congruence|].
  pose proof (N.mod_lt n (N.of_nat (List.length (h :: t)))) as Hlt.
  simpl List.length in *. lia.
Qed.

Lemma sample_sub_perm {A} (k : nat) :
  forall (population : list A) (t : tape),
    exists rest, Permutation population (fst (sample population k t) ++ rest).
Proof.
  induction k as [|k IH]; intros population t; simpl.
  - exists population. apply Permutation_refl.
  - destruct population as [|h pop'] eqn:Epop.
    + exists []. apply Permutation_refl.
    + rewrite <- Epop. unfold rbind. destruct (draw t) as [n t1].
      destruct (nth_error population
                  (N.to_nat (n mod N.of_nat (List.length population))))
        as [x|] eqn:Enth.
      * specialize (IH (remove_at
                          (N.to_nat (n mod N.of_nat (List.length population)))
                          population) t1).
        destruct (sample _ k t1) as [rest_sample t2]. simpl in *.
        destruct IH as [rest Hrest]. exists rest.
        eapply perm_trans; [apply (remove_at_perm _ _ _ Enth)|].
        simpl. apply perm_skip. exact Hrest.
      * exists population. apply Permutation_refl.
Qed.

Lemma sample_length {A} (k : nat) :
  forall (population : list A) (t : tape),
    (k <= List.length population)%nat ->
    List.length (fst (sample population k t)) = k.
Proof.
  induction k as [|k IH]; intros population t Hk; simpl.
  - reflexivity.
  - destruct population as [|h pop'] eqn:Epop; [simpl in Hk; lia|].
    rewrite <- Epop in *. unfold rbind. destruct (draw t) as [n t1].
    assert (Hne : population <> []) by (rewrite Epop; discriminate).
    pose proof (sample_index_in_range population n Hne) as Hi.
    destruct (nth_error population
                (N.to_nat (n mod N.of_nat (List.length population))))
      as [x|] eqn:Enth.
    + pose proof (Permutation_length (remove_at_perm _ _ _ Enth)) as Hlen.
      simpl in Hlen.
      specialize (IH (remove_at
                        (N.to_nat (n mod N.of_nat (List.length population)))
                        population) t1 ltac:(lia)).
      destruct (sample _ k t1) as [rest_sample t2]. simpl in *. lia.
    + apply nth_error_None in Enth. lia.
Qed.

Lemma mapM_length {A B} (f : A -> Rand B) (l : list A) (t : tape) :
  List.length (fst (mapM f l t)) = List.length l.
Proof.
  symmetry. eapply Forall2_length.
  apply (mapM_Forall2 f (fun _ _ => True)). intros. exact I.
Qed.

Lemma ensure_oxytocin_length (victim_ids savior_ids : list facility_id) (fid : facility_id)
  (selected_items : list item) :
  (List.length selected_items
   <= List.length (ensure_oxytocin victim_ids savior_ids fid selected_items)
   <= S (List.length selected_items))%nat.
Proof.
  unfold ensure_oxytocin. destruct (_ && _)%bool.
  - rewrite length_app. simpl. lia.
  - lia.
Qed.

Lemma facility_records_length (current_date : string)
  (victim_ids savior_ids : list facility_id) (fac : Hosp.t) (t : tape) :
  (20 <= List.length (fst (facility_records current_date victim_ids savior_ids
                             fac t)) <= 26)%nat.
Proof.
  unfold facility_records, rbind.
  pose proof (randint_range 20 25 t ltac:(lia)) as Hnum.
  destruct (randint 20 25 t) as [num_items t1]. simpl in Hnum.
  assert (Hk : (Z.to_nat num_items <= List.length MASTER_ITEMS)%nat)
    by (simpl; lia).
  pose proof (sample_length (Z.to_nat num_items) MASTER_ITEMS t1 Hk) as Hlen.
  destruct (sample MASTER_ITEMS (Z.to_nat num_items) t1) as [selected t2].
  simpl in Hlen. rewrite mapM_length.
  pose proof (ensure_oxytocin_length victim_ids savior_ids
                (Hosp.FACILITY_ID fac) selected).
  lia.
Qed.

Lemma inventory_rows_length (current_date : string)
  (victim_ids savior_ids : list facility_id) (df : list Hosp.t) (t : tape) :
  (20 * List.length df
   <= List.length (fst (inventory_rows current_date victim_ids savior_ids df t))
   <= 26 * List.length df)%nat.
Proof.
  revert t. induction df as [|fac df IH]; intro t; simpl.
  - lia.
  - unfold rbind.
    pose proof (facility_records_length current_date victim_ids savior_ids fac t)
      as Hfac.
    destruct (facility_records current_date victim_ids savior_ids fac t)
      as [rows t1].
    specialize (IH t1).
    destruct (inventory_rows current_date victim_ids savior_ids df t1)
      as [more t2].
    simpl in *. rewrite length_app. lia.
Qed.

(** The rows come facility by facility, in file order. *)
Lemma inventory_rows_groups (current_date : string)
  (victim_ids savior_ids : list facility_id) (df : list Hosp.t) (t : tape) :
  exists groups,
    fst (inventory_rows current_date victim_ids savior_ids df t) = List.concat groups
    /\ Forall2 (fun fac group =>
                  (20 <= List.length group <= 26)%nat
                  /\ Forall (fun r => Out.FACILITY_ID r = Hosp.FACILITY_ID fac)
                            group)
               df groups.
Proof.
  revert t. induction df as [|fac df IH]; intro t; simpl.
  - exists []. split; [reflexivity | constructor].
  - unfold rbind.
    pose proof (facility_records_length current_date victim_ids savior_ids fac t)
      as Hlen.
    destruct (facility_records_spec current_date victim_ids savior_ids fac t)
      as [Hrec _].
    destruct (facility_records current_date victim_ids savior_ids fac t)
      as [rows t1].
    destruct (IH t1) as (groups & Hrows & Hgroups).
    destruct (inventory_rows current_date victim_ids savior_ids df t1)
      as [more t2].
    simpl in *. exists (rows :: groups). split.
    + simpl. rewrite Hrows. reflexivity.
    + constructor; [|exact Hgroups]. split; [exact Hlen|].
      apply Forall_forall. intros r Hr.
      destruct (Hrec r Hr) as (it & Hfid & _). exact Hfid.
Qed.

End GeneratorCounts.

(** X1.  Whatever the draws, the generator writes its rows facility by
    facility in the order of the input file: between 20 and 26 rows for each
    facility (20 to 25 sampled items, plus Oxytocin when it had to be
    added), all carrying that facility's id.  So the output has between 20
    and 26 rows per row of the input file, and an empty input file yields an
    empty output. *)
Theorem generator_row_count (geodesic_km : Q * Q -> Q * Q -> Q)
  (df_facilities : list inventory_data_generator.Hosp.t) (current_date : string)
  (rng : inventory_data_generator.tape) :
  exists rows groups,
    inventory_data_generator.generate_inventory geodesic_km (Some df_facilities)
      current_date rng = Returned (Some rows)
    /\ rows = List.concat groups
    /\ Forall2 (fun fac group =>
                  (20 <= List.length group <= 26)%nat
                  /\ Forall (fun r =>
                       inventory_data_generator.Out.FACILITY_ID r
                       = inventory_data_generator.Hosp.FACILITY_ID fac) group)
               df_facilities groups
    /\ (20 * List.length df_facilities <= List.length rows
        <= 26 * List.length df_facilities)%nat.
Proof.
  destruct (generate_inventory_returns geodesic_km df_facilities current_date rng)
    as (savior_ids & _ & Hgen).
  destruct (inventory_rows_groups current_date
              (inventory_data_generator.victims_of df_facilities) savior_ids
              df_facilities rng) as (groups & Hrows & Hgroups).
  eexists. exists groups. split; [exact Hgen|].
  split; [exact Hrows|]. split; [exact Hgroups|]. apply inventory_rows_length.
Qed.

(** ** The generator: one row per facility and item, taken from the catalogue *)

Section GeneratorRows.

Import inventory_data_generator.

Lemma MASTER_ITEMS_names_distinct : NoDup (map name MASTER_ITEMS).
Proof.
  simpl.
  repeat (constructor;
          [simpl; intro H;
           repeat (destruct H as [H|H]; [discriminate H|]); exact H |]).
  constructor.
Qed.

Lemma map_pair_NoDup {A B} (a : A) (l : list B) :
  NoDup l -> NoDup (map (fun b => (a, b)) l).
Proof.
  induction 1 as [|b l Hb Hl IH]; simpl; constructor.
  - intro Hin. apply in_map_iff in Hin. destruct Hin as [b' [Heq Hin]].
    inversion Heq; subst. contradiction.
  - exact IH.
Qed.

Lemma sample_incl {A} (population : list A) (k : nat) (t : tape) (x : A) :
  In x (fst (sample population k t)) -> In x population.
Proof.
  intro H. destruct (sample_sub_perm k population t) as [rest Hp].
  eapply Permutation_in; [apply Permutation_sym, Hp|].
  apply in_or_app. left. exact H.
Qed.

Lemma sample_names_distinct (k : nat) (t : tape) :
  NoDup (map name (fst (sample MASTER_ITEMS k t))).
Proof.
  destruct (sample_sub_perm k MASTER_ITEMS t) as [rest Hp].
  apply (Permutation_map name) in Hp. rewrite map_app in Hp.
  eapply NoDup_app_remove_r.
  eapply Permutation_NoDup; [exact Hp | apply MASTER_ITEMS_names_distinct].
Qed.

Lemma ensure_oxytocin_incl (victim_ids savior_ids : list facility_id) (fid : facility_id)
  (selected_items : list item) :
  incl selected_items MASTER_ITEMS ->
  incl (ensure_oxytocin victim_ids savior_ids fid selected_items) MASTER_ITEMS.
Proof.
  intros Hsel it Hin. unfold ensure_oxytocin in Hin.
  destruct (_ && _)%bool; [|apply Hsel; exact Hin].
  apply in_app_or in Hin. destruct Hin as [Hin|Hin]; [apply Hsel; exact Hin|].
  simpl in Hin. destruct Hin as [<-|[]]. left. reflexivity.
Qed.

Lemma ensure_oxytocin_names_distinct (victim_ids savior_ids : list facility_id)
  (fid : facility_id) (selected_items : list item) :
  NoDup (map name selected_items) ->
  NoDup (map name (ensure_oxytocin victim_ids savior_ids fid selected_items)).
Proof.
  intro Hnd. unfold ensure_oxytocin.
  destruct (str_in "Oxytocin Injection" (map name selected_items)) eqn:E.
  - rewrite andb_false_r. exact Hnd.
  - destruct (id_in fid victim_ids || id_in fid savior_ids)%bool; simpl;
      [|exact Hnd].
    rewrite map_app. simpl.
    eapply Permutation_NoDup; [apply Permutation_cons_append|].
    constructor; [|exact Hnd].
    intro Hin. apply str_in_iff in Hin. congruence.
Qed.

Lemma mapM_made_by (current_date : string) (victim_ids savior_ids : list facility_id)
  (fid : facility_id) (items : list item) (t : tape) :
  Forall2 (made_by current_date victim_ids savior_ids fid) items
    (fst (mapM (make_record current_date victim_ids savior_ids fid) items t)).
Proof.
  apply mapM_Forall2. intros it t'. exists t'. reflexivity.
Qed.

(** The rows of one facility are made, one each, from distinct catalogue
    entries. *)
Lemma facility_records_items (current_date : string)
  (victim_ids savior_ids : list facility_id) (fac : Hosp.t) (t : tape) :
  exists items,
    Forall2 (made_by current_date victim_ids savior_ids (Hosp.FACILITY_ID fac))
      items (fst (facility_records current_date victim_ids savior_ids fac t))
    /\ incl items MASTER_ITEMS
    /\ NoDup (map name items).
Proof.
  unfold facility_records, rbind.
  destruct (randint 20 25 t) as [num_items t1].
  pose proof (sample_names_distinct (Z.to_nat num_items) t1) as Hnd.
  pose proof (sample_incl MASTER_ITEMS (Z.to_nat num_items) t1) as Hincl.
  destruct (sample MASTER_ITEMS (Z.to_nat num_items) t1) as [selected t2].
  simpl in Hnd, Hincl.
  exists (ensure_oxytocin victim_ids savior_ids (Hosp.FACILITY_ID fac) selected).
  split; [apply mapM_made_by|]. split.
  - apply ensure_oxytocin_incl. exact Hincl.
  - apply ensure_oxytocin_names_distinct. exact Hnd.
Qed.

Lemma made_by_fields (current_date : string) (victim_ids savior_ids : list facility_id)
  (fid : facility_id) (it : item) (r : Out.t) :
  made_by current_date victim_ids savior_ids fid it r ->
  record_of victim_ids savior_ids fid it r
  /\ Out.DATE r = current_date
  /\ Out.CATEGORY r = cat it
  /\ Out.CRITICALITY_LEVEL r = crit it
  /\ 2 <= Out.LEAD_TIME_DAYS r <= 6.
Proof.
  intros [t ->]. split; [apply make_record_spec|].
  unfold make_record, rbind.
  destruct (randint 100 400 t) as [o t1].
  destruct (randint 0 30 t1) as [rcv t2].
  destruct (randint 5 25 t2) as [i t3].
  pose proof (randint_range 2 6 t3 ltac:(lia)) as Hlead.
  destruct (randint 2 6 t3) as [lead t4]. simpl in Hlead.
  destruct (name it =? "Oxytocin Injection")%string;
    destruct (id_in fid victim_ids); destruct (id_in fid savior_ids);
    destruct (draw t4) as [rid t5]; simpl; repeat split; lia.
Qed.

Lemma Forall2_map_eq {A B C} (f : A -> C) (g : B -> C) (P : A -> B -> Prop)
  (l : list A) (l' : list B) :
  (forall a b, P a b -> g b = f a) -> Forall2 P l l' -> map g l' = map f l.
Proof.
  intros Hfg. induction 1 as [|a b l l' Hab Hl IH]; simpl.
  - reflexivity.
  - rewrite (Hfg a b Hab), IH. reflexivity.
Qed.

Lemma facility_records_keys (current_date : string)
  (victim_ids savior_ids : list facility_id) (fac : Hosp.t) (t : tape) :
  let rows := fst (facility_records current_date victim_ids savior_ids fac t) in
  NoDup (map row_key rows)
  /\ forall r, In r rows -> Out.FACILITY_ID r = Hosp.FACILITY_ID fac.
Proof.
  destruct (facility_records_items current_date victim_ids savior_ids fac t)
    as (items & Hmade & _ & Hnd).
  cbv zeta. split.
  - assert (Hkeys : forall it r,
               made_by current_date victim_ids savior_ids (Hosp.FACILITY_ID fac)
                 it r ->
               row_key r = (Hosp.FACILITY_ID fac, name it)).
    { intros it r Hr. apply made_by_fields in Hr.
      destruct Hr as ((Hfid & Hitem & _) & _). unfold row_key.
      rewrite Hfid, Hitem. reflexivity. }
    rewrite (Forall2_map_eq (fun it => (Hosp.FACILITY_ID fac, name it)) row_key
               _ _ _ Hkeys Hmade).
    rewrite <- (map_map name (fun n => (Hosp.FACILITY_ID fac, n))).
    apply map_pair_NoDup. exact Hnd.
  - intros r Hr. destruct (Forall2_in_right _ _ _ Hmade r Hr) as [it [_ Hit]].
    apply made_by_fields in Hit. apply Hit.
Qed.

Lemma inventory_rows_keys (current_date : string)
  (victim_ids savior_ids : list facility_id) (df : list Hosp.t) (t : tape) :
  NoDup (map Hosp.FACILITY_ID df) ->
  let rows := fst (inventory_rows current_date victim_ids savior_ids df t) in
  NoDup (map row_key rows)
  /\ forall r, In r rows -> In (Out.FACILITY_ID r) (map Hosp.FACILITY_ID df).
Proof.
  revert t. induction df as [|fac df IH]; intros t Hnd; simpl.
  - split; [constructor | intros r []].
  - unfold rbind. inversion Hnd as [|? ? Hfresh Hnd']; subst.
    pose proof (facility_records_keys current_date victim_ids savior_ids fac t)
      as [Hk Hfid].
    destruct (facility_records current_date victim_ids savior_ids fac t)
      as [rows t1].
    specialize (IH t1 Hnd').
    destruct (inventory_rows current_date victim_ids savior_ids df t1)
      as [more t2].
    simpl in *. destruct IH as [IHk IHfid]. split.
    + rewrite map_app. apply NoDup_app; [exact Hk | exact IHk |].
      intros key Hin1 Hin2.
      apply in_map_iff in Hin1. destruct Hin1 as (r1 & <- & Hr1).
      apply in_map_iff in Hin2. destruct Hin2 as (r2 & Heq & Hr2).
      unfold row_key in Heq. inversion Heq as [[Hf Hi]].
      apply Hfresh. rewrite <- (Hfid r1 Hr1), <- Hf. apply IHfid. exact Hr2.
    + intros r Hr. apply in_app_or in Hr. destruct Hr as [Hr|Hr].
      * left. symmetry. apply Hfid. exact Hr.
      * right. apply IHfid. exact Hr.
Qed.

Lemma inventory_rows_made (current_date : string)
  (victim_ids savior_ids : list facility_id) (df : list Hosp.t) (t : tape) (r : Out.t) :
  In r (fst (inventory_rows current_date victim_ids savior_ids df t)) ->
  exists fac it,
    In fac df /\ In it MASTER_ITEMS
    /\ made_by current_date victim_ids savior_ids (Hosp.FACILITY_ID fac) it r.
Proof.
  revert t. induction df as [|fac df IH]; intros t; simpl.
  - intros [].
  - unfold rbind.
    destruct (facility_records_items current_date victim_ids savior_ids fac t)
      as (items & Hmade & Hincl & _).
    destruct (facility_records current_date victim_ids savior_ids fac t)
      as [rows t1].
    specialize (IH t1).
    destruct (inventory_rows current_date victim_ids savior_ids df t1)
      as [more t2].
    simpl in *. intro Hr. apply in_app_or in Hr. destruct Hr as [Hr|Hr].
    + destruct (Forall2_in_right _ _ _ Hmade r Hr) as [it [Hit Hm]].
      exists fac, it. split; [left; reflexivity|].
      split; [apply Hincl; exact Hit | exact Hm].
    + destruct (IH Hr) as (fac' & it & Hf & Hit & Hm). exists fac', it.
      split; [right; exact Hf|]. split; assumption.
Qed.

End GeneratorRows.

(** X2.  When the facility ids of the input file are distinct, the generator
    writes at most one row per facility and item: no two rows of the output
    share FACILITY_ID and ITEM_NAME. *)
Theorem generator_one_row_per_facility_item (geodesic_km : Q * Q -> Q * Q -> Q)
  (df_facilities : list inventory_data_generator.Hosp.t) (current_date : string)
  (rng : inventory_data_generator.tape) :
  NoDup (map inventory_data_generator.Hosp.FACILITY_ID df_facilities) ->
  exists rows,
    inventory_data_generator.generate_inventory geodesic_km (Some df_facilities)
      current_date rng = Returned (Some rows)
    /\ NoDup (map row_key rows).
Proof.
  intro Hnd.
  destruct (generate_inventory_returns geodesic_km df_facilities current_date rng)
    as (savior_ids & _ & Hgen).
  eexists. split; [exact Hgen|].
  apply inventory_rows_keys. exact Hnd.
Qed.

Lemma generator_one_row_per_facility_item_witness :
  exists rows,
    inventory_data_generator.generate_inventory Samples.taxicab_km
      (Some Samples.hospitals_spread) "2026-01-15" Samples.rng
    = Returned (Some rows)
    /\ NoDup (map row_key rows).
Proof.
  apply generator_one_row_per_facility_item. simpl.
  repeat (constructor;
          [simpl; intro H;
           repeat (destruct H as [H|H]; [discriminate H|]); exact H |]).
  constructor.
Defined.

(** X3.  Every row the generator writes is for a facility of the input file
    and an entry of the catalogue MASTER_ITEMS, whose name, category and
    criticality it carries; it bears the date of the run and a lead time of
    2 to 6 days. *)
Theorem generator_rows_from_catalogue (geodesic_km : Q * Q -> Q * Q -> Q)
  (df_facilities : list inventory_data_generator.Hosp.t) (current_date : string)
  (rng : inventory_data_generator.tape) :
  exists rows,
    inventory_data_generator.generate_inventory geodesic_km (Some df_facilities)
      current_date rng = Returned (Some rows)
    /\ Forall (fun r =>
         (exists fac, In fac df_facilities
            /\ inventory_data_generator.Out.FACILITY_ID r
               = inventory_data_generator.Hosp.FACILITY_ID fac)
         /\ (exists it, In it inventory_data_generator.MASTER_ITEMS
               /\ inventory_data_generator.Out.ITEM_NAME r
                  = inventory_data_generator.name it
               /\ inventory_data_generator.Out.CATEGORY r
                  = inventory_data_generator.cat it
               /\ inventory_data_generator.Out.CRITICALITY_LEVEL r
                  = inventory_data_generator.crit it)
         /\ inventory_data_generator.Out.DATE r = current_date
         /\ 2 <= inventory_data_generator.Out.LEAD_TIME_DAYS r <= 6) rows.
Proof.
  destruct (generate_inventory_returns geodesic_km df_facilities current_date rng)
    as (savior_ids & _ & Hgen).
  eexists. split; [exact Hgen|].
  apply Forall_forall. intros r Hr.
  apply inventory_rows_made in Hr. destruct Hr as (fac & it & Hfac & Hit & Hm).
  apply made_by_fields in Hm.
  destruct Hm as ((Hfid & Hitem & _) & Hdate & Hcat & Hcrit & Hlead).
  split; [exists fac; auto|]. split; [exists it; auto|]. auto.
Qed.

(** X4.  The clamp at zero never fires: in every row the generator writes,
    CLOSING_STOCK is exactly OPENING_STOCK + RECEIVED_QTY - ISSUED_QTY.  The
    closing stock is 0 exactly in the Oxytocin Injection rows of the victims;
    every other row closes with at least 75 units. *)
Theorem generator_zero_stock_only_for_victims
  (geodesic_km : Q * Q -> Q * Q -> Q)
  (df_facilities : list inventory_data_generator.Hosp.t) (current_date : string)
  (rng : inventory_data_generator.tape) :
  exists rows,
    inventory_data_generator.generate_inventory geodesic_km (Some df_facilities)
      current_date rng = Returned (Some rows)
    /\ Forall (fun r =>
         inventory_data_generator.Out.CLOSING_STOCK r
         = inventory_data_generator.Out.OPENING_STOCK r
           + inventory_data_generator.Out.RECEIVED_QTY r
           - inventory_data_generator.Out.ISSUED_QTY r
         /\ (inventory_data_generator.Out.CLOSING_STOCK r = 0 <->
             inventory_data_generator.Out.ITEM_NAME r = "Oxytocin Injection"
             /\ In (inventory_data_generator.Out.FACILITY_ID r)
                   (inventory_data_generator.victims_of df_facilities))
         /\ (inventory_data_generator.Out.CLOSING_STOCK r = 0
             \/ 75 <= inventory_data_generator.Out.CLOSING_STOCK r)) rows.
Proof.
  destruct (generate_inventory_returns geodesic_km df_facilities current_date rng)
    as (savior_ids & _ & Hgen).
  eexists. split; [exact Hgen|].
  apply Forall_forall. intros r Hr.
  destruct (inventory_rows_spec current_date
              (inventory_data_generator.victims_of df_facilities) savior_ids
              df_facilities rng) as [Hall _].
  destruct (Hall r Hr) as (fac & it & _ & Hfid & Hitem & Hclose & Hfig).
  rewrite Hitem, Hfid.
  destruct (inventory_data_generator.name it =? "Oxytocin Injection")%string
    eqn:Ename.
  - apply String.eqb_eq in Ename.
    destruct (inventory_data_generator.id_in (inventory_data_generator.Hosp.FACILITY_ID fac)
                (inventory_data_generator.victims_of df_facilities)) eqn:Ev.
    + simpl in Hfig. apply id_in_iff in Ev.
      destruct Hfig as (Ho & Hr' & Hi). rewrite Hclose, Ho, Hr', Hi.
      simpl. repeat split; auto.
    + assert (Hnv : ~ In (inventory_data_generator.Hosp.FACILITY_ID fac)
                      (inventory_data_generator.victims_of df_facilities)).
      { intro Hin. apply id_in_iff in Hin. congruence. }
      destruct (inventory_data_generator.id_in (inventory_data_generator.Hosp.FACILITY_ID fac) savior_ids);
        simpl in Hfig.
      * destruct Hfig as (Ho & Hr' & Hi). rewrite Hclose, Ho, Hr', Hi. simpl.
        split; [reflexivity|]. split; [|right; lia].
        split; [discriminate | intros [_ Hin]; contradiction].
      * rewrite Hclose. split; [lia|]. split; [|right; lia].
        split; [lia | intros [_ Hin]; contradiction].
  - apply String.eqb_neq in Ename. simpl in Hfig.
    rewrite Hclose. split; [lia|]. split; [|right; lia].
    split; [lia | intros [Hn _]; contradiction].
Qed.

(** ** The generator: which facility becomes a savior *)

Section SaviorChoice.

Import inventory_data_generator.

Variable geodesic_km : Q * Q -> Q * Q -> Q.

Lemma nearest_step_first (vid : facility_id) (v_loc : Q * Q) (seen : list Hosp.t)
  (st : Q * option facility_id) (row : Hosp.t) :
  nearest_inv_first geodesic_km vid v_loc seen st ->
  nearest_inv_first geodesic_km vid v_loc (seen ++ [row])
    (nearest_step geodesic_km vid v_loc st row).
Proof.
  destruct st as [m nr]. unfold nearest_inv_first, nearest_step. simpl.
  intro Hinv.
  destruct (id_eqb (Hosp.FACILITY_ID row) vid) eqn:E.
  - apply id_eqb_eq in E. simpl. destruct nr as [n|].
    + destruct Hinv as (before & r0 & after & Hseen & Hid & Hne & Hkm & Hlt
                        & Hbefore & Hafter).
      exists before, r0, (after ++ [row])%list. subst seen.
      rewrite <- app_assoc. simpl. repeat split; auto.
      intros r Hr Hother. apply in_app_or in Hr. destruct Hr as [Hr|[<-|[]]].
      * apply Hafter; assumption.
      * contradiction.
    + destruct Hinv as [Hm Hall]. split; [exact Hm|].
      intros r Hr Hother. apply in_app_or in Hr. destruct Hr as [Hr|[<-|[]]].
      * apply Hall; assumption.
      * contradiction.
  - apply id_eqb_neq in E. fold (km_to geodesic_km v_loc row).
    destruct (Qlt_bool (km_to geodesic_km v_loc row) m) eqn:Elt; simpl.
    + apply Qlt_bool_iff in Elt.
      exists seen, row, []. destruct nr as [n|].
      * destruct Hinv as (before & r0 & after & Hseen & Hid & Hne & Hkm & Hlt
                          & Hbefore & Hafter).
        repeat split; auto.
        -- eapply Qlt_trans; eassumption.
        -- intros r Hr Hother. subst seen. apply in_app_or in Hr.
           destruct Hr as [Hr|[<-|Hr]].
           ++ eapply Qlt_trans; [exact Elt | apply Hbefore; assumption].
           ++ rewrite Hkm. exact Elt.
           ++ eapply Qlt_le_trans; [exact Elt | apply Hafter; assumption].
        -- intros r [].
      * destruct Hinv as [Hm Hall]. subst m. repeat split; auto.
        -- intros r Hr Hother.
           eapply Qlt_le_trans; [exact Elt | apply Hall; assumption].
        -- intros r [].
    + assert (Hle : (m <= km_to geodesic_km v_loc row)%Q).
      { apply Qnot_lt_le. intro Hlt. apply Qlt_bool_iff in Hlt. congruence. }
      destruct nr as [n|].
      * destruct Hinv as (before & r0 & after & Hseen & Hid & Hne & Hkm & Hlt
                          & Hbefore & Hafter).
        exists before, r0, (after ++ [row])%list. subst seen.
        rewrite <- app_assoc. simpl. repeat split; auto.
        intros r Hr Hother. apply in_app_or in Hr. destruct Hr as [Hr|[<-|[]]].
        -- apply Hafter; assumption.
        -- exact Hle.
      * destruct Hinv as [Hm Hall]. split; [exact Hm|].
        intros r Hr Hother. apply in_app_or in Hr. destruct Hr as [Hr|[<-|[]]].
        -- apply Hall; assumption.
        -- subst m. exact Hle.
Qed.

Lemma nearest_fold_first (vid : facility_id) (v_loc : Q * Q) (df seen : list Hosp.t)
  (st : Q * option facility_id) :
  nearest_inv_first geodesic_km vid v_loc seen st ->
  nearest_inv_first geodesic_km vid v_loc (seen ++ df)
    (fold_left (nearest_step geodesic_km vid v_loc) df st).
Proof.
  revert seen st. induction df as [|row df IH]; intros seen st H; simpl.
  - rewrite app_nil_r. exact H.
  - replace (seen ++ row :: df)%list with ((seen ++ [row]) ++ df)%list
      by (rewrite <- app_assoc; reflexivity).
    apply IH, nearest_step_first, H.
Qed.

Lemma nearest_other_first (df : list Hosp.t) (vid : facility_id) (v_loc : Q * Q) :
  nearest_inv_first geodesic_km vid v_loc df
    (fold_left (nearest_step geodesic_km vid v_loc) df (9999 # 1, None)).
Proof.
  apply (nearest_fold_first vid v_loc df [] (9999 # 1, None)).
  unfold nearest_inv_first. simpl. split; [reflexivity | intros r []].
Qed.

Lemma find_saviors_length (df : list Hosp.t)
  (victim_ids savior_ids : list facility_id) :
  find_saviors geodesic_km df victim_ids = Returned savior_ids ->
  (List.length savior_ids <= List.length victim_ids)%nat.
Proof.
  revert savior_ids. induction victim_ids as [|vid rest IH];
    intros savior_ids H; simpl in H.
  - inversion H. simpl. lia.
  - destruct (find _ df) as [victim_row|]; [|discriminate].
    destruct (find_saviors geodesic_km df rest) as [later|]; [|discriminate].
    specialize (IH later eq_refl). inversion H; subst. unfold append_if_truthy.
    destruct (nearest_other _ _ _ _) as [n|]; [|simpl; lia].
    destruct (id_truthy n); simpl; lia.
Qed.

End SaviorChoice.

(** X5.  The savior search settles ties by file order: the id it yields is
    that of the first row, among the rows not carrying the victim's id, at
    the smallest distance -- every earlier row is strictly farther, no later
    row is closer, and the distance is below 9999 km.  It yields nothing
    exactly when every row that does not carry the victim's id is 9999 km
    away or more (in particular when there is no such row). *)
Theorem savior_search_first_nearest (geodesic_km : Q * Q -> Q * Q -> Q)
  (df_facilities : list inventory_data_generator.Hosp.t)
  (vid : inventory_data_generator.facility_id) (v_loc : Q * Q) :
  (forall n,
      inventory_data_generator.nearest_other geodesic_km df_facilities vid v_loc
        = Some n ->
      first_nearest_other geodesic_km df_facilities vid v_loc n)
  /\ (inventory_data_generator.nearest_other geodesic_km df_facilities vid v_loc
        = None <->
      forall r, In r df_facilities ->
                inventory_data_generator.Hosp.FACILITY_ID r <> vid ->
                (9999 # 1 <= km_to geodesic_km v_loc r)%Q).
Proof.
  pose proof (nearest_other_first geodesic_km df_facilities vid v_loc) as Hinv.
  unfold inventory_data_generator.nearest_other.
  unfold nearest_inv_first in Hinv.
  destruct (fold_left _ df_facilities (9999 # 1, None)) as [m nr].
  simpl in *. destruct nr as [n|].
  - destruct Hinv as (before & row & after & Hdf & Hid & Hne & Hkm & Hlt
                      & Hbefore & Hafter).
    split.
    + intros n' Hn'. inversion Hn'; subst n'.
      exists before, row, after. rewrite Hkm. repeat split; auto.
    + split; [discriminate|]. intro Hall. exfalso.
      assert (Hin : In row df_facilities)
        by (rewrite Hdf; apply in_or_app; right; left; reflexivity).
      specialize (Hall row Hin ltac:(congruence)). rewrite Hkm in Hall.
      exact (Qlt_not_le _ _ Hlt Hall).
  - destruct Hinv as [_ Hall]. split; [discriminate|].
    split; [intros _; exact Hall | reflexivity].
Qed.

(** X6.  The generator names at most three saviors, each a truthy facility
    id of the input file (a number other than 0, a non-empty text); when all
    rows of the file carry one and the same id (a file with a single
    facility, say) it names none. *)
Theorem savior_ids_bounds (geodesic_km : Q * Q -> Q * Q -> Q)
  (df_facilities : list inventory_data_generator.Hosp.t) :
  exists savior_ids,
    inventory_data_generator.find_saviors geodesic_km df_facilities
      (inventory_data_generator.victims_of df_facilities) = Returned savior_ids
    /\ (List.length savior_ids <= 3)%nat
    /\ (forall s, In s savior_ids ->
          In s (map inventory_data_generator.Hosp.FACILITY_ID df_facilities)
          /\ inventory_data_generator.id_truthy s = true)
    /\ ((forall r r', In r df_facilities -> In r' df_facilities ->
           inventory_data_generator.Hosp.FACILITY_ID r
           = inventory_data_generator.Hosp.FACILITY_ID r') ->
        savior_ids = []).
Proof.
  destruct (find_saviors_returns geodesic_km df_facilities
              (inventory_data_generator.victims_of df_facilities)
              (victims_are_facilities df_facilities)) as [savior_ids Hs].
  exists savior_ids. split; [exact Hs|].
  pose proof (find_saviors_spec geodesic_km _ _ _ Hs) as Hspec.
  split; [|split].
  - pose proof (find_saviors_length geodesic_km _ _ _ Hs) as Hlen.
    unfold inventory_data_generator.victims_of in Hlen.
    rewrite length_firstn in Hlen. lia.
  - intros s Hin. apply Hspec in Hin. split.
    + eapply saviors_are_facilities. exact Hin.
    + destruct Hin as (_ & _ & _ & _ & _ & Hne). exact Hne.
  - intro Hsame. destruct savior_ids as [|s rest]; [reflexivity|]. exfalso.
    destruct (proj1 (Hspec s) (or_introl eq_refl))
      as (vid & vr & Hvid & _ & Hn & _).
    apply nearest_other_spec in Hn.
    destruct Hn as (row & Hrow & Hid & Hne & _).
    apply victims_are_facilities in Hvid. apply in_map_iff in Hvid.
    destruct Hvid as (row' & Hid' & Hrow').
    apply Hne. rewrite <- Hid, <- Hid'. apply Hsame; assumption.
Qed.

(** ** The local resolver: what the test of the loop amounts to *)

Lemma prefix_trans (a b c : string) :
  String.prefix a b = true -> String.prefix b c = true ->
  String.prefix a c = true.
Proof.
  revert a b. induction c as [|z c IH]; intros a b Hab Hbc.
  - destruct b as [|y b]; [|simpl in Hbc; discriminate].
    destruct a as [|x a]; [reflexivity | simpl in Hab; discriminate].
  - destruct a as [|x a]; [reflexivity|].
    destruct b as [|y b]; [simpl in Hab; discriminate|].
    simpl in Hab, Hbc |- *.
    destruct (ascii_dec x y) as [->|]; [|discriminate].
    destruct (ascii_dec y z) as [->|]; [|discriminate].
    eapply IH; eassumption.
Qed.

Lemma prefix_first_word (s : string) : String.prefix (first_word s) s = true.
Proof.
  induction s as [|c s IH]; simpl.
  - reflexivity.
  - destruct (Ascii.eqb c " "%char); [reflexivity|].
    simpl. destruct (ascii_dec c c) as [_|Hne]; [exact IH | congruence].
Qed.

Lemma prefix_lower (a b : string) :
  String.prefix a b = true -> String.prefix (lower a) (lower b) = true.
Proof.
  revert a. induction b as [|y b IH]; intros a H.
  - destruct a; [reflexivity | simpl in H; discriminate].
  - destruct a as [|x a]; [reflexivity|]. simpl in H |- *.
    destruct (ascii_dec x y) as [->|]; [|discriminate].
    destruct (ascii_dec (lower_ascii y) (lower_ascii y)) as [_|Hne];
      [apply IH; exact H | congruence].
Qed.

Lemma contains_prefix (p s q : string) :
  String.prefix p s = true -> contains s q = true -> contains p q = true.
Proof.
  intro Hps. induction q as [|c q IH]; cbn [contains]; intro H.
  - rewrite orb_false_r in *. eapply prefix_trans; eassumption.
  - apply orb_true_iff in H. apply orb_true_iff. destruct H as [H|H].
    + left. eapply prefix_trans; eassumption.
    + right. apply IH. exact H.
Qed.

Lemma contains_empty_needle (q : string) : contains "" q = true.
Proof. destruct q; reflexivity. Qed.

Lemma contains_in_empty (s : string) : contains s "" = true -> s = "".
Proof.
  destruct s; simpl; [reflexivity | discriminate].
Qed.

(** X7.  In [run_chat_action] the test on the full name is redundant: a known
    item passes the test of the loop exactly when its lower-cased first word
    occurs in the lower-cased query. *)
Theorem item_matches_is_first_word_test (user_query item : string) :
  streamlit_mvp.item_matches user_query item
  = contains (lower (first_word item)) user_query.
Proof.
  unfold streamlit_mvp.item_matches.
  destruct (contains (lower item) user_query) eqn:E; [|reflexivity].
  simpl. symmetry.
  eapply contains_prefix; [|exact E].
  apply prefix_lower, prefix_first_word.
Qed.

(** X8.  Edge cases of [run_chat_action]: an empty list of known items
    resolves nothing; a known item that is empty or starts with a space has
    an empty first word and passes the test for every query, so with such
    an item in the list no query is left unresolved; and the empty query
    resolves to nothing when every known item has a non-empty first word. *)
Theorem run_chat_action_edge_cases :
  (forall q, streamlit_mvp.run_chat_action q [] = None)
  /\ (forall q valid_items it,
         In it valid_items -> first_word it = "" ->
         streamlit_mvp.run_chat_action q valid_items <> None)
  /\ (forall valid_items,
         (forall it, In it valid_items -> first_word it <> "") ->
         streamlit_mvp.run_chat_action "" valid_items = None).
Proof.
  split; [|split].
  - intro q. reflexivity.
  - intros q valid_items it Hin Hfw Hnone.
    rewrite run_chat_action_none in Hnone. specialize (Hnone it Hin).
    unfold streamlit_mvp.item_matches in Hnone. rewrite Hfw in Hnone.
    simpl lower in Hnone. rewrite contains_empty_needle, orb_true_r in Hnone.
    discriminate.
  - intros valid_items Hall. apply run_chat_action_none.
    intros it Hin. unfold streamlit_mvp.item_matches. simpl lower.
    specialize (Hall it Hin).
    destruct (contains (lower (first_word it)) "") eqn:Efw.
    + exfalso. apply contains_in_empty in Efw. apply Hall.
      destruct (first_word it); [reflexivity | simpl in Efw; discriminate].
    + rewrite orb_false_r.
      destruct (contains (lower it) "") eqn:Eit; [|reflexivity].
      exfalso. apply contains_in_empty in Eit. apply Hall.
      destruct it; [reflexivity | simpl in Eit; discriminate].
Qed.

Lemma run_chat_action_edge_cases_witness :
  streamlit_mvp.run_chat_action "where is the oxygen?"
    ["Epinephrine"; " Gauze"; "Folic Acid"] <> None
  /\ streamlit_mvp.run_chat_action "" Samples.known_items = None.
Proof.
  destruct run_chat_action_edge_cases as (_ & Hspace & Hempty).
  split.
  - apply (Hspace _ _ " Gauze"); [simpl; auto | reflexivity].
  - apply Hempty. intros it Hin. vm_compute in Hin.
    repeat (destruct Hin as [<-|Hin]; [vm_compute; discriminate|]).
    contradiction.
Defined.

(** ** The local resolver: ties between names of equal length *)

Lemma insert_by_len_stable (n : nat) (x : string) (l : list string) :
  filter (fun s => Nat.eqb (String.length s) n) (insert_by_len x l)
  = filter (fun s => Nat.eqb (String.length s) n) (x :: l).
Proof.
  induction l as [|h t IH]; [reflexivity|]. simpl insert_by_len.
  destruct (Nat.leb (String.length h) (String.length x)) eqn:E; [reflexivity|].
  apply Nat.leb_gt in E. simpl in IH |- *. rewrite IH.
  destruct (Nat.eqb (String.length x) n) eqn:Ex;
    destruct (Nat.eqb (String.length h) n) eqn:Eh; try reflexivity.
  apply Nat.eqb_eq in Ex, Eh. lia.
Qed.

Lemma sorted_by_len_reverse_stable (n : nat) (l : list string) :
  filter (fun s => Nat.eqb (String.length s) n) (sorted_by_len_reverse l)
  = filter (fun s => Nat.eqb (String.length s) n) l.
Proof.
  induction l as [|x l IH]; [reflexivity|]. simpl sorted_by_len_reverse.
  rewrite insert_by_len_stable. simpl. rewrite IH. reflexivity.
Qed.

Lemma find_split {A} (p : A -> bool) (l : list A) (x : A) :
  find p l = Some x ->
  exists before after,
    l = (before ++ x :: after)%list /\ forall y, In y before -> p y = false.
Proof.
  induction l as [|h t IH]; simpl; [discriminate|].
  destruct (p h) eqn:E; intro H.
  - inversion H; subst. exists [], t. split; [reflexivity | intros y []].
  - destruct (IH H) as (before & after & -> & Hb).
    exists (h :: before), after. split; [reflexivity|].
    intros y [<-|Hy]; [exact E | apply Hb; exact Hy].
Qed.

Lemma filter_head_split {A} (f : A -> bool) (l : list A) (x : A) (rest : list A) :
  filter f l = x :: rest ->
  exists before after,
    l = (before ++ x :: after)%list /\ forall y, In y before -> f y = false.
Proof.
  induction l as [|h t IH]; simpl; [discriminate|].
  destruct (f h) eqn:E; intro H.
  - inversion H; subst. exists [], t. split; [reflexivity | intros y []].
  - destruct (IH H) as (before & after & -> & Hb).
    exists (h :: before), after. split; [reflexivity|].
    intros y [<-|Hy]; [exact E | apply Hb; exact Hy].
Qed.

Lemma filter_none {A} (f : A -> bool) (l : list A) :
  (forall y, In y l -> f y = false) -> filter f l = [].
Proof.
  induction l as [|h t IH]; simpl; intro H; [reflexivity|].
  rewrite (H h (or_introl eq_refl)). apply IH. intros y Hy. apply H. right. exact Hy.
Qed.

Lemma filter_and {A} (f g : A -> bool) (l : list A) :
  filter (fun x => (f x && g x)%bool) l = filter f (filter g l).
Proof.
  induction l as [|h t IH]; simpl; [reflexivity|].
  destruct (g h); simpl.
  - rewrite andb_true_r. destruct (f h); rewrite IH; reflexivity.
  - rewrite andb_false_r. exact IH.
Qed.

(** X9.  Ties are settled by the order of the known-item list: the name
    [run_chat_action] returns stands in the list in front of every other
    matching name of its length -- each matching name listed before it is
    strictly shorter. *)
Theorem run_chat_action_first_among_longest (user_query : string)
  (valid_items : list string) (it : string) :
  streamlit_mvp.run_chat_action user_query valid_items = Some it ->
  exists before after,
    valid_items = (before ++ it :: after)%list
    /\ forall x, In x before ->
                 streamlit_mvp.item_matches (lower user_query) x = true ->
                 (String.length x < String.length it)%nat.
Proof.
  intro Hrun.
  pose proof (run_chat_action_some _ _ _ Hrun) as (_ & Hm & Hlongest).
  unfold streamlit_mvp.run_chat_action in Hrun.
  set (p := streamlit_mvp.item_matches (lower user_query)) in *.
  set (same := fun s => Nat.eqb (String.length s) (String.length it)).
  destruct (find_split _ _ _ Hrun) as (s1 & s2 & Hsorted & Hs1).
  assert (Hfil : filter (fun x => (p x && same x)%bool) valid_items
                 = it :: filter (fun x => (p x && same x)%bool) s2).
  { rewrite filter_and. unfold same at 1.
    rewrite <- (sorted_by_len_reverse_stable (String.length it) valid_items).
    fold same. rewrite <- filter_and, Hsorted, filter_app. simpl.
    rewrite filter_none.
    - unfold same at 1. rewrite Hm, Nat.eqb_refl. reflexivity.
    - intros y Hy. rewrite (Hs1 y Hy). reflexivity. }
  destruct (filter_head_split _ _ _ _ Hfil) as (before & after & Hl & Hb).
  exists before, after. split; [exact Hl|].
  intros x Hx Hpx. specialize (Hb x Hx). cbv beta in Hb.
  fold p in Hpx. rewrite Hpx in Hb. simpl in Hb. unfold same in Hb.
  apply Nat.eqb_neq in Hb.
  assert (Hin : In x valid_items)
    by (rewrite Hl; apply in_or_app; left; exact Hx).
  specialize (Hlongest x Hin Hpx). lia.
Qed.

Lemma run_chat_action_first_among_longest_witness :
  exists before after,
    ["Folic Acid"; "Malaria RDT X"; "Polio Vaccine"]
    = (before ++ "Malaria RDT X" :: after)%list
    /\ forall x, In x before ->
                 streamlit_mvp.item_matches
                   (lower "folic acid, polio or malaria") x = true ->
                 (String.length x < String.length "Malaria RDT X")%nat.
Proof.
  apply (run_chat_action_first_among_longest "folic acid, polio or malaria").
  vm_compute. reflexivity.
Defined.

(** ** The neighbor queries: bounds and empty results *)

Lemma candidates_nil (session : Session) (point_of : Fac.t -> GeoPoint)
  (inventory : list Inv.t) (victim_id item_name : string) :
  (forall f, In f (FACILITIES (tables session)) ->
             Fac.FACILITY_ID f <> victim_id)
  \/ (forall i, In i inventory -> Inv.ITEM_NAME i = item_name ->
                Inv.CLOSING_STOCK i <= 100) ->
  candidates session point_of inventory victim_id item_name = [].
Proof.
  intro H. unfold candidates.
  rewrite filter_none; [reflexivity|].
  intros [[s n] i] Hj. apply in_from_join in Hj.
  destruct Hj as (Hs & _ & Hi & _). unfold where_clause.
  destruct H as [Hvid|Hstock].
  - apply (Hvid s) in Hs. apply String.eqb_neq in Hs. rewrite Hs. reflexivity.
  - destruct (Inv.ITEM_NAME i =? item_name)%string eqn:E.
    + apply String.eqb_eq in E. specialize (Hstock i Hi E).
      assert (Hlt : (100 <? Inv.CLOSING_STOCK i) = false)
        by (apply Z.ltb_ge; exact Hstock).
      rewrite Hlt. apply andb_false_r.
    + rewrite andb_false_r. reflexivity.
Qed.

(** X10.  The MVP file's [find_nearest_neighbors] never hands back more
    than 3 rows, and neither does the other file's for a victim id and an
    item name without quote or backslash; that file then hands back only
    rows displayed below 10 km.  When the warehouse answers and at most 3
    rows qualify, all of them are returned: the frame is a rearrangement of
    the qualifying rows. *)
Theorem neighbors_at_most_three (session : Session)
  (victim_id item_name : string) :
  (sql_plain victim_id = true -> sql_plain item_name = true ->
   (List.length (returned_rows (streamlit_app.find_nearest_neighbors
                                  session victim_id item_name)) <= 3)%nat
   /\ Forall (fun r => (DISTANCE_KM r < 10 # 1)%Q)
             (returned_rows (streamlit_app.find_nearest_neighbors
                               session victim_id item_name))
   /\ (failure session = None ->
       (List.length (streamlit_app.qualifying session victim_id item_name)
        <= 3)%nat ->
       Permutation (streamlit_app.qualifying session victim_id item_name)
         (returned_rows (streamlit_app.find_nearest_neighbors
                           session victim_id item_name))))
  /\ ((List.length (returned_rows (streamlit_mvp.find_nearest_neighbors
                                     session victim_id item_name)) <= 3)%nat
      /\ (failure session = None ->
          (List.length (streamlit_mvp.qualifying session victim_id item_name)
           <= 3)%nat ->
          Permutation (streamlit_mvp.qualifying session victim_id item_name)
            (returned_rows (streamlit_mvp.find_nearest_neighbors
                              session victim_id item_name)))).
Proof.
  split.
  - intros Hv Hi. rewrite (returned_rows_main _ _ _ Hv Hi).
    split; [|split].
    + destruct (failure session); [simpl; lia|].
      unfold streamlit_app.query, limit. apply firstn_le_length.
    + destruct (failure session); [constructor|].
      apply Forall_forall. intros r Hr. apply in_query_main in Hr. apply Hr.
    + intros Hok Hlen. rewrite Hok. unfold streamlit_app.query, limit.
      rewrite firstn_all2.
      * apply order_by_distance_perm.
      * rewrite <- (Permutation_length (order_by_distance_perm _ _)). exact Hlen.
  - rewrite returned_rows_mvp. split.
    + destruct (failure session); [simpl; lia|].
      unfold streamlit_mvp.query, limit. apply firstn_le_length.
    + intros Hok Hlen. rewrite Hok. unfold streamlit_mvp.query, limit.
      rewrite firstn_all2.
      * apply order_by_distance_perm.
      * rewrite <- (Permutation_length (order_by_distance_perm _ _)). exact Hlen.
Qed.

Lemma neighbors_at_most_three_witness :
  Permutation
    (streamlit_app.qualifying Samples.scenario "V" "Oxytocin Injection")
    (returned_rows (streamlit_app.find_nearest_neighbors
                      Samples.scenario "V" "Oxytocin Injection"))
  /\ Permutation
       (streamlit_mvp.qualifying Samples.scenario "V" "Oxytocin Injection")
       (returned_rows (streamlit_mvp.find_nearest_neighbors
                         Samples.scenario "V" "Oxytocin Injection")).
Proof.
  destruct (neighbors_at_most_three Samples.scenario "V" "Oxytocin Injection")
    as [Hmain (_ & Hmvp)].
  destruct (Hmain eq_refl eq_refl) as (_ & _ & Hperm).
  split.
  - apply Hperm; [reflexivity | vm_compute; lia].
  - apply Hmvp; [reflexivity | vm_compute; lia].
Defined.

(** X11.  A victim id that no row of FACILITIES carries, or an item of which
    no inventory row holds more than 100 units (an item nobody stocks, say),
    gives an empty frame, not an error: in the MVP file always, in the other
    file when the victim id and the item name hold no quote and no
    backslash. *)
Theorem neighbors_empty_for_unknown_victim_or_item (session : Session)
  (victim_id item_name : string) :
  (sql_plain victim_id = true -> sql_plain item_name = true ->
   (forall f, In f (FACILITIES (tables session)) ->
              Fac.FACILITY_ID f <> victim_id)
   \/ (forall i, In i (INVENTORY_DAILY (tables session)) ->
                 Inv.ITEM_NAME i = item_name -> Inv.CLOSING_STOCK i <= 100) ->
   returned_rows (streamlit_app.find_nearest_neighbors
                    session victim_id item_name) = []
   /\ (failure session = None ->
       streamlit_app.find_nearest_neighbors session victim_id item_name
       = ([], Returned [])))
  /\ ((forall f, In f (FACILITIES (tables session)) ->
                 Fac.FACILITY_ID f <> victim_id)
      \/ (forall i, In i (INVENTORY_DAILY_PREDICTED (tables session)) ->
                    Inv.ITEM_NAME i = item_name -> Inv.CLOSING_STOCK i <= 100) ->
      returned_rows (streamlit_mvp.find_nearest_neighbors
                       session victim_id item_name) = []
      /\ (failure session = None ->
          streamlit_mvp.find_nearest_neighbors session victim_id item_name
          = ([], Returned []))).
Proof.
  split.
  - intros Hv Hi H.
    assert (Hq : streamlit_app.query victim_id item_name session = []).
    { unfold streamlit_app.query, streamlit_app.qualifying.
      rewrite (candidates_nil _ _ _ _ _ H). reflexivity. }
    split.
    + rewrite (returned_rows_main _ _ _ Hv Hi), Hq.
      destruct (failure session); reflexivity.
    + intro Hok. rewrite (main_answers _ _ _ Hok Hv Hi), Hq. reflexivity.
  - intro H.
    assert (Hq : streamlit_mvp.query victim_id item_name session = []).
    { unfold streamlit_mvp.query, streamlit_mvp.qualifying.
      rewrite (candidates_nil _ _ _ _ _ H). reflexivity. }
    split.
    + rewrite returned_rows_mvp, Hq. destruct (failure session); reflexivity.
    + intro Hok. rewrite (mvp_answers _ _ _ Hok), Hq. reflexivity.
Qed.

Lemma neighbors_empty_for_unknown_victim_or_item_witness :
  streamlit_app.find_nearest_neighbors Samples.healthy "F999" "Oxytocin Injection"
  = ([], Returned [])
  /\ streamlit_mvp.find_nearest_neighbors Samples.healthy "F001" "Oxygen"
     = ([], Returned []).
Proof.
  split.
  - destruct (neighbors_empty_for_unknown_victim_or_item Samples.healthy
                "F999" "Oxytocin Injection") as [Hmain _].
    apply Hmain; [reflexivity | reflexivity | | reflexivity].
    left. intros f Hf. simpl in Hf.
    repeat (destruct Hf as [<-|Hf]; [discriminate|]). contradiction.
  - apply (neighbors_empty_for_unknown_victim_or_item Samples.healthy
             "F001" "Oxygen"); [|reflexivity].
    right. intros i Hi Hname. simpl in Hi.
    repeat (destruct Hi as [<-|Hi]; [discriminate Hname|]). contradiction.
Defined.

(** ** The smart item selector: from display name back to item name *)

Lemma prefix_cons (a b : ascii) (s1 s2 : string) :
  String.prefix (String a s1) (String b s2)
  = if Ascii.eqb a b then String.prefix s1 s2 else false.
Proof.
  cbn [String.prefix]. destruct (ascii_dec a b) as [->|Hne].
  - rewrite Ascii.eqb_refl. reflexivity.
  - apply Ascii.eqb_neq in Hne. rewrite Hne. reflexivity.
Qed.

Lemma prefix_paren (c d : ascii) (rest : string) :
  String.prefix " (" (String c (String d rest))
  = (Ascii.eqb " " c && Ascii.eqb "(" d)%bool.
Proof.
  rewrite prefix_cons. destruct (Ascii.eqb " " c); [|reflexivity].
  rewrite prefix_cons. destruct (Ascii.eqb "(" d); [|reflexivity].
  destruct rest; reflexivity.
Qed.

Lemma prefix_paren_short (c : ascii) :
  String.prefix " (" (String c "") = false.
Proof.
  rewrite prefix_cons. destruct (Ascii.eqb " " c); reflexivity.
Qed.

Lemma split_head_cons (sep : string) (c : ascii) (s : string) :
  split_head sep (String c s)
  = if String.prefix sep (String c s) then EmptyString
    else String c (split_head sep s).
Proof. reflexivity. Qed.

Lemma split_head_by_paren (name tail : string) :
  forall c,
    contains " (" (String c name) = false ->
    split_head " (" (String c (name ++ " (" ++ tail)) = String c name.
Proof.
  induction name as [|d name IH]; intros c H.
  - change ("" ++ " (" ++ tail) with (String " " (String "(" tail)).
    rewrite split_head_cons, prefix_paren.
    replace (Ascii.eqb " " c && Ascii.eqb "(" " ")%bool with false
      by (rewrite andb_false_r; reflexivity).
    rewrite split_head_cons, prefix_paren. reflexivity.
  - cbn [contains] in H. apply orb_false_iff in H. destruct H as [Hp Hrest].
    change (String d name ++ " (" ++ tail) with (String d (name ++ " (" ++ tail)).
    rewrite split_head_cons. rewrite prefix_paren in *. rewrite Hp.
    f_equal. apply IH. exact Hrest.
Qed.

Lemma split_head_cuts_inside (name : string) :
  forall c tail,
    contains " (" (String c name) = true ->
    (String.length (split_head " (" (String c (name ++ tail))) + 2
     <= String.length (String c name))%nat.
Proof.
  induction name as [|d name IH]; intros c tail H.
  - cbn [contains] in H. rewrite prefix_paren_short in H. discriminate.
  - cbn [contains] in H.
    change (String d name ++ tail) with (String d (name ++ tail)).
    rewrite split_head_cons. rewrite prefix_paren in *.
    destruct (Ascii.eqb " " c && Ascii.eqb "(" d)%bool.
    + cbn [String.length]. lia.
    + rewrite orb_false_l in H. specialize (IH d tail H).
      cbn [String.length] in *. lia.
Qed.

Lemma string_drop_length (n : nat) (s : string) :
  String.length (string_drop n s) = (String.length s - n)%nat.
Proof.
  revert s. induction n as [|n IH]; intros [|c s]; simpl; auto.
Qed.

Lemma actual_item_name_of_display (e : ascii) (name tail : string) :
  contains " (" (String " " name) = false ->
  actual_item_name (String e (" " ++ name ++ " (" ++ tail)) = name.
Proof.
  intro H. unfold actual_item_name.
  change (" " ++ name ++ " (" ++ tail) with (String " " (name ++ " (" ++ tail)).
  rewrite split_head_cons.
  assert (Hp : String.prefix " (" (String e (String " " (name ++ " (" ++ tail)))
               = false).
  { rewrite prefix_paren. apply andb_false_r. }
  rewrite Hp, split_head_by_paren by exact H. reflexivity.
Qed.

Lemma actual_item_name_truncates (e : ascii) (name tail : string) :
  contains " (" (String " " name) = true ->
  (String.length (actual_item_name (String e (" " ++ name ++ tail)))
   < String.length name)%nat.
Proof.
  intro H. unfold actual_item_name.
  change (" " ++ name ++ tail) with (String " " (name ++ tail)).
  rewrite split_head_cons.
  assert (Hp : String.prefix " (" (String e (String " " (name ++ tail))) = false).
  { rewrite prefix_paren. apply andb_false_r. }
  rewrite Hp. pose proof (split_head_cuts_inside name " " tail H) as Hcut.
  rewrite string_drop_length. cbn [String.length] in *.
  destruct name as [|d name];
    [cbn [contains] in H; rewrite prefix_paren_short in H; discriminate|].
  cbn [String.length] in *. lia.
Qed.

(** X12.  The item selector of both dashboards recovers the item name from
    the display name it built -- whatever the count and the two emoji -- as
    long as the name does not contain " (" and does not start with "(". *)
Theorem display_name_round_trip (red_circle check_mark : ascii)
  (ITEM_NAME : string) (CRITICAL_COUNT : nat) :
  contains " (" (" " ++ ITEM_NAME) = false ->
  actual_item_name (make_display_name red_circle check_mark
                      ITEM_NAME CRITICAL_COUNT) = ITEM_NAME
  /\ actual_item_name (make_name red_circle check_mark
                         ITEM_NAME CRITICAL_COUNT) = ITEM_NAME.
Proof.
  intro H. change (" " ++ ITEM_NAME) with (String " " ITEM_NAME) in H.
  unfold make_display_name, make_name.
  destruct (Nat.ltb 0 CRITICAL_COUNT); split;
    apply actual_item_name_of_display; exact H.
Qed.

Lemma display_name_round_trip_witness :
  actual_item_name (make_display_name "R" "G" "Oxytocin Injection" 3)
  = "Oxytocin Injection"
  /\ actual_item_name (make_name "R" "G" "Oxytocin Injection" 3)
     = "Oxytocin Injection".
Proof.
  exact (display_name_round_trip "R" "G" "Oxytocin Injection" 3 eq_refl).
Defined.

(** X13.  When the item name contains " (" or starts with "(", the item
    selector of both dashboards does not get the name back: what it extracts
    from the display name is strictly shorter than the name, so the rows of
    the item are filtered by a wrong name.  "Artemether (Malaria)" of the
    generator's catalogue is such a name. *)
Theorem display_name_truncated_at_paren (red_circle check_mark : ascii)
  (ITEM_NAME : string) (CRITICAL_COUNT : nat) :
  contains " (" (" " ++ ITEM_NAME) = true ->
  (String.length (actual_item_name (make_display_name red_circle check_mark
                                      ITEM_NAME CRITICAL_COUNT))
   < String.length ITEM_NAME)%nat
  /\ (String.length (actual_item_name (make_name red_circle check_mark
                                         ITEM_NAME CRITICAL_COUNT))
      < String.length ITEM_NAME)%nat.
Proof.
  intro H. change (" " ++ ITEM_NAME) with (String " " ITEM_NAME) in H.
  unfold make_display_name, make_name.
  destruct (Nat.ltb 0 CRITICAL_COUNT); split;
    apply actual_item_name_truncates; exact H.
Qed.

Lemma display_name_truncated_at_paren_witness :
  In "Artemether (Malaria)" Samples.known_items
  /\ actual_item_name (make_display_name "R" "G" "Artemether (Malaria)" 2)
     = "Artemether"
  /\ (String.length (actual_item_name
                       (make_display_name "R" "G" "Artemether (Malaria)" 2))
      < String.length "Artemether (Malaria)")%nat.
Proof.
  split; [vm_compute; auto 30|]. split; [vm_compute; reflexivity|].
  destruct (display_name_truncated_at_paren "R" "G" "Artemether (Malaria)" 2)
    as [Hmain _]; [vm_compute; reflexivity | exact Hmain].
Defined.

(** ** The criticality filter *)

Lemma unique_from_in (seen l : list string) (x : string) :
  In x (unique_from seen l) <-> In x l /\ ~ In x seen.
Proof.
  revert seen. induction l as [|h t IH]; intro seen; simpl.
  - tauto.
  - destruct (str_in h seen) eqn:E.
    + apply str_in_iff in E. rewrite IH. split.
      * intros [Hin Hns]. auto.
      * intros [[<-|Hin] Hns]; [contradiction | auto].
    + assert (Hh : ~ In h seen) by (intro Hin; apply str_in_iff in Hin; congruence).
      simpl. rewrite IH. simpl. split.
      * intros [<-|[Hin Hns]]; [auto|]. split; [auto|]. intro; apply Hns; auto.
      * intros [[<-|Hin] Hns]; [auto|].
        destruct (string_dec h x) as [->|Hne]; [auto|].
        right. split; [exact Hin|]. intros [Heq|Hs]; auto.
Qed.

Lemma unique_from_NoDup (seen l : list string) : NoDup (unique_from seen l).
Proof.
  revert seen. induction l as [|h t IH]; intro seen; simpl.
  - constructor.
  - destruct (str_in h seen); [apply IH|].
    constructor; [|apply IH].
    intro Hin. apply unique_from_in in Hin. destruct Hin as [_ Hns].
    apply Hns. left. reflexivity.
Qed.

Lemma insert_by_rank_perm (x : string) (l : list string) :
  Permutation (x :: l) (insert_by_rank x l).
Proof.
  induction l as [|h t IH]; simpl.
  - apply Permutation_refl.
  - destruct (Nat.leb (level_rank x) (level_rank h)).
    + apply Permutation_refl.
    + eapply perm_trans; [apply perm_swap|]. apply perm_skip. exact IH.
Qed.

Lemma insert_by_rank_sorted (x : string) (l : list string) :
  StronglySorted (fun a b => (level_rank a <= level_rank b)%nat) l ->
  StronglySorted (fun a b => (level_rank a <= level_rank b)%nat)
    (insert_by_rank x l).
Proof.
  induction 1 as [|h t Hs IH Hall]; simpl.
  - constructor; constructor.
  - destruct (Nat.leb (level_rank x) (level_rank h)) eqn:E.
    + apply Nat.leb_le in E. constructor.
      * constructor; assumption.
      * constructor; [exact E|].
        eapply Forall_impl; [|exact Hall]. intros a Ha. cbv beta in *. lia.
    + apply Nat.leb_gt in E. constructor; [exact IH|].
      eapply Permutation_Forall; [apply insert_by_rank_perm|].
      constructor; [cbv beta; lia | exact Hall].
Qed.

Lemma crit_levels_perm (CRITICALITY_LEVEL : list string) :
  Permutation (unique CRITICALITY_LEVEL) (crit_levels CRITICALITY_LEVEL).
Proof.
  unfold crit_levels. induction (unique CRITICALITY_LEVEL) as [|x l IH]; simpl.
  - apply perm_nil.
  - eapply perm_trans; [apply perm_skip, IH|]. apply insert_by_rank_perm.
Qed.

Lemma crit_levels_sorted (CRITICALITY_LEVEL : list string) :
  StronglySorted (fun a b => (level_rank a <= level_rank b)%nat)
    (crit_levels CRITICALITY_LEVEL).
Proof.
  unfold crit_levels. induction (unique CRITICALITY_LEVEL) as [|x l IH]; simpl.
  - constructor.
  - apply insert_by_rank_sorted, IH.
Qed.

Lemma crit_levels_in (CRITICALITY_LEVEL : list string) (x : string) :
  In x (crit_levels CRITICALITY_LEVEL) <-> In x CRITICALITY_LEVEL.
Proof.
  split; intro H.
  - apply (Permutation_in _ (Permutation_sym (crit_levels_perm _))) in H.
    apply unique_from_in in H. apply H.
  - apply (Permutation_in _ (crit_levels_perm _)).
    apply unique_from_in. split; [exact H | intros []].
Qed.

Lemma level_rank_high (x : string) : level_rank x = 0%nat -> x = "High".
Proof.
  unfold level_rank. destruct (x =? "High")%string eqn:E.
  - intros _. apply String.eqb_eq. exact E.
  - destruct (x =? "Medium")%string; discriminate.
Qed.

Lemma level_rank_medium (x : string) : level_rank x = 1%nat -> x = "Medium".
Proof.
  unfold level_rank. destruct (x =? "High")%string; [discriminate|].
  destruct (x =? "Medium")%string eqn:E; [|discriminate].
  intros _. apply String.eqb_eq. exact E.
Qed.

(** X14.  The criticality selector of both dashboards offers each level of
    the column exactly once, ordered High, then Medium, then the rest; so
    its first entry -- the default choice -- is "High" whenever some row is
    High, and "Medium" when none is High but some row is Medium. *)
Theorem crit_levels_high_first (CRITICALITY_LEVEL : list string) :
  (forall x, In x (crit_levels CRITICALITY_LEVEL) <-> In x CRITICALITY_LEVEL)
  /\ NoDup (crit_levels CRITICALITY_LEVEL)
  /\ StronglySorted (fun a b => (level_rank a <= level_rank b)%nat)
       (crit_levels CRITICALITY_LEVEL)
  /\ (In "High" CRITICALITY_LEVEL ->
      hd_error (crit_levels CRITICALITY_LEVEL) = Some "High")
  /\ (~ In "High" CRITICALITY_LEVEL -> In "Medium" CRITICALITY_LEVEL ->
      hd_error (crit_levels CRITICALITY_LEVEL) = Some "Medium").
Proof.
  split; [apply crit_levels_in|]. split.
  { eapply Permutation_NoDup; [apply crit_levels_perm | apply unique_from_NoDup]. }
  split; [apply crit_levels_sorted|].
  pose proof (crit_levels_sorted CRITICALITY_LEVEL) as Hs.
  pose proof (crit_levels_in CRITICALITY_LEVEL) as Hin.
  destruct (crit_levels CRITICALITY_LEVEL) as [|h t].
  - split.
    + intro H. apply Hin in H. destruct H.
    + intros _ H. apply Hin in H. destruct H.
  - inversion Hs as [|? ? _ Hall]; subst. rewrite Forall_forall in Hall.
    split.
    + intro H. apply Hin in H. simpl. f_equal. apply level_rank_high.
      destruct H as [->|H]; [reflexivity|].
      specialize (Hall _ H). cbv beta in Hall.
      change (level_rank "High") with 0%nat in Hall. lia.
    + intros Hno H. apply Hin in H. simpl. f_equal. apply level_rank_medium.
      assert (Hh : level_rank h <> 0%nat).
      { intro H0. apply level_rank_high in H0. apply Hno, Hin. left. exact H0. }
      destruct H as [->|H]; [reflexivity|].
      specialize (Hall _ H). cbv beta in Hall.
      change (level_rank "Medium") with 1%nat in Hall. lia.
Qed.

Lemma crit_levels_high_first_witness :
  hd_error (crit_levels ["Low"; "Medium"; "High"; "Low"; "High"]) = Some "High"
  /\ crit_levels ["Low"; "Medium"; "High"; "Low"; "High"]
     = ["High"; "Medium"; "Low"].
Proof.
  split; [|vm_compute; reflexivity].
  destruct (crit_levels_high_first ["Low"; "Medium"; "High"; "Low"; "High"])
    as (_ & _ & _ & Hhigh & _).
  apply Hhigh. simpl. auto.
Defined.

(** ** The neighbor queries: every candidate is returned below the limit *)

(** X15.  When the warehouse answers, every row that
    [find_nearest_neighbors] returns shows a facility other than the victim
    with an inventory row of that facility for the item holding more than
    100 units (in [src/streamlit_app.py]: displayed below 10 km); and when
    the frame has fewer than 3 rows it leaves no such facility out.  For
    [src/streamlit_app.py] this is for a victim id and an item name without
    quote or backslash. *)
Theorem neighbors_all_returned_below_limit (session : Session)
  (victim_id item_name : string) :
  failure session = None ->
  (sql_plain victim_id = true -> sql_plain item_name = true ->
   (forall r,
       In r (returned_rows (streamlit_app.find_nearest_neighbors
                              session victim_id item_name)) ->
       (exists source neighbor inv,
          eligible session (INVENTORY_DAILY (tables session))
            victim_id item_name source neighbor inv
          /\ shows session Fac.GEO_POINT source neighbor inv r)
       /\ (DISTANCE_KM r < 10 # 1)%Q)
   /\ ((List.length (returned_rows (streamlit_app.find_nearest_neighbors
                                      session victim_id item_name)) < 3)%nat ->
       forall source neighbor inv r,
         eligible session (INVENTORY_DAILY (tables session))
           victim_id item_name source neighbor inv ->
         shows session Fac.GEO_POINT source neighbor inv r ->
         (DISTANCE_KM r < 10 # 1)%Q ->
         In r (returned_rows (streamlit_app.find_nearest_neighbors
                                session victim_id item_name))))
  /\ ((forall r,
          In r (returned_rows (streamlit_mvp.find_nearest_neighbors
                                 session victim_id item_name)) ->
          exists source neighbor inv,
            eligible session (INVENTORY_DAILY_PREDICTED (tables session))
              victim_id item_name source neighbor inv
            /\ shows session
                 (fun f => ST_MAKEPOINT (Fac.LONGITUDE f) (Fac.LATITUDE f))
                 source neighbor inv r)
      /\ ((List.length (returned_rows (streamlit_mvp.find_nearest_neighbors
                                         session victim_id item_name)) < 3)%nat ->
          forall source neighbor inv r,
            eligible session (INVENTORY_DAILY_PREDICTED (tables session))
              victim_id item_name source neighbor inv ->
            shows session
              (fun f => ST_MAKEPOINT (Fac.LONGITUDE f) (Fac.LATITUDE f))
              source neighbor inv r ->
            In r (returned_rows (streamlit_mvp.find_nearest_neighbors
                                   session victim_id item_name)))).
Proof.
  intro Hok. split.
  - intros Hv Hi. rewrite (returned_rows_main _ _ _ Hv Hi), Hok. split.
    + intros r Hr. apply in_query_main in Hr. destruct Hr as [Hr Hlt].
      apply candidates_iff in Hr. auto.
    + unfold streamlit_app.query, limit. intros Hlen s n i r He Hs Hlt.
      rewrite length_firstn in Hlen. rewrite firstn_all2 by lia.
      apply (Permutation_in _ (order_by_distance_perm _ _)).
      apply qualifying_main_iff. split; [|exact Hlt]. exists s, n, i. auto.
  - rewrite returned_rows_mvp, Hok. split.
    + intros r Hr. apply in_query_mvp in Hr. apply candidates_iff in Hr. exact Hr.
    + unfold streamlit_mvp.query, limit. intros Hlen s n i r He Hs.
      rewrite length_firstn in Hlen. rewrite firstn_all2 by lia.
      apply (Permutation_in _ (order_by_distance_perm _ _)).
      unfold streamlit_mvp.qualifying. apply candidates_iff.
      exists s, n, i. auto.
Qed.

Lemma neighbors_all_returned_below_limit_witness :
  In {| SAVIOR_NAME := "A"; SAVIOR_LAT := 0; SAVIOR_LON := 1 # 100;
        AVAILABLE_STOCK := 150; DISTANCE_KM := 10 # 10 |}
     (returned_rows (streamlit_app.find_nearest_neighbors
                       Samples.scenario "V" "Oxytocin Injection")).
Proof.
  destruct (neighbors_all_returned_below_limit Samples.scenario
              "V" "Oxytocin Injection" eq_refl) as [Hmain _].
  destruct (Hmain eq_refl eq_refl) as [_ Hall].
  apply (Hall ltac:(vm_compute; lia)
           (Samples.fac "V" "Victim" 0 0) (Samples.fac "A" "A" 0 (1 # 100))
           (Inv.mk "A" "Oxytocin Injection" 150)).
  - unfold eligible. simpl. repeat split; auto; try discriminate; try lia.
  - unfold shows. simpl. repeat split; vm_compute; reflexivity.
  - vm_compute. reflexivity.
Defined.

(** ** The emergency console of [src/streamlit_app.py] *)

Lemma status_eqb_eq (a b : status) : status_eqb a b = true <-> a = b.
Proof. destruct a, b; simpl; split; intro H; try reflexivity; discriminate. Qed.

Lemma network_status_critical (CLOSING_STOCK : Z) :
  command_center.STATUS_CASE CLOSING_STOCK = CRITICAL <-> CLOSING_STOCK = 0.
Proof.
  unfold command_center.STATUS_CASE.
  destruct (CLOSING_STOCK =? 0) eqn:E.
  - apply Z.eqb_eq in E. tauto.
  - apply Z.eqb_neq in E. destruct (CLOSING_STOCK <? 50); split;
      intro H; try discriminate; contradiction.
Qed.

Lemma load_network_status_row (CURRENT_DATE : Z) (facilities : list Fac.t)
  (daily : list command_center.Daily.t) (r : command_center.Net.t) :
  In r (command_center.load_network_status_query CURRENT_DATE facilities daily) ->
  command_center.Net.STATUS r
  = command_center.STATUS_CASE (command_center.Net.CLOSING_STOCK r).
Proof.
  unfold command_center.load_network_status_query. intro H.
  apply in_flat_map in H. destruct H as (f & _ & H).
  apply in_flat_map in H. destruct H as (i & _ & H).
  destruct (_ && _)%bool; [|contradiction].
  destruct H as [<-|[]]. reflexivity.
Qed.

Lemma victim_record_of_option (critical : list command_center.Net.t)
  (name : string) :
  In name (command_center.victim_options critical) ->
  exists victim,
    command_center.victim_record critical name = Returned victim
    /\ In victim critical
    /\ command_center.Net.FACILITY_NAME victim = name.
Proof.
  unfold command_center.victim_options, unique. intro H.
  apply unique_from_in in H. destruct H as [H _].
  apply in_map_iff in H. destruct H as (r & Hname & Hr).
  unfold command_center.victim_record.
  destruct (filter (fun r0 => (command_center.Net.FACILITY_NAME r0 =? name)%string)
              critical) as [|v rest] eqn:E.
  - exfalso.
    assert (Hin : In r (filter (fun r0 =>
                   (command_center.Net.FACILITY_NAME r0 =? name)%string) critical)).
    { apply filter_In. split; [exact Hr | apply String.eqb_eq; exact Hname]. }
    rewrite E in Hin. destruct Hin.
  - exists v. split; [reflexivity|].
    assert (Hin : In v (filter (fun r0 =>
                   (command_center.Net.FACILITY_NAME r0 =? name)%string) critical))
      by (rewrite E; left; reflexivity).
    apply filter_In in Hin. destruct Hin as [Hin Hn].
    apply String.eqb_eq in Hn. auto.
Qed.

(** X16.  The emergency console of [src/streamlit_app.py] runs the neighbor
    search only for a site that is out of the selected item: for every
    non-empty hospital name its selector offers, the look-up of the victim's
    record succeeds, the record is a row of the network frame for the
    selected item with closing stock 0, and the page shows the warning
    banner followed by the neighbor search for that record's facility id,
    which becomes the binding of [victim_id].  With no hospital selected the
    page shows a banner only, runs no search and binds nothing. *)
Theorem console_searches_for_stocked_out_site (session : Session)
  (CURRENT_DATE : Z) (facilities : list Fac.t)
  (daily : list command_center.Daily.t) (actual_item_name : string) :
  let df := command_center.load_network_status_query CURRENT_DATE facilities daily in
  let df_filtered := command_center.df_filtered df actual_item_name in
  let critical_hospitals := command_center.critical_hospitals df_filtered in
  (forall name,
      In name (command_center.victim_options critical_hospitals) ->
      name <> "" ->
      exists victim,
        command_center.victim_record critical_hospitals name = Returned victim
        /\ In victim df
        /\ command_center.Net.FACILITY_NAME victim = name
        /\ command_center.Net.ITEM_NAME victim = actual_item_name
        /\ command_center.Net.CLOSING_STOCK victim = 0
        /\ command_center.emergency_response_console session df_filtered
             actual_item_name (Some name)
           = (st_warning_action_required
                (command_center.critical_stock_outs df_filtered) actual_item_name
              :: map shown
                   (fst (streamlit_app.emergency_console session
                           (command_center.Net.FACILITY_ID victim)
                           actual_item_name)),
              match snd (streamlit_app.emergency_console session
                           (command_center.Net.FACILITY_ID victim)
                           actual_item_name) with
              | Returned _ => Returned (Some (command_center.Net.FACILITY_ID victim))
              | Raised e => Raised e
              end))
  /\ (command_center.emergency_response_console session df_filtered
        actual_item_name None
      = if Nat.ltb 0 (command_center.critical_stock_outs df_filtered)
        then ([st_warning_action_required
                 (command_center.critical_stock_outs df_filtered)
                 actual_item_name], Returned None)
        else ([st_info_all_healthy], Returned None)).
Proof.
  intros df df_filtered critical_hospitals. split.
  - intros name Hopt Hne.
    destruct (victim_record_of_option critical_hospitals name Hopt)
      as (victim & Hrec & Hin & Hname).
    exists victim. split; [exact Hrec|].
    assert (Hcrit := Hin). unfold critical_hospitals in Hcrit.
    unfold command_center.critical_hospitals in Hcrit.
    apply filter_In in Hcrit. destruct Hcrit as [Hdff Hst].
    apply status_eqb_eq in Hst.
    unfold df_filtered, command_center.df_filtered in Hdff.
    apply filter_In in Hdff. destruct Hdff as [Hdf Hitem].
    apply String.eqb_eq in Hitem.
    split; [exact Hdf|]. split; [exact Hname|]. split; [exact Hitem|]. split.
    + apply network_status_critical.
      rewrite <- (load_network_status_row _ _ _ _ Hdf). exact Hst.
    + unfold command_center.emergency_response_console.
      fold critical_hospitals.
      assert (Hpos : Nat.ltb 0 (List.length critical_hospitals) = true).
      { apply Nat.ltb_lt. destruct critical_hospitals; [destruct Hin | simpl; lia]. }
      rewrite Hpos.
      assert (Htruthy : truthy (Some name) = Some name)
        by (destruct name; [congruence | reflexivity]).
      rewrite Htruthy, Hrec.
      unfold command_center.critical_stock_outs. fold critical_hospitals.
      unfold pbind, pemit, on_page, pret, lift. cbn [fst snd]. cbv zeta.
      destruct (streamlit_app.emergency_console session
                  (command_center.Net.FACILITY_ID victim) actual_item_name)
        as [log [u|e]]; simpl; rewrite ?app_nil_r; reflexivity.
  - unfold command_center.emergency_response_console,
      command_center.critical_stock_outs.
    fold critical_hospitals.
    destruct (Nat.ltb 0 (List.length critical_hospitals)); reflexivity.
Qed.

Lemma console_searches_for_stocked_out_site_witness :
  exists victim,
    command_center.victim_record
      (command_center.critical_hospitals
         (command_center.df_filtered Samples2.df "Oxytocin Injection"))
      "RS Victim" = Returned victim
    /\ command_center.Net.FACILITY_ID victim = "F001"
    /\ command_center.Net.CLOSING_STOCK victim = 0.
Proof.
  destruct (console_searches_for_stocked_out_site Samples.healthy 20
              Samples.facilities Samples2.daily "Oxytocin Injection")
    as [Hsel _].
  destruct (Hsel "RS Victim") as (victim & Hrec & _ & _ & _ & Hzero & _).
  - vm_compute. auto.
  - discriminate.
  - exists victim. split; [exact Hrec|]. split; [|exact Hzero].
    assert (E : Returned victim
                = command_center.victim_record
                    (command_center.critical_hospitals
                       (command_center.df_filtered Samples2.df
                          "Oxytocin Injection")) "RS Victim")
      by (symmetry; exact Hrec).
    vm_compute in E. inversion E. reflexivity.
Defined.

(** ** The chat assistants and the session transcript *)

Lemma truthy_some (s : string) : s <> "" -> truthy (Some s) = Some s.
Proof. destruct s; [congruence | reflexivity]. Qed.

Lemma truthy_nonempty (o : option string) (s : string) :
  truthy o = Some s -> o = Some s /\ s <> "".
Proof.
  destruct o as [[|c t]|]; simpl; intro H; try discriminate.
  inversion H; subst. split; [reflexivity | discriminate].
Qed.

(** X17.  The sidebar assistant of [src/streamlit_app.py] records the user's
    prompt before anything can fail.  When no item is identified it answers
    so and the transcript grows by the prompt and the answer.  When an item
    is identified but no hospital was selected in the console, [victim_id]
    is unbound: the run ends in a NameError and the transcript is left with
    the prompt and no answer; likewise when the warehouse fails.  Otherwise
    the transcript grows by the prompt and one answer. *)
Theorem sidebar_chat_transcript (session : Session)
  (cortex : string -> option string)
  (messages : option (list (chat_message chat_reply))) (prompt : string) :
  let before := match messages with
                | None => [greeting]
                | Some m => m
                end in
  prompt <> "" ->
  (truthy (cortex prompt) = None ->
   forall victim_id,
     command_center.sidebar_chat session victim_id cortex messages (Some prompt)
     = ((before ++ [from_user prompt; from_assistant could_not_identify])%list,
        ([], Returned tt)))
  /\ (forall extracted_item,
        truthy (cortex prompt) = Some extracted_item ->
        command_center.sidebar_chat session None cortex messages (Some prompt)
        = ((before ++ [from_user prompt])%list,
           ([], Raised "NameError: name 'victim_id' is not defined"))
        /\ (forall victim_id e,
              failure session = Some e ->
              command_center.sidebar_chat session (Some victim_id) cortex
                messages (Some prompt)
              = ((before ++ [from_user prompt])%list, ([], Raised e)))
        /\ (forall victim_id,
              failure session = None ->
              exists reply,
                command_center.sidebar_chat session (Some victim_id) cortex
                  messages (Some prompt)
                = ((before ++ [from_user prompt;
                               from_assistant (answered reply)])%list,
                   ([], Returned tt)))).
Proof.
  intros before Hprompt. unfold command_center.sidebar_chat.
  rewrite (truthy_some prompt Hprompt). fold before. split.
  - intros Hnone victim_id. rewrite Hnone. rewrite <- app_assoc. reflexivity.
  - intros extracted_item Hsome. rewrite Hsome. split; [reflexivity|]. split.
    + intros victim_id e Hfail.
      unfold streamlit_app.chat_lateral_transfer.
      rewrite (main_fails _ _ _ _ Hfail). reflexivity.
    + intros victim_id Hok.
      unfold streamlit_app.chat_lateral_transfer,
        streamlit_app.find_nearest_neighbors, lift, sql_interpolated_to_pandas.
      rewrite Hok.
      destruct (sql_plain victim_id && sql_plain extracted_item)%bool; simpl.
      * destruct (streamlit_app.query victim_id extracted_item session)
          as [|top rest]; simpl; eexists; rewrite <- app_assoc; reflexivity.
      * destruct (injected session victim_id extracted_item)
          as [|top rest]; simpl; eexists; rewrite <- app_assoc; reflexivity.
Qed.

Lemma sidebar_chat_transcript_witness :
  command_center.sidebar_chat Samples.healthy None Samples2.cortex
    (Some [greeting]) (Some "any oxytocin nearby?")
  = ([greeting; from_user "any oxytocin nearby?"],
     ([], Raised "NameError: name 'victim_id' is not defined")).
Proof.
  destruct (sidebar_chat_transcript Samples.healthy Samples2.cortex
              (Some [greeting]) "any oxytocin nearby?") as [_ Hitem].
  - discriminate.
  - destruct (Hitem "Oxytocin Injection") as [Hname _].
    + vm_compute. reflexivity.
    + exact Hname.
Defined.

Lemma mvp_find_nearest_neighbors_returns (session : Session)
  (victim_id item_name : string) :
  exists log rows,
    streamlit_mvp.find_nearest_neighbors session victim_id item_name
    = (log, Returned rows).
Proof.
  unfold streamlit_mvp.find_nearest_neighbors, try_except, lift, sql_to_pandas.
  destruct (failure session); simpl; eexists; eexists; reflexivity.
Qed.

Lemma analyse_returns (session : Session) (df : list ops_platform.Stock.t)
  (df_reorder : list ops_platform.Reorder.t) (extracted_item : string) :
  df <> [] ->
  exists log resp,
    ops_platform.analyse session df df_reorder extracted_item
    = (log, Returned resp)
    /\ ops_platform.about resp = extracted_item.
Proof.
  intro Hdf. unfold ops_platform.analyse.
  destruct (ops_platform.procurement_status df_reorder extracted_item)
    as [is_urgent msg].
  assert (Ht : exists target,
             ops_platform.target_id df (ops_platform.crit_sites df extracted_item)
             = Returned target).
  { unfold ops_platform.target_id.
    destruct (ops_platform.crit_sites df extracted_item); [|eexists; reflexivity].
    destruct df; [congruence | eexists; reflexivity]. }
  destruct Ht as [target Ht]. rewrite Ht.
  destruct (mvp_find_nearest_neighbors_returns session target extracted_item)
    as (log & rows & Hf).
  unfold bind, lift. rewrite Hf. simpl.
  eexists. eexists. split; reflexivity.
Qed.

(** X18.  Once the session holds a transcript, the assistant tab of
    [src/streamlit_mvp/streamlit_app.py] never raises, whatever the
    warehouse does: a prompt makes the transcript grow by the prompt and
    exactly one answer -- a report on the identified item (the look-up of a
    target facility cannot fail, an identified item being an item of a
    non-empty frame) or the could-not-identify answer.  While the session
    holds no transcript, a prompt ends the run in an AttributeError and a
    run without prompt creates the transcript with its greeting. *)
Theorem assistant_tab_transcript (session : Session)
  (df : list ops_platform.Stock.t) (df_reorder : list ops_platform.Reorder.t) :
  (forall m prompt,
      prompt <> "" ->
      exists reply log,
        ops_platform.assistant_tab session df df_reorder (Some m) (Some prompt)
        = (Some (m ++ [from_user prompt; from_assistant reply])%list,
           (log, Returned tt))
        /\ match reply with
           | answered resp =>
               In (ops_platform.about resp) (map ops_platform.Stock.ITEM_NAME df)
               /\ streamlit_mvp.run_chat_action prompt
                    (unique (map ops_platform.Stock.ITEM_NAME df))
                  = Some (ops_platform.about resp)
           | could_not_identify =>
               log = []
               /\ truthy (streamlit_mvp.run_chat_action prompt
                            (unique (map ops_platform.Stock.ITEM_NAME df)))
                  = None
           end)
  /\ (forall prompt,
        prompt <> "" ->
        exists e,
          ops_platform.assistant_tab session df df_reorder None (Some prompt)
          = (None, ([], Raised e)))
  /\ ops_platform.assistant_tab session df df_reorder None None
     = (Some [greeting], ([], Returned tt)).
Proof.
  split; [|split].
  - intros m prompt Hprompt. unfold ops_platform.assistant_tab.
    rewrite (truthy_some prompt Hprompt).
    destruct (truthy (streamlit_mvp.run_chat_action prompt
                        (unique (map ops_platform.Stock.ITEM_NAME df))))
      as [extracted_item|] eqn:Eitem.
    + apply truthy_nonempty in Eitem. destruct Eitem as [Erun _].
      pose proof (run_chat_action_some _ _ _ Erun) as (Hin & _).
      unfold unique in Hin. apply unique_from_in in Hin. destruct Hin as [Hin _].
      assert (Hdf : df <> []) by (destruct df; [destruct Hin | discriminate]).
      destruct (analyse_returns session df df_reorder extracted_item Hdf)
        as (log & resp & Han & Habout).
      rewrite Han. exists (answered resp), log. split.
      * rewrite <- app_assoc. reflexivity.
      * rewrite Habout. split; [exact Hin | exact Erun].
    + exists could_not_identify, []. split.
      * rewrite <- app_assoc. reflexivity.
      * split; reflexivity.
  - intros prompt Hprompt. unfold ops_platform.assistant_tab.
    rewrite (truthy_some prompt Hprompt). eexists. reflexivity.
  - reflexivity.
Qed.

Lemma assistant_tab_transcript_witness :
  exists reply log,
    ops_platform.assistant_tab Samples.broken Samples2.stock_df
      Samples2.reorder_df (Some [greeting]) (Some "status of oxytocin")
    = (Some [greeting; from_user "status of oxytocin"; from_assistant reply],
       (log, Returned tt)).
Proof.
  destruct (assistant_tab_transcript Samples.broken Samples2.stock_df
              Samples2.reorder_df) as [Hprompt _].
  destruct (Hprompt [greeting] "status of oxytocin") as (reply & log & Hrun & _).
  - discriminate.
  - exists reply, log. exact Hrun.
Defined.

(** ** Status classes and the network metrics *)

Lemma query_inv_row (facilities : list Fac.t) (predicted : list ops_platform.Pred.t)
  (r : ops_platform.Stock.t) :
  In r (ops_platform.query_inv facilities predicted) ->
  ops_platform.Stock.STATUS r
  = ops_platform.STATUS_CASE (ops_platform.Stock.CLOSING_STOCK r)
      (ops_platform.Stock.PREDICTED_STOCKOUT_DAYS r)
  /\ exists i, In i predicted
               /\ ops_platform.Stock.CLOSING_STOCK r
                  = ops_platform.Pred.CLOSING_STOCK i.
Proof.
  unfold ops_platform.query_inv. intro H.
  apply in_flat_map in H. destruct H as (f & _ & H).
  apply in_flat_map in H. destruct H as (i & Hi & H).
  destruct (_ =? _)%string; [|contradiction].
  destruct H as [<-|[]]. split; [reflexivity|]. exists i. auto.
Qed.

Lemma filter_length_ext {A} (f g : A -> bool) (l : list A) :
  (forall x, In x l -> f x = g x) ->
  List.length (filter f l) = List.length (filter g l).
Proof.
  intro H. rewrite (filter_ext_in f g l H). reflexivity.
Qed.

Lemma count_three_classes (df : list ops_platform.Stock.t) :
  (forall r, In r df -> ops_platform.Stock.STATUS r <> LOW) ->
  (ops_platform.count_status CRITICAL df + ops_platform.count_status WARNING df
   + ops_platform.count_status HEALTHY df)%nat = List.length df.
Proof.
  unfold ops_platform.count_status.
  induction df as [|r df IH]; intro H; [reflexivity|].
  assert (IH' := IH (fun x Hx => H x (or_intror Hx))).
  specialize (H r (or_introl eq_refl)). simpl.
  destruct (ops_platform.Stock.STATUS r); simpl in *; try congruence; lia.
Qed.

(** X19.  The network metrics of the procurement tab agree with the STATUS
    column of the frame they are computed from: the stock-out count is the
    number of CRITICAL rows, and -- when no closing stock is negative -- the
    predicted-risk count is the number of WARNING rows, so that stock-outs,
    predicted risks and HEALTHY rows add up to the whole frame.  A NULL
    prediction counts as no risk on both sides. *)
Theorem network_metrics_match_status (facilities : list Fac.t)
  (predicted : list ops_platform.Pred.t) :
  let df := ops_platform.query_inv facilities predicted in
  ops_platform.total_stockouts df = ops_platform.count_status CRITICAL df
  /\ ((forall i, In i predicted -> 0 <= ops_platform.Pred.CLOSING_STOCK i) ->
      ops_platform.predicted_risk df = ops_platform.count_status WARNING df
      /\ (ops_platform.total_stockouts df + ops_platform.predicted_risk df
          + ops_platform.count_status HEALTHY df)%nat = List.length df).
Proof.
  intro df.
  assert (Hcrit : ops_platform.total_stockouts df
                  = ops_platform.count_status CRITICAL df).
  { unfold ops_platform.total_stockouts, ops_platform.count_status.
    apply filter_length_ext. intros r Hr.
    apply query_inv_row in Hr. destruct Hr as [-> _].
    unfold ops_platform.STATUS_CASE.
    destruct (ops_platform.Stock.CLOSING_STOCK r =? 0); [reflexivity|].
    destruct (ops_platform.lt_days _ _); reflexivity. }
  split; [exact Hcrit|]. intro Hnonneg.
  assert (Hrisk : ops_platform.predicted_risk df
                  = ops_platform.count_status WARNING df).
  { unfold ops_platform.predicted_risk, ops_platform.count_status.
    apply filter_length_ext. intros r Hr.
    apply query_inv_row in Hr. destruct Hr as [-> (i & Hi & Hc)].
    specialize (Hnonneg i Hi). rewrite <- Hc in Hnonneg.
    unfold ops_platform.STATUS_CASE.
    destruct (ops_platform.Stock.CLOSING_STOCK r =? 0) eqn:E0.
    - apply Z.eqb_eq in E0. rewrite E0. simpl. apply andb_false_r.
    - apply Z.eqb_neq in E0.
      assert (Hpos : (0 <? ops_platform.Stock.CLOSING_STOCK r) = true)
        by (apply Z.ltb_lt; lia).
      rewrite Hpos, andb_true_r.
      destruct (ops_platform.lt_days _ _); reflexivity. }
  split; [exact Hrisk|]. rewrite Hcrit, Hrisk.
  apply count_three_classes. intros r Hr.
  apply query_inv_row in Hr. destruct Hr as [-> _].
  unfold ops_platform.STATUS_CASE.
  destruct (_ =? 0); [discriminate|].
  destruct (ops_platform.lt_days _ _); discriminate.
Qed.

Lemma network_metrics_match_status_witness :
  ops_platform.predicted_risk Samples2.stock_df
  = ops_platform.count_status WARNING Samples2.stock_df
  /\ (ops_platform.total_stockouts Samples2.stock_df
      + ops_platform.predicted_risk Samples2.stock_df
      + ops_platform.count_status HEALTHY Samples2.stock_df)%nat
     = List.length Samples2.stock_df.
Proof.
  destruct (network_metrics_match_status Samples.facilities Samples2.predicted)
    as [_ H].
  apply H. intros i Hi. vm_compute in Hi.
  repeat (destruct Hi as [<-|Hi]; [vm_compute; discriminate|]). contradiction.
Defined.

(** X20.  The stock shown in a returned row is never one the dashboards
    flag: the AVAILABLE_STOCK of a row returned by the neighbor search of the
    MVP file is a stock that its view never classes as CRITICAL -- the class
    is WARNING exactly when the prediction is below 7 days, HEALTHY
    otherwise -- and the AVAILABLE_STOCK of a row returned by the search of
    [src/streamlit_app.py], for a victim id and an item name without quote
    or backslash, is a stock that the network view classes as HEALTHY. *)
Theorem saviors_are_not_flagged (session : Session)
  (victim_id item_name : string) :
  (sql_plain victim_id = true -> sql_plain item_name = true ->
   Forall (fun r => command_center.STATUS_CASE (AVAILABLE_STOCK r) = HEALTHY)
          (returned_rows (streamlit_app.find_nearest_neighbors
                            session victim_id item_name)))
  /\ Forall (fun r =>
       forall PREDICTED_STOCKOUT_DAYS,
         ops_platform.STATUS_CASE (AVAILABLE_STOCK r) PREDICTED_STOCKOUT_DAYS
         = if ops_platform.lt_days PREDICTED_STOCKOUT_DAYS (7 # 1)
           then WARNING else HEALTHY)
       (returned_rows (streamlit_mvp.find_nearest_neighbors
                         session victim_id item_name)).
Proof.
  split.
  - intros Hv Hi. rewrite (returned_rows_main _ _ _ Hv Hi).
    destruct (failure session); [constructor|].
    apply Forall_forall; intros r Hr.
    apply in_query_main in Hr. destruct Hr as [Hr _].
    apply in_candidates in Hr. destruct Hr as [_ Hstock].
    unfold command_center.STATUS_CASE.
    assert (E0 : (AVAILABLE_STOCK r =? 0) = false) by (apply Z.eqb_neq; lia).
    assert (E50 : (AVAILABLE_STOCK r <? 50) = false) by (apply Z.ltb_ge; lia).
    rewrite E0, E50. reflexivity.
  - rewrite returned_rows_mvp.
    destruct (failure session); [constructor|].
    apply Forall_forall; intros r Hr.
    apply in_query_mvp in Hr. apply in_candidates in Hr.
    destruct Hr as [_ Hstock]. intro days.
    unfold ops_platform.STATUS_CASE.
    assert (E0 : (AVAILABLE_STOCK r =? 0) = false) by (apply Z.eqb_neq; lia).
    rewrite E0. reflexivity.
Qed.

Lemma saviors_are_not_flagged_witness :
  Forall (fun r => command_center.STATUS_CASE (AVAILABLE_STOCK r) = HEALTHY)
         (returned_rows (streamlit_app.find_nearest_neighbors
                           Samples.healthy "F001" "Oxytocin Injection")).
Proof.
  destruct (saviors_are_not_flagged Samples.healthy "F001" "Oxytocin Injection")
    as [Hmain _].
  apply Hmain; reflexivity.
Defined.

(** ** The network view and the dates of the inventory rows *)

Lemma fold_max_ge (l : list Z) (a : Z) : a <= fold_left Z.max l a.
Proof.
  revert a. induction l as [|x l IH]; intro a; simpl; [lia|].
  specialize (IH (Z.max a x)). lia.
Qed.

Lemma fold_max_spec (l : list Z) (a : Z) :
  (fold_left Z.max l a = a \/ In (fold_left Z.max l a) l)
  /\ forall x, In x l -> x <= fold_left Z.max l a.
Proof.
  revert a. induction l as [|y l IH]; intro a; simpl.
  - split; [left; reflexivity | intros x []].
  - destruct (IH (Z.max a y)) as [Hin Hmax]. split.
    + destruct Hin as [Heq|Hin]; [|right; right; exact Hin].
      rewrite Heq. destruct (Z.max_spec a y) as [[_ ->]|[_ ->]]; auto.
    + intros x [Hxy|Hx]; [subst x | apply Hmax; exact Hx].
      pose proof (fold_max_ge l (Z.max a y)). lia.
Qed.

Lemma MAX_DATE_spec (daily : list command_center.Daily.t) (i : command_center.Daily.t) :
  In i daily ->
  exists m,
    command_center.MAX_DATE daily = Some m
    /\ (command_center.Daily.DATE i = m <->
        forall j, In j daily ->
                  command_center.Daily.DATE j <= command_center.Daily.DATE i).
Proof.
  intro Hi. destruct daily as [|d rest]; [destruct Hi|].
  unfold command_center.MAX_DATE.
  set (m := fold_left Z.max (map command_center.Daily.DATE rest)
              (command_center.Daily.DATE d)).
  exists m. split; [reflexivity|].
  destruct (fold_max_spec (map command_center.Daily.DATE rest)
              (command_center.Daily.DATE d)) as [Hin Hmax]. fold m in Hin, Hmax.
  assert (Hall : forall j, In j (d :: rest) -> command_center.Daily.DATE j <= m).
  { intros j [<-|Hj].
    - apply fold_max_ge.
    - apply Hmax. apply in_map. exact Hj. }
  assert (Hex : exists k, In k (d :: rest) /\ command_center.Daily.DATE k = m).
  { destruct Hin as [Heq|Hin].
    - exists d. split; [left; reflexivity | symmetry; exact Heq].
    - apply in_map_iff in Hin. destruct Hin as (k & Hk & Hin).
      exists k. split; [right; exact Hin | exact Hk]. }
  split.
  - intros <-. exact Hall.
  - intro Hle. destruct Hex as (k & Hk & Hkm).
    specialize (Hle k Hk). specialize (Hall i Hi). lia.
Qed.

(** X21.  The network view of [src/streamlit_app.py] holds exactly the
    inventory rows of the facilities that are dated today or on the latest
    date of the table, each with the status computed from its closing
    stock: rows of any other date are left out. *)
Theorem network_view_is_today_or_latest (CURRENT_DATE : Z)
  (facilities : list Fac.t) (daily : list command_center.Daily.t)
  (r : command_center.Net.t) :
  In r (command_center.load_network_status_query CURRENT_DATE facilities daily)
  <->
  exists f i,
    In f facilities /\ In i daily
    /\ Fac.FACILITY_ID f = command_center.Daily.FACILITY_ID i
    /\ (command_center.Daily.DATE i = CURRENT_DATE
        \/ forall j, In j daily ->
                     command_center.Daily.DATE j <= command_center.Daily.DATE i)
    /\ r = {| command_center.Net.FACILITY_ID := Fac.FACILITY_ID f;
              command_center.Net.FACILITY_NAME := Fac.FACILITY_NAME f;
              command_center.Net.LATITUDE := Fac.LATITUDE f;
              command_center.Net.LONGITUDE := Fac.LONGITUDE f;
              command_center.Net.ITEM_NAME := command_center.Daily.ITEM_NAME i;
              command_center.Net.CLOSING_STOCK :=
                command_center.Daily.CLOSING_STOCK i;
              command_center.Net.CRITICALITY_LEVEL :=
                command_center.Daily.CRITICALITY_LEVEL i;
              command_center.Net.STATUS :=
                command_center.STATUS_CASE (command_center.Daily.CLOSING_STOCK i) |}.
Proof.
  unfold command_center.load_network_status_query. rewrite in_flat_map. split.
  - intros (f & Hf & H). apply in_flat_map in H. destruct H as (i & Hi & H).
    destruct (MAX_DATE_spec daily i Hi) as (m & Hm & Hiff).
    rewrite Hm in H.
    destruct (Fac.FACILITY_ID f =? command_center.Daily.FACILITY_ID i)%string
      eqn:Eid; [|destruct H].
    destruct ((command_center.Daily.DATE i =? CURRENT_DATE)
              || (command_center.Daily.DATE i =? m))%bool eqn:Edate; [|destruct H].
    simpl in H. destruct H as [<-|[]].
    apply String.eqb_eq in Eid. apply orb_true_iff in Edate.
    exists f, i. repeat split; auto.
    destruct Edate as [E|E]; apply Z.eqb_eq in E; [left; exact E|].
    right. apply Hiff. exact E.
  - intros (f & i & Hf & Hi & Hid & Hdate & ->).
    exists f. split; [exact Hf|]. apply in_flat_map. exists i. split; [exact Hi|].
    destruct (MAX_DATE_spec daily i Hi) as (m & Hm & Hiff). rewrite Hm.
    assert (Eid : (Fac.FACILITY_ID f =? command_center.Daily.FACILITY_ID i)%string
                  = true) by (apply String.eqb_eq; exact Hid).
    assert (Edate : ((command_center.Daily.DATE i =? CURRENT_DATE)
                     || (command_center.Daily.DATE i =? m))%bool = true).
    { apply orb_true_iff. destruct Hdate as [E|E].
      - left. apply Z.eqb_eq. exact E.
      - right. apply Z.eqb_eq. apply Hiff. exact E. }
    rewrite Eid, Edate. left. reflexivity.
Qed.

(** ** The generated data as the dashboards class it *)

(** X22.  Loaded into the warehouse, the generator's rows never show as LOW
    in the network view of [src/streamlit_app.py]: the Oxytocin Injection
    rows of the victims are CRITICAL and every other row is HEALTHY; and
    every Oxytocin Injection row of a savior that is not a victim passes the
    stock filter of the neighbor search (more than 100 units). *)
Theorem generated_rows_as_classed (geodesic_km : Q * Q -> Q * Q -> Q)
  (df_facilities : list inventory_data_generator.Hosp.t) (current_date : string)
  (rng : inventory_data_generator.tape) :
  exists savior_ids rows,
    inventory_data_generator.find_saviors geodesic_km df_facilities
      (inventory_data_generator.victims_of df_facilities) = Returned savior_ids
    /\ inventory_data_generator.generate_inventory geodesic_km
         (Some df_facilities) current_date rng = Returned (Some rows)
    /\ Forall (fun r =>
         let victim_row :=
           inventory_data_generator.Out.ITEM_NAME r = "Oxytocin Injection"
           /\ In (inventory_data_generator.Out.FACILITY_ID r)
                 (inventory_data_generator.victims_of df_facilities) in
         (victim_row ->
          command_center.STATUS_CASE
            (inventory_data_generator.Out.CLOSING_STOCK r) = CRITICAL)
         /\ (~ victim_row ->
             command_center.STATUS_CASE
               (inventory_data_generator.Out.CLOSING_STOCK r) = HEALTHY)
         /\ (inventory_data_generator.Out.ITEM_NAME r = "Oxytocin Injection" ->
             In (inventory_data_generator.Out.FACILITY_ID r) savior_ids ->
             ~ In (inventory_data_generator.Out.FACILITY_ID r)
                  (inventory_data_generator.victims_of df_facilities) ->
             100 < inventory_data_generator.Out.CLOSING_STOCK r)) rows.
Proof.
  destruct (generate_inventory_returns geodesic_km df_facilities current_date rng)
    as (savior_ids & Hs & Hgen).
  exists savior_ids. eexists. split; [exact Hs|]. split; [exact Hgen|].
  apply Forall_forall. intros r Hr.
  destruct (inventory_rows_spec current_date
              (inventory_data_generator.victims_of df_facilities) savior_ids
              df_facilities rng) as [Hall _].
  destruct (Hall r Hr) as (fac & it & _ & Hfid & Hitem & Hclose & Hfig).
  cbv zeta. rewrite Hitem, Hfid, Hclose.
  destruct (inventory_data_generator.name it =? "Oxytocin Injection")%string
    eqn:Ename.
  - apply String.eqb_eq in Ename.
    destruct (inventory_data_generator.id_in (inventory_data_generator.Hosp.FACILITY_ID fac)
                (inventory_data_generator.victims_of df_facilities)) eqn:Ev.
    + apply id_in_iff in Ev. simpl in Hfig.
      destruct Hfig as (-> & -> & ->). simpl. split; [reflexivity|].
      split; [intro Hn; exfalso; apply Hn; auto|].
      intros _ _ Hnot. contradiction.
    + assert (Hnv : ~ In (inventory_data_generator.Hosp.FACILITY_ID fac)
                      (inventory_data_generator.victims_of df_facilities)).
      { intro Hin. apply id_in_iff in Hin. congruence. }
      destruct (inventory_data_generator.id_in (inventory_data_generator.Hosp.FACILITY_ID fac) savior_ids)
        eqn:Esv; simpl in Hfig.
      * destruct Hfig as (-> & -> & ->). simpl.
        split; [intros [_ Hin]; contradiction|].
        split; [reflexivity | intros; lia].
      * assert (Hns : ~ In (inventory_data_generator.Hosp.FACILITY_ID fac)
                        savior_ids).
        { intro Hin. apply id_in_iff in Hin. congruence. }
        split; [intros [_ Hin]; contradiction|].
        split; [|intros _ Hin; contradiction].
        intros _. unfold command_center.STATUS_CASE.
        rewrite Z.max_r by lia.
        assert (E0 : (inventory_data_generator.Out.OPENING_STOCK r
                      + inventory_data_generator.Out.RECEIVED_QTY r
                      - inventory_data_generator.Out.ISSUED_QTY r =? 0) = false)
          by (apply Z.eqb_neq; lia).
        assert (E50 : (inventory_data_generator.Out.OPENING_STOCK r
                       + inventory_data_generator.Out.RECEIVED_QTY r
                       - inventory_data_generator.Out.ISSUED_QTY r <? 50) = false)
          by (apply Z.ltb_ge; lia).
        rewrite E0, E50. reflexivity.
  - apply String.eqb_neq in Ename. simpl in Hfig.
    split; [intros [Hn _]; contradiction|].
    split; [|intros Hn; contradiction].
    intros _. unfold command_center.STATUS_CASE.
    rewrite Z.max_r by lia.
    assert (E0 : (inventory_data_generator.Out.OPENING_STOCK r
                  + inventory_data_generator.Out.RECEIVED_QTY r
                  - inventory_data_generator.Out.ISSUED_QTY r =? 0) = false)
      by (apply Z.eqb_neq; lia).
    assert (E50 : (inventory_data_generator.Out.OPENING_STOCK r
                   + inventory_data_generator.Out.RECEIVED_QTY r
                   - inventory_data_generator.Out.ISSUED_QTY r <? 50) = false)
      by (apply Z.ltb_ge; lia).
    rewrite E0, E50. reflexivity.
Qed.
